(** * rrc-web: the RRC protocol client, backend coordinator and hub discovery

    A shallow embedding of the parts of [rrc_web] that the specification talks
    about ([codec.py], [envelope.py], [utils.py], [client.py], [backend.py]),
    followed by the properties proved about them.

    Conventions.
    - A Python [str] is the list of its code points, a [bytes] object the list
      of its octets.
    - Clock readings ([time.monotonic()], [time.time()]) are floats in the
      source; they are rationals here (every finite float is one), and the
      reading is an explicit argument [now] of each function that takes it.
    - A Python [dict] keeps insertion order; it is an association list whose
      update replaces in place or appends.
    - Locks are not modelled: each function is one atomic step. *)

From Stdlib Require Import ZArith QArith Lqa List Lia Bool String Ascii.
From stdpp Require Import base list gmap.

Local Open Scope Z_scope.

(** ** Python values and builtins *)
Module Py.

Definition pystr := list Z.
Definition bytes := list Z.

(** A literal of the source as code points. *)
Fixpoint str_lit (s : string) : pystr :=
  match s with
  | EmptyString => []
  | String a r => Z.of_N (N_of_ascii a) :: str_lit r
  end.

(** [str.isspace] for one code point, which is what [str.strip()] removes. *)
Definition is_space (c : Z) : bool :=
  ((9 <=? c) && (c <=? 13)) || ((28 <=? c) && (c <=? 32))
  || (c =? 133) || (c =? 160) || (c =? 5760)
  || ((8192 <=? c) && (c <=? 8202))
  || (c =? 8232) || (c =? 8233) || (c =? 8239) || (c =? 8287) || (c =? 12288).

Fixpoint lstrip (s : pystr) : pystr :=
  match s with
  | c :: r => if is_space c then lstrip r else s
  | [] => []
  end.

Fixpoint take_while (p : Z -> bool) (s : pystr) : pystr :=
  match s with
  | c :: r => if p c then c :: take_while p r else []
  | [] => []
  end.

Definition rstrip (s : pystr) : pystr := rev (lstrip (rev s)).

Definition strip (s : pystr) : pystr := rstrip (lstrip s).

Definition startswith (s p : pystr) : bool := bool_decide (take (length p) s = p).

Definition hex_digit (n : Z) : Z := if n <? 10 then 48 + n else 87 + n.

(** [bytes.hex()] *)
Definition hex (b : bytes) : pystr :=
  flat_map (fun x => [hex_digit (x / 16); hex_digit (x mod 16)]) b.

(** A float: not-a-number, an infinity, or the 64 bits of a finite binary64. *)
Inductive pyfloat :=
| FNan
| FInf (negative : bool)
| FFinite (bits : Z).

#[local] Set Warnings "-register-all".

Inductive pyval :=
| VNone
| VUndefined
| VBool (b : bool)
| VInt (z : Z)
| VFloat (f : pyfloat)
| VStr (s : pystr)
| VBytes (b : bytes)
| VList (l : list pyval)
| VDict (d : list (pyval * pyval)).

(** The number a finite binary64 stands for. *)
Definition float_value (bits : Z) : Q :=
  let sign := bits / 2 ^ 63 in
  let e := (bits / 2 ^ 52) mod 2 ^ 11 in
  let m := bits mod 2 ^ 52 in
  let mant := if e =? 0 then m else 2 ^ 52 + m in
  let ex := if e =? 0 then -1074 else e - 1075 in
  let smant := if sign =? 0 then mant else - mant in
  if 0 <=? ex then inject_Z (smant * 2 ^ ex)
  else Qmake smant (Z.to_pos (2 ^ (- ex))).

Inductive pynum :=
| NumQ (q : Q)
| NumInf (negative : bool)
| NumNan.

Definition num_value (v : pyval) : option pynum :=
  match v with
  | VBool b => Some (NumQ (inject_Z (if b then 1 else 0)))
  | VInt z => Some (NumQ (inject_Z z))
  | VFloat FNan => Some NumNan
  | VFloat (FInf s) => Some (NumInf s)
  | VFloat (FFinite bits) => Some (NumQ (float_value bits))
  | _ => None
  end.

Definition num_eqb (a b : pynum) : bool :=
  match a, b with
  | NumQ x, NumQ y => Qeq_bool x y
  | NumInf s, NumInf t => Bool.eqb s t
  | _, _ => false
  end.

(** Equality of two dictionary keys ([==] on hashable values): numbers
    compare by value across [bool], [int] and [float]; a NaN equals
    nothing. *)
Definition key_eqb (a b : pyval) : bool :=
  match a, b with
  | VNone, VNone => true
  | VUndefined, VUndefined => true
  | VStr s, VStr t => bool_decide (s = t)
  | VBytes s, VBytes t => bool_decide (s = t)
  | _, _ =>
      match num_value a, num_value b with
      | Some x, Some y => num_eqb x y
      | _, _ => false
      end
  end.

#[global] Arguments key_eqb : simpl never.

Definition hashable (v : pyval) : bool :=
  match v with
  | VList _ | VDict _ => false
  | _ => true
  end.

(** [d.get(k)] *)
Fixpoint dict_get (k : pyval) (d : list (pyval * pyval)) : option pyval :=
  match d with
  | [] => None
  | (k', v) :: r => if key_eqb k' k then Some v else dict_get k r
  end.

(** [d[k] = v]: the value of an equal key is replaced where it stands (the
    key object stays), a new key goes to the end. *)
Fixpoint dict_set (k v : pyval) (d : list (pyval * pyval)) : list (pyval * pyval) :=
  match d with
  | [] => [(k, v)]
  | (k', v') :: r =>
      if key_eqb k' k then (k', v) :: r else (k', v') :: dict_set k v r
  end.

Definition is_none (v : pyval) : bool :=
  match v with
  | VNone => true
  | _ => false
  end.

(** The keys [ks] are new to a dictionary with the keys [seen], and to each
    other: no key equals an earlier one. *)
Fixpoint distinct_keys (seen ks : list pyval) : bool :=
  match ks with
  | [] => true
  | k :: r =>
      forallb (fun k' => negb (key_eqb k' k)) seen && distinct_keys (seen ++ [k]) r
  end.

(** The values that exist as Python objects: the bits of a finite float are
    those of a binary64 that is neither an infinity nor a NaN, and the keys
    of a [dict] are hashable and pairwise different. *)
Fixpoint well_formed (v : pyval) : bool :=
  match v with
  | VFloat (FFinite bits) =>
      (0 <=? bits) && (bits <? 2 ^ 64) && negb ((bits / 2 ^ 52) mod 2 ^ 11 =? 2047)
  | VList l => forallb well_formed l
  | VDict d =>
      forallb (fun kv : pyval * pyval =>
                 hashable kv.1 && well_formed kv.1 && well_formed kv.2) d
      && distinct_keys [] (map fst d)
  | _ => true
  end.

(** [isinstance(v, int)], which holds of a [bool] too, with the integer. *)
Definition as_int (v : pyval) : option Z :=
  match v with
  | VInt z => Some z
  | VBool b => Some (if b then 1 else 0)
  | _ => None
  end.

(** What the interpreter supplies: [str.lower], the length of [str(v)], and
    [bytes.decode("utf-8")] ([None] when it raises). *)
Class Builtins := {
  lower : pystr -> pystr;
  repr_len : pyval -> nat;
  utf8_decode : bytes -> option pystr
}.

(** The [cbor2] library: [dumps] and [loads] ([None] when they raise). *)
Class Cbor2 := {
  dumps : pyval -> option bytes;
  loads : bytes -> option pyval
}.

(** [min(xs, key=f)]: the first element whose key is the least; [None] is the
    [ValueError] on an empty sequence. *)
Fixpoint min_from {A} (f : A -> Q) (best : A) (xs : list A) : A :=
  match xs with
  | [] => best
  | x :: r => min_from f (if Qlt_le_dec (f x) (f best) then x else best) r
  end.

Definition py_min {A} (f : A -> Q) (xs : list A) : option A :=
  match xs with
  | [] => None
  | x :: r => Some (min_from f x r)
  end.

End Py.
Import Py.

(** ** Insertion-ordered dictionaries with keys compared by [=] *)
Section OrderedDict.
Context {K V : Type} `{EqDecision K}.

Fixpoint od_get (k : K) (d : list (K * V)) : option V :=
  match d with
  | [] => None
  | (k', v) :: r => if decide (k' = k) then Some v else od_get k r
  end.

Fixpoint od_set (k : K) (v : V) (d : list (K * V)) : list (K * V) :=
  match d with
  | [] => [(k, v)]
  | (k', v') :: r =>
      if decide (k' = k) then (k, v) :: r else (k', v') :: od_set k v r
  end.

(** [del d[k]] *)
Fixpoint od_del (k : K) (d : list (K * V)) : list (K * V) :=
  match d with
  | [] => []
  | (k', v) :: r => if decide (k' = k) then r else (k', v) :: od_del k r
  end.

Definition od_keys (d : list (K * V)) : list K := map fst d.
End OrderedDict.

(** ** constants.py *)
Module Constants.
Definition RRC_VERSION : Z := 1.

Definition K_V : Z := 0.
Definition K_T : Z := 1.
Definition K_ID : Z := 2.
Definition K_TS : Z := 3.
Definition K_SRC : Z := 4.
Definition K_ROOM : Z := 5.
Definition K_BODY : Z := 6.
Definition K_NICK : Z := 7.

Definition T_HELLO : Z := 1.
Definition T_WELCOME : Z := 2.
Definition T_JOIN : Z := 10.
Definition T_JOINED : Z := 11.
Definition T_PART : Z := 12.
Definition T_PARTED : Z := 13.
Definition T_MSG : Z := 20.
Definition T_NOTICE : Z := 21.
Definition T_PING : Z := 30.
Definition T_PONG : Z := 31.
Definition T_ERROR : Z := 40.
Definition T_RESOURCE_ENVELOPE : Z := 50.

Definition B_RES_ID : Z := 0.
Definition B_RES_KIND : Z := 1.
Definition B_RES_SIZE : Z := 2.
Definition B_RES_SHA256 : Z := 3.
Definition B_RES_ENCODING : Z := 4.
End Constants.
Import Constants.

(** ** Exceptions *)
Inductive exn :=
| TypeError (msg : string)
| ValueError (msg : string).

Inductive res (A : Type) :=
| Ok (a : A)
| Raise (e : exn).
Arguments Ok {A} a.
Arguments Raise {A} e.

#[global] Instance res_ret : MRet res := fun A a => Ok a.
#[global] Instance res_bind : MBind res := fun A B k r =>
  match r with
  | Ok a => k a
  | Raise e => Raise e
  end.

Definition raise_if (c : bool) (e : exn) : res unit :=
  if c then Raise e else Ok tt.

Definition is_ok {A} (r : res A) : bool :=
  match r with Ok _ => true | Raise _ => false end.

(** ** envelope.py *)
Module Envelope.

(** The loop over the keys of the envelope. *)
Fixpoint check_keys (ks : list pyval) : res unit :=
  match ks with
  | [] => Ok tt
  | k :: r =>
      match as_int k with
      | None => Raise (TypeError "envelope keys must be integers")
      | Some n =>
          raise_if (n <? 0) (ValueError "envelope keys must be unsigned integers") ;;
          check_keys r
      end
  end.

(** The loop over the required keys. *)
Fixpoint check_required (ks : list Z) (d : list (pyval * pyval)) : res unit :=
  match ks with
  | [] => Ok tt
  | k :: r =>
      match dict_get (VInt k) d with
      | None => Raise (ValueError "missing required envelope key")
      | Some _ => check_required r d
      end
  end.

(** [env[k]] for a key known to be present. *)
Definition item (k : Z) (d : list (pyval * pyval)) : pyval :=
  default VNone (dict_get (VInt k) d).

Definition expect_int (v : pyval) (msg : string) : res Z :=
  match as_int v with
  | Some n => Ok n
  | None => Raise (TypeError msg)
  end.

Definition expect_bytes (v : pyval) (msg : string) : res bytes :=
  match v with
  | VBytes b => Ok b
  | _ => Raise (TypeError msg)
  end.

Definition expect_str (v : pyval) (msg : string) : res pystr :=
  match v with
  | VStr s => Ok s
  | _ => Raise (TypeError msg)
  end.

(** [isinstance(body, (str, int, float, bool, dict, list, bytes, bytearray))] *)
Definition body_type_ok (body : pyval) : bool :=
  match body with
  | VStr _ | VInt _ | VFloat _ | VBool _ | VDict _ | VList _ | VBytes _ => true
  | VNone | VUndefined => false
  end.

(** The three optional fields. *)
Definition check_room (d : list (pyval * pyval)) : res unit :=
  match dict_get (VInt K_ROOM) d with
  | Some room =>
      room ← expect_str room "room name must be a string" ;
      raise_if (Z.of_nat (length room) =? 0) (ValueError "room name cannot be empty") ;;
      raise_if (64 <? Z.of_nat (length room))
               (ValueError "room name too long (max 64 characters)")
  | None => Ok tt
  end.

Definition check_nick (d : list (pyval * pyval)) : res unit :=
  match dict_get (VInt K_NICK) d with
  | Some nick =>
      nick ← expect_str nick "nickname must be a string" ;
      raise_if (Z.of_nat (length nick) =? 0) (ValueError "nickname cannot be empty") ;;
      raise_if (32 <? Z.of_nat (length nick))
               (ValueError "nickname too long (max 32 characters)")
  | None => Ok tt
  end.

Definition check_body (d : list (pyval * pyval)) : res unit :=
  match dict_get (VInt K_BODY) d with
  | Some body =>
      raise_if (negb (is_none body) && negb (body_type_ok body))
               (TypeError "body has unsupported type")
  | None => Ok tt
  end.

Definition validate_envelope (env : pyval) : res unit :=
  match env with
  | VDict d =>
      check_keys (map fst d) ;;
      check_required [K_V; K_T; K_ID; K_TS; K_SRC] d ;;
      v ← expect_int (item K_V d) "protocol version must be an integer" ;
      raise_if (negb (v =? RRC_VERSION)) (ValueError "unsupported protocol version") ;;
      t ← expect_int (item K_T d) "message type must be an integer" ;
      raise_if (t <? 0) (ValueError "message type must be unsigned") ;;
      mid ← expect_bytes (item K_ID d) "message ID must be bytes" ;
      raise_if (negb (Z.of_nat (length mid) =? 8))
               (ValueError "message ID must be exactly 8 bytes") ;;
      ts ← expect_int (item K_TS d) "timestamp must be an integer" ;
      raise_if (ts <? 0) (ValueError "timestamp must be unsigned") ;;
      src ← expect_bytes (item K_SRC d) "source identity must be bytes" ;
      raise_if (negb ((Z.of_nat (length src) =? 16) || (Z.of_nat (length src) =? 32)))
               (ValueError "source identity hash has unexpected length") ;;
      check_room d ;;
      check_nick d ;;
      check_body d
  | _ => Raise (TypeError "envelope must be a dict")
  end.

End Envelope.

(** ** The CBOR data items that [cbor2] writes for these values (RFC 8949)

    [dumps] follows the default encoder of [cbor2]: definite lengths, the
    shortest head, [dict] items in iteration order, integers beyond 64 bits
    as bignums (tags 2 and 3), finite floats in 8 bytes, NaN and the
    infinities in 2.  [loads] reads the first data item and leaves the rest
    unread, as [cbor2.loads] does.  It reads every head width, the three
    float widths and the bignum tags.

    The model covers [cbor2.loads] on the data items that [dumps] writes
    for the values above, which is where the theorems use it, and no
    further.  Indefinite lengths, other tags, other simple values and
    container keys have no counterpart among the values above: the model
    fails on them where [cbor2] builds an object.  The model has no limit
    on the nesting either, where [cbor2] raises on an item nested deeper
    than it, or the recursion limit of the interpreter, allows; the round
    trip below is stated for items nested at most 16 levels deep. *)
Module Cbor.

(** [n.to_bytes(k, "big")] *)
Fixpoint be_bytes (k : nat) (n : Z) : bytes :=
  match k with
  | O => []
  | S k' => be_bytes k' (n / 256) ++ [n mod 256]
  end.

(** [int.from_bytes(bs, "big")] *)
Definition be_value (bs : bytes) : Z := fold_left (fun a b => a * 256 + b) bs 0.

(** [encode_length]: the head of a data item; [struct.pack] raises beyond
    64 bits. *)
Definition encode_length (major n : Z) : option bytes :=
  if n <? 24 then Some [major * 32 + n]
  else if n <? 256 then Some [major * 32 + 24; n]
  else if n <? 65536 then Some (major * 32 + 25 :: be_bytes 2 n)
  else if n <? 4294967296 then Some (major * 32 + 26 :: be_bytes 4 n)
  else if n <? 18446744073709551616 then Some (major * 32 + 27 :: be_bytes 8 n)
  else None.

(** [(value.bit_length() + 7) // 8] for a positive value *)
Definition byte_length (n : Z) : nat := Z.to_nat ((Z.log2 n + 8) / 8).

Definition encode_int (value : Z) : option bytes :=
  if (18446744073709551616 <=? value) || (value <? -18446744073709551616) then
    let tag := if 0 <=? value then 2 else 3 in
    let value := if 0 <=? value then value else - value - 1 in
    let payload := be_bytes (byte_length value) value in
    h ← encode_length 2 (Z.of_nat (length payload)) ;
    Some (6 * 32 + tag :: h ++ payload)
  else if 0 <=? value then encode_length 0 value
  else encode_length 1 (- (value + 1)).

Definition encode_float (f : pyfloat) : bytes :=
  match f with
  | FNan => [249; 126; 0]
  | FInf false => [249; 124; 0]
  | FInf true => [249; 252; 0]
  | FFinite bits => 251 :: be_bytes 8 bits
  end.

(** [str.encode("utf-8")] of one code point; a surrogate or a value out of
    range raises. *)
Definition utf8_char (c : Z) : option bytes :=
  if c <? 0 then None
  else if c <? 128 then Some [c]
  else if c <? 2048 then Some [192 + c / 64; 128 + c mod 64]
  else if c <? 65536 then
    if (55296 <=? c) && (c <=? 57343) then None
    else Some [224 + c / 4096; 128 + (c / 64) mod 64; 128 + c mod 64]
  else if c <? 1114112 then
    Some [240 + c / 262144; 128 + (c / 4096) mod 64; 128 + (c / 64) mod 64;
          128 + c mod 64]
  else None.

Fixpoint utf8_encode (s : pystr) : option bytes :=
  match s with
  | [] => Some []
  | c :: r =>
      a ← utf8_char c ;
      b ← utf8_encode r ;
      Some (a ++ b)
  end.

Definition continuation (b : Z) : bool := (128 <=? b) && (b <? 192).

(** [bytes.decode("utf-8")]: strict, so overlong forms, surrogates and values
    beyond U+10FFFF raise. *)
Fixpoint utf8_decode (bs : bytes) : option pystr :=
  match bs with
  | [] => Some []
  | b0 :: r0 =>
      if b0 <? 0 then None
      else if b0 <? 128 then cons b0 <$> utf8_decode r0
      else if b0 <? 194 then None
      else if b0 <? 224 then
        match r0 with
        | b1 :: r1 =>
            if continuation b1
            then cons ((b0 - 192) * 64 + (b1 - 128)) <$> utf8_decode r1
            else None
        | _ => None
        end
      else if b0 <? 240 then
        match r0 with
        | b1 :: b2 :: r2 =>
            let c := (b0 - 224) * 4096 + (b1 - 128) * 64 + (b2 - 128) in
            if continuation b1 && continuation b2
               && (2048 <=? c) && negb ((55296 <=? c) && (c <=? 57343))
            then cons c <$> utf8_decode r2
            else None
        | _ => None
        end
      else if b0 <? 245 then
        match r0 with
        | b1 :: b2 :: b3 :: r3 =>
            let c := (b0 - 240) * 262144 + (b1 - 128) * 4096
                     + (b2 - 128) * 64 + (b3 - 128) in
            if continuation b1 && continuation b2 && continuation b3
               && (65536 <=? c) && (c <? 1114112)
            then cons c <$> utf8_decode r3
            else None
        | _ => None
        end
      else None
  end.

(** The items of a [list] or [dict], one after the other. *)
Fixpoint concat_encoded (xs : list (option bytes)) : option bytes :=
  match xs with
  | [] => Some []
  | x :: r =>
      a ← x ;
      b ← concat_encoded r ;
      Some (a ++ b)
  end.

Fixpoint encode_item (v : pyval) : option bytes :=
  match v with
  | VNone => Some [246]
  | VUndefined => Some [247]
  | VBool b => Some [if b then 245 else 244]
  | VInt z => encode_int z
  | VFloat f => Some (encode_float f)
  | VStr s =>
      encoded ← utf8_encode s ;
      h ← encode_length 3 (Z.of_nat (length encoded)) ;
      Some (h ++ encoded)
  | VBytes b =>
      h ← encode_length 2 (Z.of_nat (length b)) ;
      Some (h ++ b)
  | VList l =>
      h ← encode_length 4 (Z.of_nat (length l)) ;
      items ← concat_encoded (map encode_item l) ;
      Some (h ++ items)
  | VDict d =>
      h ← encode_length 5 (Z.of_nat (length d)) ;
      items ← concat_encoded
                (map (fun kv : pyval * pyval =>
                        k ← encode_item kv.1 ;
                        v ← encode_item kv.2 ;
                        Some (k ++ v)) d) ;
      Some (h ++ items)
  end.

(** The float of an IEEE 754 bit pattern of [ebits] exponent bits and [mbits]
    fraction bits (binary16 and binary32), widened to binary64. *)
Definition widen_float (ebits mbits x : Z) : pyfloat :=
  let sign := x / 2 ^ (ebits + mbits) in
  let e := (x / 2 ^ mbits) mod 2 ^ ebits in
  let m := x mod 2 ^ mbits in
  let bias := 2 ^ (ebits - 1) - 1 in
  if e =? 2 ^ ebits - 1 then
    if m =? 0 then FInf (sign =? 1) else FNan
  else if e =? 0 then
    if m =? 0 then FFinite (sign * 2 ^ 63)
    else
      let p := Z.log2 m in
      FFinite (sign * 2 ^ 63 + (p + 1 - bias - mbits + 1023) * 2 ^ 52
               + (m - 2 ^ p) * 2 ^ (52 - p))
  else FFinite (sign * 2 ^ 63 + (e - bias + 1023) * 2 ^ 52 + m * 2 ^ (52 - mbits)).

Definition double_float (bits : Z) : pyfloat :=
  if (bits / 2 ^ 52) mod 2 ^ 11 =? 2047 then
    if bits mod 2 ^ 52 =? 0 then FInf (bits / 2 ^ 63 =? 1) else FNan
  else FFinite bits.

Definition read_be (k : nat) (bs : bytes) : option (Z * bytes) :=
  if (length bs <? k)%nat then None
  else Some (be_value (take k bs), drop k bs).

(** The argument of a head whose low five bits are [info]. *)
Definition decode_length (info : Z) (bs : bytes) : option (Z * bytes) :=
  if info <? 24 then Some (info, bs)
  else if info =? 24 then read_be 1 bs
  else if info =? 25 then read_be 2 bs
  else if info =? 26 then read_be 4 bs
  else if info =? 27 then read_be 8 bs
  else None.

Definition read_payload (n : Z) (bs : bytes) : option (bytes * bytes) :=
  if Z.of_nat (length bs) <? n then None
  else Some (take (Z.to_nat n) bs, drop (Z.to_nat n) bs).

(** Major type 7. *)
Definition decode_special (info : Z) (bs : bytes) : option (pyval * bytes) :=
  if info =? 20 then Some (VBool false, bs)
  else if info =? 21 then Some (VBool true, bs)
  else if info =? 22 then Some (VNone, bs)
  else if info =? 23 then Some (VUndefined, bs)
  else if info =? 25 then
    '(x, r) ← read_be 2 bs ; Some (VFloat (widen_float 5 10 x), r)
  else if info =? 26 then
    '(x, r) ← read_be 4 bs ; Some (VFloat (widen_float 8 23 x), r)
  else if info =? 27 then
    '(x, r) ← read_be 8 bs ; Some (VFloat (double_float x), r)
  else None.

Section Containers.
Variable dec : bytes -> option (pyval * bytes).

Fixpoint decode_items (n : nat) (bs : bytes) : option (list pyval * bytes) :=
  match n with
  | O => Some ([], bs)
  | S n =>
      '(x, r) ← dec bs ;
      '(xs, r) ← decode_items n r ;
      Some (x :: xs, r)
  end.

(** [dictionary[key] = value] for each pair in turn. *)
Fixpoint decode_pairs (n : nat) (bs : bytes) (acc : list (pyval * pyval))
  : option (list (pyval * pyval) * bytes) :=
  match n with
  | O => Some (acc, bs)
  | S n =>
      '(k, r) ← dec bs ;
      if hashable k then
        '(v, r) ← dec r ;
        decode_pairs n r (dict_set k v acc)
      else None
  end.
End Containers.

Section Items.
Variable dec : bytes -> option (pyval * bytes).

(** Major type 6: a bignum is the tag 2 or 3 before a byte string. *)
Definition decode_tagged (tag : Z) (bs : bytes) : option (pyval * bytes) :=
  '(v, r) ← dec bs ;
  match v with
  | VBytes payload =>
      if tag =? 2 then Some (VInt (be_value payload), r)
      else if tag =? 3 then Some (VInt (- be_value payload - 1), r)
      else None
  | _ => None
  end.

(** Major types 0 to 5, whose head carries the value or the length [n]. *)
Definition decode_headed (major n : Z) (bs : bytes) : option (pyval * bytes) :=
  if major =? 0 then Some (VInt n, bs)
  else if major =? 1 then Some (VInt (- 1 - n), bs)
  else if major =? 2 then
    '(payload, r) ← read_payload n bs ; Some (VBytes payload, r)
  else if major =? 3 then
    '(payload, r) ← read_payload n bs ;
    s ← utf8_decode payload ;
    Some (VStr s, r)
  else if major =? 4 then
    '(l, r) ← decode_items dec (Z.to_nat n) bs ; Some (VList l, r)
  else if major =? 5 then
    '(d, r) ← decode_pairs dec (Z.to_nat n) bs [] ; Some (VDict d, r)
  else None.
End Items.

Fixpoint decode_item (fuel : nat) (bs : bytes) : option (pyval * bytes) :=
  match fuel with
  | O => None
  | S fuel =>
      match bs with
      | [] => None
      | b0 :: r =>
          let major := b0 / 32 in
          let info := b0 mod 32 in
          if major =? 7 then decode_special info r
          else
            '(n, r) ← decode_length info r ;
            if major =? 6 then decode_tagged (decode_item fuel) n r
            else decode_headed (decode_item fuel) major n r
      end
  end.

(** One data item from the start of [data]; nesting cannot be deeper than
    the data is long, and that is the only bound here (see above for the
    bound of [cbor2]). *)
Definition decode_first (data : bytes) : option pyval :=
  fst <$> decode_item (length data) data.

End Cbor.

(** The model above as the [cbor2] of the development, within the limits
    given with it. *)
#[global] Instance cbor2_model : Cbor2 := {|
  dumps := Cbor.encode_item;
  loads := Cbor.decode_first
|}.

(** ** utils.py *)
Module Utils.

Section Normalize.
Context `{Builtins}.

Definition normalize_room_name (room : pyval) : option pystr :=
  match room with
  | VStr room =>
      let normalized := lower (strip room) in
      match normalized with
      | [] => None
      | _ => Some normalized
      end
  | _ => None
  end.
End Normalize.

(** The test of the loop of [sanitize_text_input] on one character. *)
Definition text_char_bad (code : Z) : bool :=
  ((code <? 32) && negb ((code =? 9) || (code =? 10) || (code =? 13)))
  || ((code =? 0) || (code =? 65534) || (code =? 65535)).

Definition sanitize_text_input_max (text : pyval) (max_length : Z) : option pystr :=
  match text with
  | VStr text =>
      let sanitized := strip text in
      match sanitized with
      | [] => None
      | _ =>
          if max_length <? Z.of_nat (length sanitized) then None
          else if existsb text_char_bad sanitized then None
          else Some sanitized
      end
  | _ => None
  end.

(** [sanitize_text_input(text)] with the default [max_length=1024]. *)
Definition sanitize_text_input (text : pyval) : option pystr :=
  sanitize_text_input_max text 1024.

(** The characters [sanitize_display_name] drops. *)
Definition display_char_dropped (code : Z) : bool :=
  (code <? 32) || (code =? 127) || (code =? 65534) || (code =? 65535).

Definition sanitize_display_name (name : pyval) (max_length : nat) : option pystr :=
  match name with
  | VStr name =>
      let sanitized := strip name in
      match sanitized with
      | [] => None
      | _ =>
          let sanitized :=
            if (max_length <? length sanitized)%nat then take max_length sanitized
            else sanitized in
          let cleaned := List.filter (fun c => negb (display_char_dropped c)) sanitized in
          match cleaned with
          | [] => None
          | _ => Some cleaned
          end
      end
  | _ => None
  end.

End Utils.

(** ** codec.py *)
Module Codec.
Section Codec.
Context `{Cbor2}.

Definition MAX_CBOR_SIZE : Z := 1024 * 512.

(** [None] is an exception of [cbor2.dumps]. *)
Definition encode (obj : pyval) : option bytes := dumps obj.

(** [None] is the [ValueError] of the size check or an exception of
    [cbor2.loads]. *)
Definition decode (data : bytes) : option pyval :=
  if MAX_CBOR_SIZE <? Z.of_nat (length data) then None else loads data.
End Codec.
End Codec.

(** ** client.py *)
Module Client.

Record _ResourceExpectation := {
  exp_id : bytes;
  exp_kind : pystr;
  exp_size : Z;
  exp_sha256 : option bytes;
  exp_encoding : option pystr;
  created_at : Q;
  expires_at : Q;
  exp_room : option pystr
}.

Record ClientConfig := {
  max_resource_bytes : Z;
  resource_expectation_ttl_s : Q;
  max_pending_resource_expectations : nat;
  max_active_resources : nat;
  hello_interval_s : Q;
  hello_max_attempts : nat
}.

(** [ClientConfig()] *)
Definition default_config : ClientConfig := {|
  max_resource_bytes := 262144;
  resource_expectation_ttl_s := 30;
  max_pending_resource_expectations := 8;
  max_active_resources := 16;
  hello_interval_s := 3;
  hello_max_attempts := 3
|}.

(** A transport resource: the object (a handle) and its advertised size. *)
Record Resource := {
  handle : nat;
  total_size : Z
}.

Record state := {
  link : option nat;
  rooms : gset pystr;
  welcomed : bool;
  _resource_expectations : list (bytes * _ResourceExpectation);
  _active_resources : gset nat;
  _resource_to_expectation : gmap nat _ResourceExpectation
}.

(** What a method does to the outside: transport calls and callbacks. *)
Inductive action :=
| Cancel (resource : nat)
| Teardown (l : nat)
| SendPong (body : option pyval)
| OnPong (env : pyval)
| OnWelcome (env : pyval)
| OnJoined (room : pystr) (env : pyval)
| OnParted (room : pystr) (env : pyval)
| OnMessage (env : pyval)
| OnNotice (env : pyval)
| OnError (env : pyval)
| OnClose.

Definition close (st : state) : state * list action :=
  let l := link st in
  let active_resources := elements (_active_resources st) in
  ({| link := None;
      rooms := ∅;
      welcomed := welcomed st;
      _resource_expectations := [];
      _active_resources := ∅;
      _resource_to_expectation := ∅ |},
   map Cancel active_resources
   ++ match l with Some l => [Teardown l] | None => [] end).

Definition _on_link_closed (st : state) : state * list action :=
  let active_resources := elements (_active_resources st) in
  ({| link := None;
      rooms := ∅;
      welcomed := welcomed st;
      _resource_expectations := [];
      _active_resources := ∅;
      _resource_to_expectation := ∅ |},
   map Cancel active_resources ++ [OnClose]).

Definition set_expectations (st : state) (d : list (bytes * _ResourceExpectation)) : state :=
  {| link := link st;
     rooms := rooms st;
     welcomed := welcomed st;
     _resource_expectations := d;
     _active_resources := _active_resources st;
     _resource_to_expectation := _resource_to_expectation st |}.

Definition expired (now : Q) (e : bytes * _ResourceExpectation) : bool :=
  if Qlt_le_dec now (expires_at e.2) then false else true.

Definition _cleanup_expired_expectations (now : Q) (st : state) : state :=
  let expired_rids :=
    map fst (List.filter (expired now) (_resource_expectations st)) in
  set_expectations st
    (fold_left (fun d rid => od_del rid d) expired_rids (_resource_expectations st)).

Definition _find_resource_expectation (now : Q) (size : Z) (st : state)
  : option _ResourceExpectation * state :=
  let st := _cleanup_expired_expectations now st in
  match List.find (fun e => exp_size e.2 =? size) (_resource_expectations st) with
  | Some (rid, _) =>
      (od_get rid (_resource_expectations st),
       set_expectations st (od_del rid (_resource_expectations st)))
  | None => (None, st)
  end.

Definition _resource_advertised (cfg : ClientConfig) (now : Q) (resource : Resource)
    (st : state) : bool * state :=
  let size := total_size resource in
  if max_resource_bytes cfg <? size then (false, st)
  else if (max_active_resources cfg <=? base.size (_active_resources st))%nat then (false, st)
  else
    match _find_resource_expectation now size st with
    | (None, st) => (false, st)
    | (Some exp, st) =>
        (true,
         {| link := link st;
            rooms := rooms st;
            welcomed := welcomed st;
            _resource_expectations := _resource_expectations st;
            _active_resources := {[ handle resource ]} ∪ _active_resources st;
            _resource_to_expectation :=
              <[ handle resource := exp ]> (_resource_to_expectation st) |})
    end.

Definition env_get (k : Z) (env : pyval) : option pyval :=
  match env with
  | VDict d => dict_get (VInt k) d
  | _ => None
  end.

(** An optional field of a body: absent or [None], or of the wanted type;
    the outer [None] is a value of another type. *)
Definition optional_bytes (v : option pyval) : option (option bytes) :=
  match v with
  | None | Some VNone => Some None
  | Some (VBytes b) => Some (Some b)
  | Some _ => None
  end.

Definition optional_str (v : option pyval) : option (option pystr) :=
  match v with
  | None | Some VNone => Some None
  | Some (VStr s) => Some (Some s)
  | Some _ => None
  end.

(** The pending table after the capacity check of [_on_packet]; [None] is the
    [ValueError] of [min] on an empty table, which the handler catches. *)
Definition evict_oldest (cfg : ClientConfig) (d : list (bytes * _ResourceExpectation))
  : option (list (bytes * _ResourceExpectation)) :=
  if (max_pending_resource_expectations cfg <=? length d)%nat then
    match py_min (fun e : bytes * _ResourceExpectation => created_at e.2) d with
    | Some (oldest_rid, _) => Some (od_del oldest_rid d)
    | None => None
    end
  else Some d.

(** The [_ResourceExpectation(...)] that [_on_packet] records.  The times
    are rationals and [expires_at] is the exact sum, where the code has
    floats and the sum rounded to the nearest: a statement that compares a
    time with the sum, not with the field, has to leave room for the
    rounding. *)
Definition new_expectation (cfg : ClientConfig) (now : Q) (env : pyval)
    (rid : bytes) (kind : pystr) (size : Z) (sha256 : option bytes)
    (encoding : option pystr) : _ResourceExpectation :=
  {| exp_id := rid;
     exp_kind := kind;
     exp_size := size;
     exp_sha256 :=
       match sha256 with
       | Some ((_ :: _) as b) => Some b
       | _ => None
       end;
     exp_encoding := encoding;
     created_at := now;
     expires_at := (now + resource_expectation_ttl_s cfg)%Q;
     exp_room :=
       match env_get K_ROOM env with
       | Some (VStr room) => Some room
       | _ => None
       end |}.

(** The branch [t == T_RESOURCE_ENVELOPE] of [_on_packet]. *)
Definition on_resource_envelope (cfg : ClientConfig) (now : Q) (env : pyval)
    (st : state) : state :=
  match env_get K_BODY env with
  | Some (VDict body) =>
      match dict_get (VInt B_RES_ID) body, dict_get (VInt B_RES_KIND) body,
            dict_get (VInt B_RES_SIZE) body ≫= as_int,
            optional_bytes (dict_get (VInt B_RES_SHA256) body),
            optional_str (dict_get (VInt B_RES_ENCODING) body) with
      | Some (VBytes rid), Some (VStr kind), Some size, Some sha256, Some encoding =>
          if size <=? 0 then st
          else if max_resource_bytes cfg <? size then st
          else
            match evict_oldest cfg (_resource_expectations st) with
            | None => st
            | Some d =>
                set_expectations st
                  (od_set rid (new_expectation cfg now env rid kind size sha256 encoding) d)
            end
      | _, _, _, _, _ => st
      end
  | _ => st
  end.

Definition set_rooms (st : state) (r : gset pystr) : state :=
  {| link := link st;
     rooms := r;
     welcomed := welcomed st;
     _resource_expectations := _resource_expectations st;
     _active_resources := _active_resources st;
     _resource_to_expectation := _resource_to_expectation st |}.

Definition set_welcomed (st : state) : state :=
  {| link := link st;
     rooms := rooms st;
     welcomed := true;
     _resource_expectations := _resource_expectations st;
     _active_resources := _active_resources st;
     _resource_to_expectation := _resource_to_expectation st |}.

Section Packets.
Context `{Builtins} `{Cbor2}.

(** [_on_packet] once the packet is decoded and validated. *)
Definition dispatch (cfg : ClientConfig) (now : Q) (env : pyval) (st : state)
  : state * list action :=
  match env_get K_T env ≫= as_int with
  | None => (st, [])
  | Some t =>
      if t =? T_PING then (st, [SendPong (env_get K_BODY env)])
      else if t =? T_PONG then (st, [OnPong env])
      else if t =? T_RESOURCE_ENVELOPE then (on_resource_envelope cfg now env st, [])
      else if t =? T_WELCOME then (set_welcomed st, [OnWelcome env])
      else if t =? T_JOINED then
        match env_get K_ROOM env with
        | Some (VStr ((_ :: _) as room)) =>
            let r := lower (strip room) in
            (set_rooms st ({[ r ]} ∪ rooms st), [OnJoined r env])
        | _ => (st, [])
        end
      else if t =? T_PARTED then
        match env_get K_ROOM env with
        | Some (VStr ((_ :: _) as room)) =>
            let r := lower (strip room) in
            (set_rooms st (rooms st ∖ {[ r ]}), [OnParted r env])
        | _ => (st, [])
        end
      else if t =? T_MSG then (st, [OnMessage env])
      else if t =? T_NOTICE then (st, [OnNotice env])
      else if t =? T_ERROR then (st, [OnError env])
      else (st, [])
  end.

Definition _on_packet (cfg : ClientConfig) (now : Q) (data : bytes) (st : state)
  : state * list action :=
  match Codec.decode data with
  | None => (st, [])
  | Some env =>
      match Envelope.validate_envelope env with
      | Raise _ => (st, [])
      | Ok _ => dispatch cfg now env st
      end
  end.
End Packets.

(** The state part of [_resource_concluded]: the resource leaves the active
    set and the map (what is done with the payload is not modelled). *)
Definition _resource_concluded (resource : Resource) (st : state) : state :=
  {| link := link st;
     rooms := rooms st;
     welcomed := welcomed st;
     _resource_expectations := _resource_expectations st;
     _active_resources := _active_resources st ∖ {[ handle resource ]};
     _resource_to_expectation := delete (handle resource) (_resource_to_expectation st) |}.

(** [Client.__init__] *)
Definition init : state :=
  {| link := None;
     rooms := ∅;
     welcomed := false;
     _resource_expectations := [];
     _active_resources := ∅;
     _resource_to_expectation := ∅ |}.

(** The state after [connect] has set up the link [l]. *)
Definition connected (l : nat) (st : state) : state :=
  {| link := Some l;
     rooms := rooms st;
     welcomed := false;
     _resource_expectations := _resource_expectations st;
     _active_resources := _active_resources st;
     _resource_to_expectation := _resource_to_expectation st |}.

Section Steps.
Context `{Builtins} `{Cbor2}.

(** One call of a method or callback that changes the state of the client. *)
Inductive step (cfg : ClientConfig) : state -> state -> Prop :=
| step_connect l st :
    step cfg st (connected l st)
| step_packet now data st :
    step cfg st (_on_packet cfg now data st).1
| step_advertised now resource st :
    step cfg st (_resource_advertised cfg now resource st).2
| step_concluded resource st :
    step cfg st (_resource_concluded resource st)
| step_part r st :
    step cfg st (set_rooms st (rooms st ∖ {[ r ]}))
| step_link_closed st :
    step cfg st (_on_link_closed st).1
| step_close st :
    step cfg st (close st).1.

(** The states a client can be in. *)
Definition reachable (cfg : ClientConfig) (st : state) : Prop :=
  rtc (step cfg) init st.
End Steps.

End Client.

(** ** backend.py *)
Module Backend.

Definition STALE_HUB_THRESHOLD_SECONDS : Q := 3600.
Definition MAX_ANNOUNCE_DATA_SIZE : Z := 10240.

(** The fields [loop] and [broadcast] of the state below say whether
    [self.loop] and [self.broadcast] are set: both are [None] from
    [__init__] until the server starts.

    An entry of the discovery catalog.  Every entry the code stores carries
    [last_seen] ([received_announce] sets it, [load_discovered_hubs] skips an
    entry without it), so the default of [hub.get("last_seen", 0)] never
    applies. *)
Record Hub := {
  hub_hash : pystr;
  hub_name : pystr;
  hub_aspect : pystr;
  last_seen : Q
}.

Record state := {
  client : option Client.state;
  room_operation_times : gmap pystr (list Q);
  discovered_hubs : list (pystr * Hub);
  loop : bool;
  broadcast : bool
}.

Definition room_op_rate_limit : nat := 10.
Definition room_op_rate_window : Q := 5.

(** What a handler does besides changing the state. *)
Inductive effect :=
| SaveDiscoveredHubs (content : list (pystr * Hub))
| Broadcast_hub_discovered (hub : Hub).

(** The reply of a command handler to the browser. *)
Inductive response :=
| Error (error : string)
| Command_executed
| Message_sent
| Discovered_hubs (hubs : list Hub).

(** How a command handler ends: with a reply of its own, or by running a
    method of the client, from whose result the reply is then built. *)
Inductive outcome :=
| Reply (r : response)
| Client_join (room : pystr)
| Client_part (room : pystr)
| Client_msg (room text : pystr)
| Client_ping.

Definition set_room_operation_times (st : state) (m : gmap pystr (list Q)) : state :=
  {| client := client st; room_operation_times := m;
     discovered_hubs := discovered_hubs st;
     loop := loop st; broadcast := broadcast st |}.

Definition set_discovered_hubs (st : state) (d : list (pystr * Hub)) : state :=
  {| client := client st; room_operation_times := room_operation_times st;
     discovered_hubs := d;
     loop := loop st; broadcast := broadcast st |}.

Definition in_window (now t : Q) : bool :=
  if Qlt_le_dec (now - t) room_op_rate_window then true else false.

Definition _check_room_operation_rate_limit (now : Q) (operation_key : pystr)
    (st : state) : bool * state :=
  let times := default [] (room_operation_times st !! operation_key) in
  let times := List.filter (in_window now) times in
  if (room_op_rate_limit <=? length times)%nat then
    (false, set_room_operation_times st (<[ operation_key := times ]> (room_operation_times st)))
  else
    (true, set_room_operation_times st
             (<[ operation_key := times ++ [now] ]> (room_operation_times st))).

Definition stale (now : Q) (e : pystr * Hub) : bool :=
  if Qlt_le_dec STALE_HUB_THRESHOLD_SECONDS (now - last_seen e.2) then true else false.

Definition cleanup_stale_hubs (now : Q) (st : state) : state * list effect :=
  let stale_hubs := map fst (List.filter (stale now) (discovered_hubs st)) in
  let hubs := fold_left (fun d hash_hex => od_del hash_hex d) stale_hubs (discovered_hubs st) in
  let st := set_discovered_hubs st hubs in
  match stale_hubs with
  | [] => (st, [])
  | _ => (st, [SaveDiscoveredHubs hubs])
  end.

Definition _handle_get_discovered_hubs (now : Q) (st : state)
  : state * list effect * response :=
  let '(st, effs) := cleanup_stale_hubs now st in
  (st, effs, Discovered_hubs (map snd (discovered_hubs st))).

(** [isinstance(v, str) and len(v) <= n] *)
Definition str_within (v : option pyval) (n : Z) : bool :=
  match v with
  | Some (VStr s) => Z.of_nat (length s) <=? n
  | _ => false
  end.

(** [text.split(maxsplit=1)] *)
Definition split_first (text : pystr) : list pystr :=
  match lstrip text with
  | [] => []
  | t =>
      let tok := take_while (fun c => negb (is_space c)) t in
      match lstrip (drop (length tok) t) with
      | [] => [tok]
      | rest => [tok; rest]
      end
  end.

Section Handlers.
Context `{Builtins}.

Definition _handle_join_room (now : Q) (room : option pyval) (st : state)
  : state * outcome :=
  if negb (str_within room 64) then (st, Reply (Error "Invalid room name"))
  else match client st with
  | None => (st, Reply (Error "Not connected to hub"))
  | Some _ =>
      match Utils.normalize_room_name (default VNone room) with
      | None => (st, Reply (Error "Invalid room name"))
      | Some normalized_room =>
          match _check_room_operation_rate_limit now
                  (str_lit "join:" ++ normalized_room) st with
          | (false, st) =>
              (st, Reply (Error "Too many join requests. Please wait a moment."))
          | (true, st) => (st, Client_join normalized_room)
          end
      end
  end.

Definition _handle_part_room (now : Q) (room : option pyval) (st : state)
  : state * outcome :=
  if negb (str_within room 64) then (st, Reply (Error "Invalid room name"))
  else match client st with
  | None => (st, Reply (Error "Not connected to hub"))
  | Some _ =>
      match Utils.normalize_room_name (default VNone room) with
      | None => (st, Reply (Error "Invalid room name"))
      | Some normalized_room =>
          match _check_room_operation_rate_limit now
                  (str_lit "part:" ++ normalized_room) st with
          | (false, st) =>
              (st, Reply (Error "Too many part requests. Please wait a moment."))
          | (true, st) => (st, Client_part normalized_room)
          end
      end
  end.

Definition _handle_command (now : Q) (room text : pystr) (st : state)
  : state * outcome :=
  match split_first text with
  | [] => (st, Reply (Error "list index out of range"))
  | cmd :: rest =>
      let cmd := lower cmd in
      if bool_decide (cmd = str_lit "/join") && bool_decide (rest ≠ []) then
        _handle_join_room now (VStr <$> head rest) st
      else if bool_decide (cmd = str_lit "/part") then
        _handle_part_room now (Some (VStr (default room (head rest)))) st
      else if bool_decide (cmd = str_lit "/ping") then
        (st, match client st with
             | Some _ => Client_ping
             | None => Reply Command_executed
             end)
      else
        (st, match client st with
             | Some _ => Client_msg room text
             | None => Reply Message_sent
             end)
  end.

Definition _handle_send_message (now : Q) (room text : option pyval) (st : state)
  : state * outcome :=
  if negb (str_within room 64) then (st, Reply (Error "Invalid room name"))
  else if negb (str_within text 10000) then (st, Reply (Error "Invalid message text"))
  else match client st with
  | None => (st, Reply (Error "Not connected to hub"))
  | Some _ =>
      match Utils.normalize_room_name (default VNone room) with
      | None => (st, Reply (Error "Invalid room name"))
      | Some normalized_room =>
          match Utils.sanitize_text_input (default VNone text) with
          | None => (st, Reply (Error "Invalid message text"))
          | Some sanitized_text =>
              if startswith sanitized_text (str_lit "/") then
                _handle_command now normalized_room sanitized_text st
              else (st, Client_msg normalized_room sanitized_text)
          end
      end
  end.
End Handlers.

(** *** HubAnnounceHandler *)
Definition aspect_filter : pystr := str_lit "rrc.hub".

(** [f"Hub {hash_hex[:8]}"] *)
Definition default_hub_name (hash_hex : pystr) : pystr :=
  str_lit "Hub " ++ take 8 hash_hex.

Definition str_item (k : string) (d : list (pyval * pyval)) : option pyval :=
  dict_get (VStr (str_lit k)) d.

(** [v if isinstance(v, str) else None] *)
Definition only_str (v : option pyval) : option pystr :=
  match v with
  | Some (VStr s) => Some s
  | _ => None
  end.

(** [decoded.get("proto") == "rrc"] *)
Definition proto_is_rrc (d : list (pyval * pyval)) : bool :=
  match str_item "proto" d with
  | Some (VStr s) => bool_decide (s = str_lit "rrc")
  | _ => false
  end.

(** The hub name taken from a decoded map. *)
Definition hub_name_of_dict (decoded : list (pyval * pyval)) : option pystr :=
  if proto_is_rrc decoded && bool_decide (is_Some (str_item "hub" decoded)) then
    only_str (str_item "hub" decoded)
  else
    match only_str (str_item "name" decoded) with
    | Some s => Some s
    | None =>
        match only_str (str_item "n" decoded) with
        | Some s => Some s
        | None => only_str (str_item "hub" decoded)
        end
    end.

(** [isinstance(key, (str, int, bytes))] *)
Definition key_type_ok (key : pyval) : bool :=
  match key with
  | VStr _ | VInt _ | VBool _ | VBytes _ => true
  | _ => false
  end.

(** What the handler makes of the application data: the announce is ignored,
    or it goes on with a hub name or with none. *)
Inductive parsed :=
| Ignored
| Named (hub_name : option pystr).

Section Announce.
Context `{Builtins} `{Cbor2}.

(** [isinstance(value, (dict, list)) and len(str(value)) > 1000] *)
Definition nested_oversized (value : pyval) : bool :=
  match value with
  | VDict _ | VList _ => (1000 <? repr_len value)%nat
  | _ => false
  end.

Definition parse_decoded (decoded : pyval) : parsed :=
  match decoded with
  | VDict d =>
      if (20 <? length d)%nat then Ignored
      else if existsb (fun kv : pyval * pyval =>
                         negb (key_type_ok kv.1) || nested_oversized kv.2) d
      then Ignored
      else Named (hub_name_of_dict d)
  | VList l =>
      if (20 <? length l)%nat then Ignored
      else Named (only_str (last l))
  | VStr s =>
      if (200 <? length s)%nat then Ignored else Named (Some s)
  | _ => Named None
  end.

Definition parse_app_data (app_data : bytes) : parsed :=
  match app_data with
  | [] => Named None
  | _ =>
      if MAX_ANNOUNCE_DATA_SIZE <? Z.of_nat (length app_data) then Ignored
      else
        match loads app_data with
        | Some decoded => parse_decoded decoded
        | None =>
            match utf8_decode app_data with
            | Some app_data_str => Named (Some app_data_str)
            | None => Ignored
            end
        end
  end.

(** The name stored for the hub: the one found, unless it is missing or
    empty, or nothing of it is left by [sanitize_display_name]. *)
Definition stored_hub_name (hash_hex : pystr) (hub_name : option pystr) : pystr :=
  let hub_name :=
    match hub_name with
    | Some ((_ :: _) as n) => n
    | _ => default_hub_name hash_hex
    end in
  default (default_hub_name hash_hex)
          (Utils.sanitize_display_name (VStr hub_name) 200).

Definition received_announce (now : Q) (destination_hash app_data : bytes)
    (st : state) : state * list effect :=
  let hash_hex := hex destination_hash in
  match parse_app_data app_data with
  | Ignored => (st, [])
  | Named hub_name =>
      let hub := {| hub_hash := hash_hex;
                    hub_name := stored_hub_name hash_hex hub_name;
                    hub_aspect := aspect_filter;
                    last_seen := now |} in
      let st := set_discovered_hubs st (od_set hash_hex hub (discovered_hubs st)) in
      (st, SaveDiscoveredHubs (discovered_hubs st)
           :: if loop st && broadcast st then [Broadcast_hub_discovered hub] else [])
  end.
End Announce.

End Backend.

(** ** utils.py: hashes *)
Module Hashes.

(** [str.replace(c, "")] for a one-character [c]. *)
Definition remove_char (c : Z) (s : pystr) : pystr :=
  List.filter (fun x => negb (x =? c)) s.

(** The value of a hexadecimal digit, of either case. *)
Definition hex_value (c : Z) : option Z :=
  if (48 <=? c) && (c <=? 57) then Some (c - 48)
  else if (97 <=? c) && (c <=? 102) then Some (c - 87)
  else if (65 <=? c) && (c <=? 70) then Some (c - 55)
  else None.

(** The ASCII white space that [bytes.fromhex] skips before a pair. *)
Definition ascii_space (c : Z) : bool :=
  (c =? 32) || ((9 <=? c) && (c <=? 13)).

(** [bytes.fromhex]; [None] is its [ValueError]. *)
Fixpoint fromhex (s : pystr) : option bytes :=
  match s with
  | [] => Some []
  | c :: r =>
      if ascii_space c then fromhex r
      else
        match hex_value c, r with
        | Some top, d :: r' =>
            match hex_value d with
            | Some bot => cons (top * 16 + bot) <$> fromhex r'
            | None => None
            end
        | _, _ => None
        end
  end.

(** [parse_hash]; [None] is the [ValueError] it raises. *)
Definition parse_hash (text : pystr) : option bytes :=
  fromhex (remove_char 32 (remove_char 58 (strip text))).

End Hashes.

(** ** envelope.py: building an envelope *)
Module Make.

(** [mid or msg_id()], where [random] is what [os.urandom(8)] returns. *)
Definition or_msg_id (mid : option bytes) (random : bytes) : bytes :=
  match mid with
  | Some ((_ :: _) as mid) => mid
  | _ => random
  end.

(** [ts or now_ms()], where [clock] is what [int(time.time() * 1000)]
    returns. *)
Definition or_now_ms (ts : option Z) (clock : Z) : Z :=
  match ts with
  | Some ts => if ts =? 0 then clock else ts
  | None => clock
  end.

(** [make_envelope]; a body of [None] is [VNone]. *)
Definition make_envelope (random : bytes) (clock : Z) (msg_type : Z) (src : bytes)
    (room : option pystr) (body : pyval) (nick : option pystr)
    (mid : option bytes) (ts : option Z) : pyval :=
  let env :=
    [ (VInt K_V, VInt RRC_VERSION);
      (VInt K_T, VInt msg_type);
      (VInt K_ID, VBytes (or_msg_id mid random));
      (VInt K_TS, VInt (or_now_ms ts clock));
      (VInt K_SRC, VBytes src) ] in
  let env :=
    match room with
    | Some room => dict_set (VInt K_ROOM) (VStr room) env
    | None => env
    end in
  let env := if is_none body then env else dict_set (VInt K_BODY) body env in
  let env :=
    match nick with
    | Some nick => dict_set (VInt K_NICK) (VStr nick) env
    | None => env
    end in
  VDict env.

End Make.

(** ** client.py: sending *)
Module Outbound.
Import Client.

(** The transport: whether [RNS.Packet(link, payload).pack()] succeeds. *)
Class Transport := {
  packs : nat -> bytes -> bool
}.

(** The fields of the client that the sending methods read: the hash of its
    identity, its nickname, and whether [on_resource_warning] is set. *)
Record Sender := {
  identity_hash : bytes;
  nickname : option pystr;
  on_resource_warning : bool
}.

Inductive error :=
| NotConnected
| MessageTooLarge
| Invalid (msg : string)
| EncodeFailed
| BadMessageId.

Inductive result (A : Type) :=
| Done (a : A)
| Failed (e : error).
Arguments Done {A} a.
Arguments Failed {A} e.

(** What a sending method does to the outside. *)
Inductive event :=
| Packet_send (l : nat) (payload : bytes)
| Resource_warning (warning : string).

(** [env.get(K_T) == t] *)
Definition type_is (env : pyval) (t : Z) : bool :=
  match env_get K_T env with
  | Some v => key_eqb v (VInt t)
  | None => false
  end.

Section Sending.
Context `{Builtins} `{Cbor2} `{Transport}.

Definition _packet_would_fit (l : nat) (payload : bytes) : bool := packs l payload.

Definition _send (me : Sender) (env : pyval) (st : state) : list event * result unit :=
  match link st with
  | None => ([], Failed NotConnected)
  | Some l =>
      match Codec.encode env with
      | None => ([], Failed EncodeFailed)
      | Some payload =>
          if negb (_packet_would_fit l payload) then
            ((if on_resource_warning me then
                [Resource_warning
                   (if type_is env T_MSG then
                      "Message is too large to send. Please shorten your message."
                    else if type_is env T_NOTICE then
                      "Notice is too large to send. Please shorten the notice."
                    else "Message is too large to send over this link.")]
              else []),
             Failed MessageTooLarge)
          else ([Packet_send l payload], Done tt)
      end
  end.

(** [key if (isinstance(key, str) and key) else None] *)
Definition join_body (key : pyval) : pyval :=
  match key with
  | VStr (_ :: _) => key
  | _ => VNone
  end.

Definition join (random : bytes) (clock : Z) (me : Sender) (room key : pyval)
    (st : state) : list event * result unit :=
  match room with
  | VStr room =>
      match lower (strip room) with
      | [] => ([], Failed (Invalid "Room name cannot be empty."))
      | r =>
          _send me (Make.make_envelope random clock T_JOIN (identity_hash me)
                      (Some r) (join_body key) None None None) st
      end
  | _ => ([], Failed (Invalid "Room name must be a string"))
  end.

Definition part (random : bytes) (clock : Z) (me : Sender) (room : pyval)
    (st : state) : state * list event * result unit :=
  match room with
  | VStr room =>
      match lower (strip room) with
      | [] => (st, [], Failed (Invalid "Room name cannot be empty."))
      | r =>
          match _send me (Make.make_envelope random clock T_PART (identity_hash me)
                            (Some r) VNone None None None) st with
          | (events, Done _) => (set_rooms st (rooms st ∖ {[ r ]}), events, Done tt)
          | (events, Failed e) => (st, events, Failed e)
          end
      end
  | _ => (st, [], Failed (Invalid "Room name must be a string"))
  end.

Definition msg (random : bytes) (clock : Z) (me : Sender) (room text : pyval)
    (st : state) : list event * result bytes :=
  match room, text with
  | VStr room, VStr text =>
      match lower (strip room), strip text with
      | [], _ => ([], Failed (Invalid "Room name cannot be empty."))
      | _, [] => ([], Failed (Invalid "Message text cannot be empty."))
      | r, _ =>
          let env := Make.make_envelope random clock T_MSG (identity_hash me)
                       (Some r) (VStr text) (nickname me) None None in
          match _send me env st with
          | (events, Done _) =>
              match env_get K_ID env with
              | Some (VBytes mid) => (events, Done mid)
              | _ => (events, Failed BadMessageId)
              end
          | (events, Failed e) => (events, Failed e)
          end
      end
  | VStr _, _ => ([], Failed (Invalid "Message text must be a string"))
  | _, _ => ([], Failed (Invalid "Room name must be a string"))
  end.

Definition notice (random : bytes) (clock : Z) (me : Sender) (room text : pyval)
    (st : state) : list event * result unit :=
  match room, text with
  | VStr room, VStr text =>
      match lower (strip room), strip text with
      | [], _ => ([], Failed (Invalid "Room name cannot be empty."))
      | _, [] => ([], Failed (Invalid "Notice text cannot be empty."))
      | r, _ =>
          _send me (Make.make_envelope random clock T_NOTICE (identity_hash me)
                      (Some r) (VStr text) (nickname me) None None) st
      end
  | VStr _, _ => ([], Failed (Invalid "Notice text must be a string"))
  | _, _ => ([], Failed (Invalid "Room name must be a string"))
  end.

Definition ping (random : bytes) (clock : Z) (me : Sender) (st : state)
  : list event * result unit :=
  _send me (Make.make_envelope random clock T_PING (identity_hash me)
              None VNone None None None) st.

(** The answer of [_on_packet] to a PING with the body [body] ([None] when
    the PING has none): the exception of [_send] is suppressed. *)
Definition pong (random : bytes) (clock : Z) (me : Sender) (body : option pyval)
    (st : state) : list event :=
  (_send me (Make.make_envelope random clock T_PONG (identity_hash me)
               None (default VNone body) None None None) st).1.

(** [_send_hello]: the HELLO goes out on the link being set up, with no
    check of its size. *)
Definition _send_hello (random : bytes) (clock : Z) (me : Sender)
    (hello_body : list (pyval * pyval)) (l : nat) : option event :=
  let envelope := Make.make_envelope random clock T_HELLO (identity_hash me)
                    None (VDict hello_body) None None None in
  let envelope :=
    match envelope, nickname me with
    | VDict d, Some ((_ :: _) as nick) => VDict (dict_set (VInt K_NICK) (VStr nick) d)
    | _, _ => envelope
    end in
  Packet_send l <$> Codec.encode envelope.
End Sending.

End Outbound.

(** ** client.py: the payload of a concluded resource *)
Module Concluded.
Import Client.

(** [hashlib.sha256(data).digest()] and [data.decode(encoding)] ([None] when
    it raises). *)
Class Hashlib := {
  sha256 : bytes -> bytes;
  decode_text : pystr -> bytes -> option pystr
}.

(** What the transport hands to [_resource_concluded]: the resource, whether
    its status is [COMPLETE], and what [resource.data.read()] returns
    ([None] when it raises). *)
Record Transfer := {
  resource : Resource;
  complete : bool;
  data : option bytes
}.

Definition RES_KIND_NOTICE : pystr := str_lit "notice".
Definition RES_KIND_MOTD : pystr := str_lit "motd".

(** [matched_exp.sha256] is set and differs from the digest of the data. *)
Definition digest_mismatch `{Hashlib} (exp : _ResourceExpectation) (data : bytes) : bool :=
  match exp_sha256 exp with
  | Some ((_ :: _) as expected) => negb (bool_decide (sha256 data = expected))
  | _ => false
  end.

(** [matched_exp.encoding or "utf-8"] *)
Definition encoding_of (exp : _ResourceExpectation) : pystr :=
  match exp_encoding exp with
  | Some ((_ :: _) as encoding) => encoding
  | _ => str_lit "utf-8"
  end.

(** The envelope handed to [on_notice]. *)
Definition notice_env (text : pystr) (room : pyval) : pyval :=
  VDict [ (VInt K_T, VInt T_NOTICE); (VInt K_BODY, VStr text); (VInt K_ROOM, room) ].

Definition _resource_concluded `{Hashlib} (t : Transfer) (st : state)
  : state * list action :=
  let matched_exp := _resource_to_expectation st !! handle (resource t) in
  let st := Client._resource_concluded (resource t) st in
  match matched_exp with
  | None => (st, [])
  | Some matched_exp =>
      if negb (complete t) then (st, [])
      else
        match data t with
        | None => (st, [])
        | Some data =>
            if digest_mismatch matched_exp data then (st, [])
            else if bool_decide (exp_kind matched_exp = RES_KIND_NOTICE) then
              match decode_text (encoding_of matched_exp) data with
              | Some text =>
                  (st, [OnNotice (notice_env text
                                    match exp_room matched_exp with
                                    | Some room => VStr room
                                    | None => VNone
                                    end)])
              | None => (st, [])
              end
            else if bool_decide (exp_kind matched_exp = RES_KIND_MOTD) then
              match decode_text (encoding_of matched_exp) data with
              | Some text => (st, [OnNotice (notice_env text VNone)])
              | None => (st, [])
              end
            else (st, [])
        end
  end.

End Concluded.

(** ** backend.py: commands, the hub hash, and the rooms *)
Module Service.

Definition MAX_MESSAGES_PER_ROOM : nat := 1000.
Definition MAX_ROOMS : nat := 100.
Definition REQUIRED_HUB_HASH_LENGTH : nat := 32.
Definition B_JOINED_USERS : Z := 0.
Definition B_WELCOME_HUB : Z := 0.

(** How [_handle_send_command] ends: with an error of its own, or by running
    [Client.msg], from whose result the reply is then built. *)
Inductive command_outcome :=
| Command_error (error : string)
| Command_msg (room text : pystr).

(** How the checks of the hub hash in [_handle_connect] end: with an error
    reply, or with the bytes handed to [Client.connect]. *)
Inductive hub_hash_outcome :=
| Hash_error (error : string)
| Hash_parsed (hub_hash_bytes : bytes).

Section Commands.
Context `{Builtins}.

(** [room] is [None] when the request has no "room". *)
Definition _handle_send_command (command room : option pyval) (st : Backend.state)
  : command_outcome :=
  let room := default (VStr (str_lit "[Hub]")) room in
  if negb (Backend.str_within command 10000) then Command_error "Invalid command"
  else if negb (Backend.str_within (Some room) 64) then Command_error "Invalid room name"
  else match Backend.client st with
  | None => Command_error "Not connected to hub"
  | Some _ =>
      match Utils.normalize_room_name room with
      | None => Command_error "Invalid room name"
      | Some normalized_room =>
          match Utils.sanitize_text_input (default VNone command) with
          | None => Command_error "Invalid command"
          | Some sanitized_command => Command_msg normalized_room sanitized_command
          end
      end
  end.

(** The checks that [_handle_connect] makes of the hub hash, up to
    [parse_hash], whose [ValueError] the handler turns into a reply. *)
Definition check_hub_hash (hub_hash : pyval) : hub_hash_outcome :=
  match hub_hash with
  | VStr hub_hash =>
      if (128 <? length hub_hash)%nat then Hash_error "Invalid hub_hash parameter"
      else
        match hub_hash with
        | [] => Hash_error "Invalid hub hash: must be a non-empty string"
        | _ =>
            let hub_hash_clean :=
              lower (Hashes.remove_char 32 (Hashes.remove_char 58 (strip hub_hash))) in
            if negb (forallb (fun c => bool_decide (c ∈ str_lit "0123456789abcdef"))
                       hub_hash_clean)
            then Hash_error "Hub hash must contain only hexadecimal characters"
            else if negb (length hub_hash_clean =? REQUIRED_HUB_HASH_LENGTH)%nat
            then Hash_error "Hub hash must be exactly 32 hexadecimal characters"
            else
              match Hashes.parse_hash hub_hash with
              | Some hub_hash_bytes => Hash_parsed hub_hash_bytes
              | None => Hash_error "Invalid connection parameters"
              end
        end
  | _ => Hash_error "Invalid hub_hash parameter"
  end.
End Commands.

(** *** The rooms kept for the browser *)
Record RoomData := {
  messages : list pyval;
  users : gset pystr
}.

Record state := {
  rooms : list (pystr * RoomData);
  nicknames : gmap pystr pystr;
  hub_name : option pystr;
  active_room : pystr
}.

Definition HUB : pystr := str_lit "[Hub]".

(** [{"messages": [], "users": set()}] *)
Definition new_room : RoomData := {| messages := []; users := ∅ |}.

(** The part of [BackendService.__init__] that sets these fields. *)
Definition init : state :=
  {| rooms := [(HUB, new_room)]; nicknames := ∅; hub_name := None; active_room := HUB |}.

Definition set_rooms (st : state) (r : list (pystr * RoomData)) : state :=
  {| rooms := r; nicknames := nicknames st; hub_name := hub_name st;
     active_room := active_room st |}.

Definition set_nicknames (st : state) (n : gmap pystr pystr) : state :=
  {| rooms := rooms st; nicknames := n; hub_name := hub_name st;
     active_room := active_room st |}.

(** [room in self.rooms] *)
Definition has_room (room : pystr) (r : list (pystr * RoomData)) : bool :=
  bool_decide (is_Some (od_get room r)).

(** An update of [self.rooms[room]], for a room that is there. *)
Definition update_room (room : pystr) (f : RoomData -> RoomData)
    (r : list (pystr * RoomData)) : list (pystr * RoomData) :=
  match od_get room r with
  | Some d => od_set room (f d) r
  | None => r
  end.

Definition add_user (user_hex : pystr) (d : RoomData) : RoomData :=
  {| messages := messages d; users := {[ user_hex ]} ∪ users d |}.

Definition discard_user (user_hex : pystr) (d : RoomData) : RoomData :=
  {| messages := messages d; users := users d ∖ {[ user_hex ]} |}.

(** [messages.append(message)] *)
Definition append (message : pyval) (d : RoomData) : RoomData :=
  {| messages := messages d ++ [message]; users := users d |}.

(** [append], then the cut to the last [MAX_MESSAGES_PER_ROOM] messages. *)
Definition append_trimmed (message : pyval) (d : RoomData) : RoomData :=
  let ms := messages d ++ [message] in
  {| messages :=
       if (MAX_MESSAGES_PER_ROOM <? length ms)%nat
       then drop (length ms - MAX_MESSAGES_PER_ROOM) ms
       else ms;
     users := users d |}.

Definition entry (k : string) (v : pyval) : pyval * pyval := (VStr (str_lit k), v).

(** [v.hex() if isinstance(v, (bytes, bytearray)) else None] *)
Definition hex_or_none (v : option pyval) : pyval :=
  match v with
  | Some (VBytes b) => VStr (hex b)
  | _ => VNone
  end.

Definition _format_user (st : state) (src : pyval) : pystr :=
  match src with
  | VBytes b =>
      let src_hex := hex b in
      match nicknames st !! src_hex with
      | Some ((_ :: _) as nick) => nick ++ str_lit " (" ++ take 8 src_hex ++ str_lit ")"
      | _ => take 16 src_hex ++ str_lit "..."
      end
  | _ => str_lit "Unknown"
  end.

(** The truth value of a Python object. *)
Definition truthy (v : pyval) : bool :=
  match v with
  | VNone | VUndefined => false
  | VBool b => b
  | VInt z => negb (z =? 0)
  | VFloat (FFinite bits) => negb (Qeq_bool (float_value bits) 0)
  | VFloat _ => true
  | VStr s => negb (bool_decide (s = []))
  | VBytes b => negb (bool_decide (b = []))
  | VList l => match l with [] => false | _ => true end
  | VDict d => match d with [] => false | _ => true end
  end.

(** The values for which [v[:100]] is defined. *)
Definition sliceable (v : pyval) : bool :=
  match v with
  | VStr _ | VBytes _ | VList _ => true
  | _ => false
  end.

(** The key under which a room is kept, for a room that is a string;
    [missing] is the room used when the envelope has none.  The client hands
    over envelopes whose room is absent, [None] or a string; a room of
    another type is outside this model ([None]). *)
Definition room_key (room : option pyval) (missing : option pystr) : option pystr :=
  match room with
  | None => missing
  | Some (VStr room) => Some room
  | Some _ => None
  end.

(** [room or "[Hub]"], with the same reading of [None]. *)
Definition room_or_hub (room : option pyval) : option pystr :=
  match room with
  | None => Some HUB
  | Some room =>
      if truthy room then
        match room with
        | VStr room => Some room
        | _ => None
        end
      else Some HUB
  end.

(** The state part of [_on_message]; [timestamp] is what [_get_timestamp()]
    returns.  The broadcasts are not modelled. *)
Definition _on_message (timestamp : pystr) (env : pyval) (st : state) : option state :=
  room ← room_key (Client.env_get K_ROOM env) (Some HUB) ;
  let src := default (VBytes []) (Client.env_get K_SRC env) in
  let body := default (VStr []) (Client.env_get K_BODY env) in
  let st :=
    match src, Client.env_get K_NICK env with
    | VBytes b, Some (VStr ((_ :: _) as nick)) =>
        match Utils.sanitize_display_name (VStr nick) 32 with
        | Some sanitized_nick =>
            if bool_decide (nicknames st !! hex b = Some sanitized_nick) then st
            else set_nicknames st (<[ hex b := sanitized_nick ]> (nicknames st))
        | None => st
        end
    | _, _ => st
    end in
  let user := _format_user st src in
  if negb (has_room room (rooms st)) && (MAX_ROOMS <=? length (rooms st))%nat
  then Some st
  else
    let r := if has_room room (rooms st) then rooms st
             else od_set room new_room (rooms st) in
    let r := match src with
             | VBytes b => update_room room (add_user (hex b)) r
             | _ => r
             end in
    let message :=
      VDict [ entry "type" (VStr (str_lit "message"));
              entry "room" (VStr room);
              entry "user" (VStr user);
              entry "text" body;
              entry "timestamp" (VStr timestamp);
              entry "message_id" (hex_or_none (Client.env_get K_ID env));
              entry "sender_identity" (hex_or_none (Some src)) ] in
    Some (set_rooms st (update_room room (append_trimmed message) r)).

(** The state part of [_on_notice].  A body that is true and cannot be
    sliced makes the handler raise before it stores anything. *)
Definition _on_notice (timestamp : pystr) (env : pyval) (st : state) : option state :=
  let room := Client.env_get K_ROOM env in
  let body := default (VStr []) (Client.env_get K_BODY env) in
  if truthy body && negb (sliceable body) then Some st
  else
    target_room ← room_or_hub room ;
    let message :=
      VDict [ entry "type" (VStr (str_lit "notice"));
              entry "room" (VStr target_room);
              entry "text" body;
              entry "timestamp" (VStr timestamp) ] in
    if negb (has_room target_room (rooms st)) && (MAX_ROOMS <=? length (rooms st))%nat
    then Some st
    else
      let r := if has_room target_room (rooms st) then rooms st
               else od_set target_room new_room (rooms st) in
      Some (set_rooms st (update_room target_room (append_trimmed message) r)).

(** The state part of [_on_welcome]. *)
Definition _on_welcome (timestamp : pystr) (env : pyval) (st : state) : state :=
  let name :=
    match Client.env_get K_BODY env with
    | Some (VDict body) =>
        match dict_get (VInt B_WELCOME_HUB) body with
        | Some (VStr ((_ :: _) as name)) => Some name
        | _ => hub_name st
        end
    | _ => hub_name st
    end in
  let message :=
    VDict [ entry "type" (VStr (str_lit "notice"));
            entry "room" (VStr HUB);
            entry "text" (VStr (str_lit "Connected to hub"
                                ++ match name with
                                   | Some ((_ :: _) as name) => str_lit ": " ++ name
                                   | _ => []
                                   end));
            entry "timestamp" (VStr timestamp) ] in
  let r := if has_room HUB (rooms st) then rooms st else od_set HUB new_room (rooms st) in
  {| rooms := update_room HUB (append message) r;
     nicknames := nicknames st;
     hub_name := name;
     active_room := active_room st |}.

(** The list of users in the body of a JOINED or PARTED. *)
Definition user_list (env : pyval) : list pyval :=
  match Client.env_get K_BODY env with
  | Some (VDict body) =>
      match dict_get (VInt B_JOINED_USERS) body with
      | Some (VList l) => l
      | _ => []
      end
  | Some (VList l) => l
  | _ => []
  end.

(** The loop of [_on_joined] over the users. *)
Definition add_users (room : pystr) (l : list pyval) (r : list (pystr * RoomData))
  : list (pystr * RoomData) :=
  fold_left (fun r user_hash =>
               match user_hash with
               | VBytes b => update_room room (add_user (hex b)) r
               | _ => r
               end) l r.

(** The state part of [_on_joined]. *)
Definition _on_joined (timestamp : pystr) (room : pystr) (env : pyval) (st : state)
  : state :=
  match user_list env with
  | [user_hash] =>
      if negb (has_room room (rooms st)) then st
      else
        match user_hash with
        | VBytes b =>
            let r := update_room room (add_user (hex b)) (rooms st) in
            let message :=
              VDict [ entry "type" (VStr (str_lit "join"));
                      entry "room" (VStr room);
                      entry "user" (VStr (_format_user st user_hash));
                      entry "timestamp" (VStr timestamp) ] in
            set_rooms st (update_room room (append message) r)
        | _ => st
        end
  | l =>
      if negb (has_room room (rooms st)) && (MAX_ROOMS <=? length (rooms st))%nat
      then st
      else
        let r := if has_room room (rooms st) then rooms st
                 else od_set room new_room (rooms st) in
        let r := add_users room l r in
        let message :=
          VDict [ entry "type" (VStr (str_lit "system"));
                  entry "room" (VStr room);
                  entry "text" (VStr (str_lit "Joined room: " ++ room));
                  entry "timestamp" (VStr timestamp) ] in
        set_rooms st (update_room room (append message) r)
  end.

(** The state part of [_on_parted]. *)
Definition _on_parted (timestamp : pystr) (room : pystr) (env : pyval) (st : state)
  : state :=
  match user_list env with
  | [user_hash] =>
      if negb (has_room room (rooms st)) then st
      else
        match user_hash with
        | VBytes b =>
            let user_formatted := _format_user st user_hash in
            let r := update_room room (discard_user (hex b)) (rooms st) in
            let message :=
              VDict [ entry "type" (VStr (str_lit "part"));
                      entry "room" (VStr room);
                      entry "user" (VStr user_formatted);
                      entry "timestamp" (VStr timestamp) ] in
            set_rooms st (update_room room (append message) r)
        | _ => st
        end
  | _ =>
      let message :=
        VDict [ entry "type" (VStr (str_lit "system"));
                entry "room" (VStr room);
                entry "text" (VStr (str_lit "Left room: " ++ room));
                entry "timestamp" (VStr timestamp) ] in
      set_rooms st (update_room room (append message) (rooms st))
  end.

(** The state part of [_handle_disconnect], the client apart. *)
Definition _handle_disconnect (st : state) : state :=
  {| rooms := [(HUB, new_room)]; nicknames := nicknames st; hub_name := None;
     active_room := HUB |}.

(** [_handle_set_active_room]: the state and whether the reply is an
    error. *)
Definition _handle_set_active_room (room : option pyval) (st : state) : state * bool :=
  match room with
  | Some (VStr room) =>
      if (64 <? length room)%nat then (st, false)
      else
        match room with
        | [] => (st, false)
        | _ => ({| rooms := rooms st; nicknames := nicknames st;
                   hub_name := hub_name st; active_room := room |}, true)
        end
  | _ => (st, false)
  end.

(** One call of a handler that touches the rooms. *)
Inductive step : state -> state -> Prop :=
| step_message timestamp env st st' :
    _on_message timestamp env st = Some st' -> step st st'
| step_notice timestamp env st st' :
    _on_notice timestamp env st = Some st' -> step st st'
| step_welcome timestamp env st :
    step st (_on_welcome timestamp env st)
| step_joined timestamp room env st :
    step st (_on_joined timestamp room env st)
| step_parted timestamp room env st :
    step st (_on_parted timestamp room env st)
| step_disconnect st :
    step st (_handle_disconnect st)
| step_active_room room st :
    step st (_handle_set_active_room room st).1.

Definition reachable (st : state) : Prop := rtc step init st.

End Service.

(** ** Sample data for the examples below *)
Module Samples.
Import Client.

(** An interpreter for the examples: [str.lower] on ASCII letters, a
    one-character [str(v)], and the UTF-8 decoder of the CBOR model. *)
#[local] Instance builtins : Builtins := {|
  lower := map (fun c => if (65 <=? c) && (c <=? 90) then c + 32 else c);
  repr_len := fun _ => 1%nat;
  utf8_decode := Cbor.utf8_decode
|}.

Definition expectation (rid : bytes) (sz : Z) (created : Q) : bytes * _ResourceExpectation :=
  (rid, {| exp_id := rid; exp_kind := str_lit "notice"; exp_size := sz;
           exp_sha256 := None; exp_encoding := None;
           created_at := created; expires_at := (created + 30)%Q;
           exp_room := Some (str_lit "general") |}).

Definition client_with (d : list (bytes * _ResourceExpectation)) : state :=
  {| link := Some 1%nat; rooms := ∅; welcomed := true;
     _resource_expectations := d;
     _active_resources := ∅;
     _resource_to_expectation := ∅ |}.

(** Two pending expectations, of 100 and of 200 bytes. *)
Definition two_pending : state :=
  client_with [expectation [1] 100 0; expectation [2] 200 1].

Definition resource_200 : Resource := {| handle := 7%nat; total_size := 200 |}.

(** A full table: eight pending expectations, the one with id 4 the oldest. *)
Definition eight_pending : state :=
  client_with [expectation [1] 10 3; expectation [2] 20 1; expectation [3] 30 4;
               expectation [4] 40 0; expectation [5] 50 5; expectation [6] 60 9;
               expectation [7] 70 2; expectation [8] 80 6].

(** A RESOURCE_ENVELOPE for the resource [rid] of 200 bytes. *)
Definition resource_envelope (rid : bytes) : pyval :=
  VDict [(VInt K_V, VInt 1); (VInt K_T, VInt T_RESOURCE_ENVELOPE);
         (VInt K_ID, VBytes [0; 1; 2; 3; 4; 5; 6; 7]);
         (VInt K_TS, VInt 1700000000000);
         (VInt K_SRC, VBytes (repeat 170 16));
         (VInt K_ROOM, VStr (str_lit "general"));
         (VInt K_BODY,
          VDict [(VInt B_RES_ID, VBytes rid);
                 (VInt B_RES_KIND, VStr (str_lit "notice"));
                 (VInt B_RES_SIZE, VInt 200)])].

(** The packet that carries it. *)
Definition packet (env : pyval) : bytes := default [] (Cbor.encode_item env).

(** A message whose body is the float 1.5. *)
Definition float_envelope : pyval :=
  VDict [(VInt K_V, VInt 1); (VInt K_T, VInt T_MSG);
         (VInt K_ID, VBytes [0; 1; 2; 3; 4; 5; 6; 7]);
         (VInt K_TS, VInt 1700000000000);
         (VInt K_SRC, VBytes (repeat 170 16));
         (VInt K_ROOM, VStr (str_lit "general"));
         (VInt K_BODY, VFloat (FFinite 4609434218613702656));
         (VInt K_NICK, VStr (str_lit "alice"))].

(** The application data of an announce: an RRC map whose hub entry is a
    number, with a name beside it. *)
Definition unnamed_rrc_hub : list (pyval * pyval) :=
  [(VStr (str_lit "proto"), VStr (str_lit "rrc"));
   (VStr (str_lit "hub"), VInt 5);
   (VStr (str_lit "name"), VStr (str_lit "Foo"))].

Definition destination : bytes :=
  [0; 17; 34; 51; 68; 85; 102; 119; 136; 153; 170; 187; 204; 221; 238; 255].


(** A message to the room "general" with the given body. *)
Definition message (body : pyval) : pyval :=
  VDict [(VInt K_V, VInt 1); (VInt K_T, VInt T_MSG);
         (VInt K_ID, VBytes [0; 1; 2; 3; 4; 5; 6; 7]);
         (VInt K_TS, VInt 1700000000000);
         (VInt K_SRC, VBytes (repeat 170 16));
         (VInt K_ROOM, VStr (str_lit "general"));
         (VInt K_BODY, body)].


Definition hub (hash_hex : string) (name : string) (seen : Q) : pystr * Backend.Hub :=
  (str_lit hash_hex,
   {| Backend.hub_hash := str_lit hash_hex;
      Backend.hub_name := str_lit name;
      Backend.hub_aspect := Backend.aspect_filter;
      Backend.last_seen := seen |}).

(** A connected backend that knows two hubs, seen at 6399 s and at 9990 s. *)
Definition two_hubs : Backend.state :=
  {| Backend.client := Some Client.init;
     Backend.room_operation_times := ∅;
     Backend.discovered_hubs :=
       [hub "00112233445566778899aabbccddeeff" "Old Hub" 6399;
        hub "ffeeddccbbaa99887766554433221100" "Demo Hub" 9990];
     Backend.loop := true;
     Backend.broadcast := true |}.
End Samples.

(** ** More sample data *)
Module Examples.
Import Client.

(** The fields of a valid message to the room "general". *)
Definition fields : list (pyval * pyval) :=
  [(VInt K_V, VInt 1); (VInt K_T, VInt T_MSG);
   (VInt K_ID, VBytes [0; 1; 2; 3; 4; 5; 6; 7]);
   (VInt K_TS, VInt 1700000000000);
   (VInt K_SRC, VBytes (repeat 170 16));
   (VInt K_ROOM, VStr (str_lit "general"));
   (VInt K_BODY, VStr (str_lit "hello"))].

(** Eight bytes as [os.urandom(8)] may return them, and a reading of the
    clock in milliseconds. *)
Definition random : bytes := [8; 7; 6; 5; 4; 3; 2; 1].
Definition clock : Z := 1700000000000.

(** A link that carries packets of up to 80 bytes. *)
#[local] Instance transport : Outbound.Transport := {|
  Outbound.packs := fun _ payload => (length payload <=? 80)%nat
|}.

(** A client with a nickname and a handler for warnings. *)
Definition alice : Outbound.Sender :=
  {| Outbound.identity_hash := repeat 170 16;
     Outbound.nickname := Some (str_lit "alice");
     Outbound.on_resource_warning := true |}.

(** A client whose link is up. *)
Definition online : state := connected 1 init.

(** A RESOURCE_ENVELOPE that announces the resource [rid] of [size] bytes. *)
Definition announce (rid : bytes) (size : Z) : pyval :=
  VDict [(VInt K_V, VInt 1); (VInt K_T, VInt T_RESOURCE_ENVELOPE);
         (VInt K_ID, VBytes [0; 1; 2; 3; 4; 5; 6; 7]);
         (VInt K_TS, VInt 1700000000000);
         (VInt K_SRC, VBytes (repeat 170 16));
         (VInt K_BODY,
          VDict [(VInt B_RES_ID, VBytes rid);
                 (VInt B_RES_KIND, VStr (str_lit "notice"));
                 (VInt B_RES_SIZE, VInt size)])].

(** The client after the packet that carries [env] has come in at [now]. *)
Definition received (now : Q) (env : pyval) (st : state) : state :=
  (_on_packet (H := Samples.builtins) default_config now (Samples.packet env) st).1.

(** The client after three announcements: the resource 01 with 100 bytes at
    0 s, the resource 02 with 200 bytes at 1 s, and the resource 01 again,
    now with 200 bytes, at 2 s. *)
Definition reannounced : state :=
  received 2 (announce [1] 200)
    (received 1 (announce [2] 200) (received 0 (announce [1] 100) online)).

(** A stand-in for the digest (the sum of the bytes) and a decoder that
    knows UTF-8 only. *)
#[local] Instance hashlib : Concluded.Hashlib := {|
  Concluded.sha256 := fun data => [fold_right Z.add 0 data mod 256];
  Concluded.decode_text := fun encoding data =>
    if bool_decide (encoding = str_lit "utf-8") then Cbor.utf8_decode data else None
|}.

(** A PING that carries the body 7. *)
Definition ping_envelope : pyval :=
  VDict [(VInt K_V, VInt 1); (VInt K_T, VInt T_PING);
         (VInt K_ID, VBytes [0; 1; 2; 3; 4; 5; 6; 7]);
         (VInt K_TS, VInt 1700000000000);
         (VInt K_SRC, VBytes (repeat 187 16));
         (VInt K_BODY, VInt 7)].

(** The client after a RESOURCE_ENVELOPE for 200 bytes at 10 s, and after
    the resource of that size was advertised at 12 s. *)
Definition announced : state :=
  (_on_packet (H := Samples.builtins) default_config 10
     (Samples.packet (Samples.resource_envelope [9])) online).1.

Definition receiving : state :=
  (_resource_advertised default_config 12 Samples.resource_200 announced).2.

(** The transfer of the resource, complete, with the text "hi". *)
Definition transfer : Concluded.Transfer :=
  {| Concluded.resource := Samples.resource_200;
     Concluded.complete := true;
     Concluded.data := Some [104; 105] |}.

(** A backend with a client and ten part requests for "lobby" on record,
    from 0.0 s to 4.5 s. *)
Definition busy : Backend.state :=
  {| Backend.client := Some Client.init;
     Backend.room_operation_times :=
       {[ str_lit "part:lobby" :=
            [0; 0.5; 1; 1.5; 2; 2.5; 3; 3.5; 4; 4.5]%Q ]};
     Backend.discovered_hubs := [];
     Backend.loop := true;
     Backend.broadcast := true |}.

(** A message to "general" from the source 0xAA.., with a nickname. *)
Definition chat : pyval := VDict (fields ++ [(VInt K_NICK, VStr (str_lit "alice"))]).

(** A room table that is full: the hub's room and 99 more. *)
Definition crowded : Service.state :=
  {| Service.rooms :=
       (Service.HUB, Service.new_room)
       :: map (fun n => ([Z.of_nat n], Service.new_room)) (seq 0 99);
     Service.nicknames := ∅;
     Service.hub_name := None;
     Service.active_room := Service.HUB |}.

End Examples.

(** * Properties *)

(** ** Ordered dictionaries *)
Section OrderedDictFacts.
Context {K V : Type} `{EqDecision K}.
Implicit Type d : list (K * V).
Implicit Type k : K.
Implicit Types pre post : list (K * V).

Lemma od_del_notin k d : k ∉ od_keys d -> od_del k d = d.
Proof.
  induction d as [|[k' v] d IH]; simpl; intros Hk; [done|].
  rewrite not_elem_of_cons in Hk. destruct Hk as [Hne Hk].
  destruct (decide (k' = k)); [congruence|]. by rewrite IH.
Qed.

Lemma od_del_middle k v pre post :
  k ∉ od_keys pre -> od_del k (pre ++ (k, v) :: post) = pre ++ post.
Proof.
  induction pre as [|[k' v'] pre IH]; simpl; intros Hk.
  - by destruct (decide (k = k)).
  - rewrite not_elem_of_cons in Hk. destruct Hk as [Hne Hk].
    destruct (decide (k' = k)); [congruence|]. by rewrite IH.
Qed.

Lemma od_get_middle k v pre post :
  k ∉ od_keys pre -> od_get k (pre ++ (k, v) :: post) = Some v.
Proof.
  induction pre as [|[k' v'] pre IH]; simpl; intros Hk.
  - by destruct (decide (k = k)).
  - rewrite not_elem_of_cons in Hk. destruct Hk as [Hne Hk].
    destruct (decide (k' = k)); [congruence|]. by rewrite IH.
Qed.

Lemma od_set_middle k (v v' : V) pre post :
  k ∉ od_keys pre ->
  od_set k v (pre ++ (k, v') :: post) = pre ++ (k, v) :: post.
Proof.
  induction pre as [|[k0 v0] pre IH]; simpl; intros Hk.
  - by destruct (decide (k = k)).
  - rewrite not_elem_of_cons in Hk. destruct Hk as [Hne Hk].
    destruct (decide (k0 = k)); [congruence|]. by rewrite IH.
Qed.

Lemma od_keys_app (d1 d2 : list (K * V)) : od_keys (d1 ++ d2) = od_keys d1 ++ od_keys d2.
Proof. apply map_app. Qed.

Lemma od_keys_filter_sub (P : K * V -> bool) d k :
  k ∈ od_keys (List.filter P d) -> k ∈ od_keys d.
Proof.
  unfold od_keys. rewrite !list_elem_of_fmap.
  intros [e [-> He]]. exists e. split; [done|].
  apply list_elem_of_In in He. apply filter_In in He as [He _].
  by apply list_elem_of_In.
Qed.

Lemma od_keys_filter_NoDup (P : K * V -> bool) d :
  NoDup (od_keys d) -> NoDup (od_keys (List.filter P d)).
Proof.
  induction d as [|[k v] d IH]; simpl; [done|].
  rewrite NoDup_cons. intros [Hk Hd].
  destruct (P (k, v)); simpl; [|by apply IH].
  apply NoDup_cons. split; [|by apply IH].
  intros Hin. by apply Hk, (od_keys_filter_sub P).
Qed.

(** Deleting keys that do not occur leaves the head of the table alone. *)
Lemma fold_del_cons_notin ks k v d :
  k ∉ ks ->
  fold_left (fun d k => od_del k d) ks ((k, v) :: d)
  = (k, v) :: fold_left (fun d k => od_del k d) ks d.
Proof.
  revert d. induction ks as [|k' ks IH]; simpl; intros d Hk; [done|].
  rewrite not_elem_of_cons in Hk. destruct Hk as [Hne Hk].
  destruct (decide (k = k')); [congruence|]. by rewrite IH.
Qed.

(** The loop [for k in [k for k, v in d.items() if P]: del d[k]] keeps the
    other entries, in order. *)
Lemma fold_del_filter (P : K * V -> bool) d :
  NoDup (od_keys d) ->
  fold_left (fun d k => od_del k d) (map fst (List.filter P d)) d
  = List.filter (fun e => negb (P e)) d.
Proof.
  induction d as [|[k v] d IH]; simpl; [done|].
  rewrite NoDup_cons. intros [Hk Hd].
  destruct (P (k, v)) eqn:HP; simpl.
  - destruct (decide (k = k)); [|done]. by apply IH.
  - rewrite fold_del_cons_notin; [by rewrite IH|].
    intros Hin. by apply Hk, (od_keys_filter_sub P).
Qed.

Lemma od_del_length_le k d : (length (od_del k d) <= length d)%nat.
Proof.
  induction d as [|[k' v] d IH]; simpl; [lia|].
  destruct (decide (k' = k)); simpl; lia.
Qed.

Lemma od_del_length_in k d :
  k ∈ od_keys d -> S (length (od_del k d)) = length d.
Proof.
  induction d as [|[k' v] d IH]; simpl; intros Hk.
  - by apply elem_of_nil in Hk.
  - destruct (decide (k' = k)); [done|]. simpl.
    apply elem_of_cons in Hk as [?|Hk]; [congruence|]. by rewrite IH.
Qed.

Lemma od_del_keys_sub k k' d : k' ∈ od_keys (od_del k d) -> k' ∈ od_keys d.
Proof.
  induction d as [|[k0 v] d IH]; simpl; [done|].
  destruct (decide (k0 = k)); simpl; rewrite !elem_of_cons; intuition.
Qed.

Lemma od_del_NoDup k d : NoDup (od_keys d) -> NoDup (od_keys (od_del k d)).
Proof.
  induction d as [|[k0 v] d IH]; simpl; [done|].
  rewrite NoDup_cons. intros [Hk Hd].
  destruct (decide (k0 = k)); [done|]. simpl.
  apply NoDup_cons. split; [|by apply IH].
  intros Hin. by apply Hk, (od_del_keys_sub k).
Qed.

Lemma od_del_elem k d e : e ∈ od_del k d -> e ∈ d.
Proof.
  induction d as [|[k0 v] d IH]; simpl; [done|].
  destruct (decide (k0 = k)); rewrite !elem_of_cons; intuition.
Qed.

Lemma od_set_keys_in k v d : k ∈ od_keys d -> od_keys (od_set k v d) = od_keys d.
Proof.
  induction d as [|[k0 v0] d IH]; simpl; intros Hk.
  - by apply elem_of_nil in Hk.
  - destruct (decide (k0 = k)) as [->|]; [done|]. simpl.
    apply elem_of_cons in Hk as [?|Hk]; [congruence|]. by rewrite IH.
Qed.

Lemma od_set_notin k v d : k ∉ od_keys d -> od_set k v d = d ++ [(k, v)].
Proof.
  induction d as [|[k0 v0] d IH]; simpl; intros Hk; [done|].
  rewrite not_elem_of_cons in Hk. destruct Hk as [Hne Hk].
  destruct (decide (k0 = k)); [congruence|]. by rewrite IH.
Qed.

Lemma od_set_length k v d :
  length (od_set k v d) = if decide (k ∈ od_keys d) then length d else S (length d).
Proof.
  destruct (decide (k ∈ od_keys d)) as [Hin|Hnin].
  - pose proof (od_set_keys_in k v d Hin) as Hk.
    apply (f_equal length) in Hk. unfold od_keys in Hk.
    by rewrite !length_map in Hk.
  - rewrite od_set_notin by done. rewrite length_app. simpl. lia.
Qed.

Lemma od_get_set k v d : od_get k (od_set k v d) = Some v.
Proof.
  induction d as [|[k0 v0] d IH]; simpl.
  - by destruct (decide (k = k)).
  - destruct (decide (k0 = k)) as [->|Hne]; simpl.
    + by destruct (decide (k = k)).
    + by destruct (decide (k0 = k)).
Qed.

Lemma od_set_NoDup k v d : NoDup (od_keys d) -> NoDup (od_keys (od_set k v d)).
Proof.
  intros Hd. destruct (decide (k ∈ od_keys d)) as [Hin|Hnin].
  - by rewrite od_set_keys_in.
  - rewrite od_set_notin, od_keys_app by done. simpl.
    apply NoDup_app. split; [done|]. split; [|apply NoDup_singleton].
    intros x Hx Hx'. apply list_elem_of_singleton in Hx'. by subst.
Qed.

Lemma od_set_elem k v d e : e ∈ od_set k v d -> e = (k, v) ∨ e ∈ d.
Proof.
  induction d as [|[k0 v0] d IH]; simpl.
  - rewrite list_elem_of_singleton. by left.
  - destruct (decide (k0 = k)); rewrite !elem_of_cons; intuition.
Qed.
End OrderedDictFacts.

Lemma find_split {A} (f : A -> bool) (l : list A) (x : A) :
  List.find f l = Some x ->
  exists pre post, l = pre ++ x :: post /\ Forall (fun e => f e = false) pre /\ f x = true.
Proof.
  induction l as [|y l IH]; simpl; [done|].
  destruct (f y) eqn:Hy.
  - intros [= ->]. by exists [], l.
  - intros Hf. destruct (IH Hf) as (pre & post & -> & Hpre & Hx).
    exists (y :: pre), post. split; [done|]. split; [|done]. by constructor.
Qed.

Lemma find_none_Forall {A} (f : A -> bool) (l : list A) :
  List.find f l = None -> Forall (fun e => f e = false) l.
Proof.
  induction l as [|y l IH]; simpl; [constructor|].
  destruct (f y) eqn:Hy; [done|]. intros Hf. constructor; auto.
Qed.

(** ** The client: resource expectations *)
Section ClientFacts.
Import Client.

(** The pending entries that have not expired at [now], in table order. *)
Definition live (now : Q) (d : list (bytes * _ResourceExpectation))
  : list (bytes * _ResourceExpectation) :=
  List.filter (fun e => negb (expired now e)) d.

Lemma expired_false now e : expired now e = false <-> (now < expires_at e.2)%Q.
Proof.
  unfold expired. destruct (Qlt_le_dec now (expires_at e.2)) as [Hlt|Hle].
  - done.
  - split; [done|]. intros Hlt. exfalso. by apply (Qlt_not_le _ _ Hlt).
Qed.

Lemma cleanup_live now st :
  NoDup (od_keys (_resource_expectations st)) ->
  _resource_expectations (_cleanup_expired_expectations now st)
  = live now (_resource_expectations st).
Proof. intros Hnd. simpl. by apply fold_del_filter. Qed.

Lemma elem_of_live now d e :
  e ∈ live now d <-> e ∈ d /\ (now < expires_at e.2)%Q.
Proof.
  unfold live. rewrite !list_elem_of_In, filter_In, negb_true_iff, expired_false.
  done.
Qed.

(** What [_find_resource_expectation] returns and leaves behind. *)
Lemma find_resource_expectation_spec now sz st :
  NoDup (od_keys (_resource_expectations st)) ->
  match _find_resource_expectation now sz st with
  | (Some exp, st') =>
      exists pre rid post,
        live now (_resource_expectations st) = pre ++ (rid, exp) :: post
        /\ exp_size exp = sz
        /\ Forall (fun e => exp_size e.2 <> sz) pre
        /\ st' = set_expectations st (pre ++ post)
  | (None, st') =>
      Forall (fun e => exp_size e.2 <> sz) (live now (_resource_expectations st))
      /\ st' = set_expectations st (live now (_resource_expectations st))
  end.
Proof.
  intros Hnd. unfold _find_resource_expectation, _cleanup_expired_expectations.
  rewrite fold_del_filter by done.
  fold (live now (_resource_expectations st)). simpl.
  pose proof (od_keys_filter_NoDup (fun e => negb (expired now e)) _ Hnd) as Hlive.
  fold (live now (_resource_expectations st)) in Hlive.
  destruct (List.find _ (live now (_resource_expectations st))) as [[rid exp]|] eqn:Hfind.
  - destruct (find_split _ _ _ Hfind) as (pre & post & Heq & Hpre & Hsz).
    simpl in Hsz. apply Z.eqb_eq in Hsz.
    rewrite Heq in Hlive |- *. rewrite od_keys_app in Hlive. simpl in Hlive.
    apply NoDup_app in Hlive as (_ & Hdisj & _).
    assert (rid ∉ od_keys pre) as Hnotin.
    { intros Hin. apply (Hdisj _ Hin). by left. }
    rewrite od_get_middle, od_del_middle by done.
    exists pre, rid, post. repeat split; try done.
    eapply Forall_impl; [exact Hpre|]. simpl. intros e He. by apply Z.eqb_neq.
  - split; [|done]. apply find_none_Forall in Hfind.
    eapply Forall_impl; [exact Hfind|]. simpl. intros e He. by apply Z.eqb_neq.
Qed.
End ClientFacts.

(** C1 as the code has it: an advertised resource is accepted exactly when
    its size is at most [max_resource_bytes], fewer than
    [max_active_resources] transfers are active, and a pending expectation
    that has not expired has that size; on accept the first such
    expectation in the order of the table is the one removed from the
    unexpired pending entries, and the resource joins the active set,
    mapped to that expectation.  The order of the table is that of the
    dictionary, in which an id that is announced again keeps its place: it
    is not the order in which the expectations were made. *)
Theorem resource_advertised_accept_iff
    (cfg : Client.ClientConfig) (now : Q) (resource : Client.Resource)
    (st : Client.state) :
  NoDup (od_keys (Client._resource_expectations st)) ->
  let '(accepted, st') := Client._resource_advertised cfg now resource st in
  (accepted = true <->
     Client.total_size resource <= Client.max_resource_bytes cfg
     /\ (size (Client._active_resources st) < Client.max_active_resources cfg)%nat
     /\ exists e, e ∈ Client._resource_expectations st
                  /\ (now < Client.expires_at e.2)%Q
                  /\ Client.exp_size e.2 = Client.total_size resource)
  /\ (accepted = true ->
      exists pre rid exp post,
        live now (Client._resource_expectations st) = pre ++ (rid, exp) :: post
        /\ Client.exp_size exp = Client.total_size resource
        /\ Forall (fun e => Client.exp_size e.2 <> Client.total_size resource) pre
        /\ Client._resource_expectations st' = pre ++ post
        /\ Client._active_resources st'
           = {[ Client.handle resource ]} ∪ Client._active_resources st
        /\ Client._resource_to_expectation st' !! Client.handle resource = Some exp).
Proof.
  intros Hnd. unfold Client._resource_advertised.
  destruct (Z.ltb_spec (Client.max_resource_bytes cfg) (Client.total_size resource)) as [Hbig|Hfit].
  { split; [|done]. split; [done|]. intros (? & _). lia. }
  destruct (Nat.leb_spec (Client.max_active_resources cfg)
              (size (Client._active_resources st))) as [Hfull|Hroom].
  { split; [|done]. split; [done|]. intros (_ & ? & _). lia. }
  pose proof (find_resource_expectation_spec now (Client.total_size resource) st Hnd) as Hfind.
  destruct (Client._find_resource_expectation now (Client.total_size resource) st)
    as [[exp|] st1].
  - destruct Hfind as (pre & rid & post & Hlive & Hsz & Hpre & ->).
    split.
    + split; [|done]. intros _. repeat split; try done.
      assert ((rid, exp) ∈ live now (Client._resource_expectations st)) as Hin.
      { rewrite Hlive. apply elem_of_app. right. by left. }
      apply elem_of_live in Hin as [Hin Hlt]. by exists (rid, exp).
    + intros _. exists pre, rid, exp, post. simpl.
      repeat split; try done. by rewrite lookup_insert_eq.
  - destruct Hfind as (Hnone & ->).
    split; [|done]. split; [done|]. intros (_ & _ & e & Hin & Hlt & Hsz).
    rewrite Forall_forall in Hnone. exfalso. apply (Hnone e); [|done].
    by apply elem_of_live.
Qed.

Lemma resource_advertised_accept_iff_witness :
  NoDup (od_keys (Client._resource_expectations Samples.two_pending))
  /\ (Client._resource_advertised Client.default_config 5 Samples.resource_200
        Samples.two_pending).1 = true.
Proof.
  assert (NoDup (od_keys (Client._resource_expectations Samples.two_pending))) as Hnd.
  { apply (bool_decide_unpack _). vm_compute. exact I. }
  split; [exact Hnd|].
  pose proof (resource_advertised_accept_iff Client.default_config 5
                Samples.resource_200 Samples.two_pending Hnd) as Hspec.
  destruct (Client._resource_advertised Client.default_config 5 Samples.resource_200
              Samples.two_pending) as [accepted st'].
  apply Hspec. split; [simpl; lia|]. split; [vm_compute; lia|].
  exists (Samples.expectation [2] 200 1). split; [|split; [reflexivity|reflexivity]].
  right. left.
Defined.

(** C7: whatever the state before, after [close()] the pending table, the
    active set and the rooms are empty and there is no link (and the
    resource-to-expectation map is empty too). *)
Theorem close_clears_state (st : Client.state) :
  let st' := (Client.close st).1 in
  Client._resource_expectations st' = []
  /\ Client._active_resources st' = ∅
  /\ Client.rooms st' = ∅
  /\ Client.link st' = None
  /\ Client._resource_to_expectation st' = ∅.
Proof. by repeat split. Qed.

(** ** The client: recording expectations *)
Lemma min_from_spec {A} (f : A -> Q) (xs : list A) (best : A) :
  (min_from f best xs = best \/ min_from f best xs ∈ xs)
  /\ (f (min_from f best xs) <= f best)%Q
  /\ Forall (fun x => (f (min_from f best xs) <= f x)%Q) xs.
Proof.
  revert best. induction xs as [|x xs IH]; intros best; simpl.
  - split; [by left|]. split; [apply Qle_refl|constructor].
  - destruct (Qlt_le_dec (f x) (f best)) as [Hlt|Hle].
    + destruct (IH x) as (Hin & Hbest & Hall). split; [|split].
      * right. destruct Hin as [->|Hin]; [by left|by right].
      * apply Qlt_le_weak in Hlt. by eapply Qle_trans.
      * by constructor.
    + destruct (IH best) as (Hin & Hbest & Hall). split; [|split].
      * destruct Hin as [Heq|Hin]; [by left|right; by right].
      * done.
      * constructor; [|done]. by eapply Qle_trans.
Qed.

Lemma py_min_spec {A} (f : A -> Q) (xs : list A) (m : A) :
  py_min f xs = Some m ->
  m ∈ xs /\ Forall (fun x => (f m <= f x)%Q) xs.
Proof.
  destruct xs as [|x xs]; simpl; [done|]. intros [= <-].
  destruct (min_from_spec f xs x) as (Hin & Hbest & Hall). split.
  - destruct Hin as [->|Hin]; [by left|by right].
  - by constructor.
Qed.

Section ExpectationFacts.
Import Client.

(** A body as the specification wants it: [id] a blob, [kind] a string,
    [size] a positive integer of at most [max_resource_bytes], [sha256] a
    blob if there is one, [encoding] a string if there is one. *)
Definition resource_body (cfg : ClientConfig) (env : pyval) (rid : bytes)
    (kind : pystr) (size : Z) (sha256 : option bytes) (encoding : option pystr)
  : Prop :=
  exists body,
    env_get K_BODY env = Some (VDict body)
    /\ dict_get (VInt B_RES_ID) body = Some (VBytes rid)
    /\ dict_get (VInt B_RES_KIND) body = Some (VStr kind)
    /\ dict_get (VInt B_RES_SIZE) body ≫= as_int = Some size
    /\ 0 < size <= max_resource_bytes cfg
    /\ optional_bytes (dict_get (VInt B_RES_SHA256) body) = Some sha256
    /\ optional_str (dict_get (VInt B_RES_ENCODING) body) = Some encoding.

Lemma on_resource_envelope_valid cfg now env st rid kind size sha256 encoding :
  resource_body cfg env rid kind size sha256 encoding ->
  on_resource_envelope cfg now env st
  = match evict_oldest cfg (_resource_expectations st) with
    | None => st
    | Some d =>
        set_expectations st
          (od_set rid (new_expectation cfg now env rid kind size sha256 encoding) d)
    end.
Proof.
  intros (body & Hbody & Hid & Hkind & Hsize & Hrange & Hsha & Henc).
  unfold on_resource_envelope. rewrite Hbody, Hid, Hkind, Hsize, Hsha, Henc.
  destruct (Z.leb_spec size 0); [lia|].
  destruct (Z.ltb_spec (max_resource_bytes cfg) size); [lia|]. done.
Qed.

Lemma evict_oldest_room cfg (d : list (bytes * _ResourceExpectation)) :
  (length d < max_pending_resource_expectations cfg)%nat ->
  evict_oldest cfg d = Some d.
Proof.
  intros Hlt. unfold evict_oldest.
  destruct (Nat.leb_spec (max_pending_resource_expectations cfg) (length d)); [lia|done].
Qed.

Lemma evict_oldest_full cfg (d : list (bytes * _ResourceExpectation)) :
  (0 < length d)%nat ->
  (max_pending_resource_expectations cfg <= length d)%nat ->
  exists oldest_rid oldest,
    (oldest_rid, oldest) ∈ d
    /\ Forall (fun e => (created_at oldest <= created_at e.2)%Q) d
    /\ evict_oldest cfg d = Some (od_del oldest_rid d).
Proof.
  intros Hpos Hfull. unfold evict_oldest.
  destruct (Nat.leb_spec (max_pending_resource_expectations cfg) (length d)); [|lia].
  destruct (py_min (fun e : bytes * _ResourceExpectation => created_at e.2) d)
    as [[oldest_rid oldest]|] eqn:Hmin.
  - apply py_min_spec in Hmin as [Hin Hall]. by exists oldest_rid, oldest.
  - destruct d; [simpl in Hpos; lia|done].
Qed.

Lemma evict_oldest_empty cfg :
  max_pending_resource_expectations cfg = 0%nat -> evict_oldest cfg [] = None.
Proof. intros Hz. unfold evict_oldest. by rewrite Hz. Qed.

(** The pending table is within its bound, has one entry per id, and every
    entry expires one time-to-live after its creation. *)
Definition pending_ok (cfg : ClientConfig) (d : list (bytes * _ResourceExpectation))
  : Prop :=
  (length d <= max_pending_resource_expectations cfg)%nat
  /\ NoDup (od_keys d)
  /\ Forall (fun e => expires_at e.2
                      = (created_at e.2 + resource_expectation_ttl_s cfg)%Q) d.

Lemma pending_ok_del cfg k d : pending_ok cfg d -> pending_ok cfg (od_del k d).
Proof.
  intros (Hlen & Hnd & Hall). split; [|split].
  - pose proof (od_del_length_le k d). lia.
  - by apply od_del_NoDup.
  - rewrite Forall_forall in Hall |- *. intros e He. by apply Hall, (od_del_elem k).
Qed.

Lemma pending_ok_fold_del cfg ks d :
  pending_ok cfg d -> pending_ok cfg (fold_left (fun d k => od_del k d) ks d).
Proof.
  revert d. induction ks as [|k ks IH]; simpl; intros d Hd; [done|].
  by apply IH, pending_ok_del.
Qed.

Lemma pending_ok_record cfg now env rid kind size sha256 encoding d d' :
  pending_ok cfg d ->
  evict_oldest cfg d = Some d' ->
  pending_ok cfg
    (od_set rid (new_expectation cfg now env rid kind size sha256 encoding) d').
Proof.
  intros (Hlen & Hnd & Hall) Hev.
  assert (pending_ok cfg d'
          /\ (length d' < max_pending_resource_expectations cfg)%nat) as [Hd' Hlt].
  { unfold evict_oldest in Hev.
    destruct (Nat.leb_spec (max_pending_resource_expectations cfg) (length d)) as [Hfull|Hroom].
    - destruct (py_min _ d) as [[oldest_rid oldest]|] eqn:Hmin; [|done].
      injection Hev as <-. apply py_min_spec in Hmin as [Hin _].
      split; [by apply pending_ok_del|].
      assert (oldest_rid ∈ od_keys d) as Hk.
      { apply list_elem_of_fmap. by exists (oldest_rid, oldest). }
      pose proof (od_del_length_in _ _ Hk). lia.
    - injection Hev as <-. done. }
  destruct Hd' as (Hlen' & Hnd' & Hall'). split; [|split].
  - rewrite od_set_length. case_decide; lia.
  - by apply od_set_NoDup.
  - rewrite Forall_forall in Hall' |- *. intros e He.
    apply od_set_elem in He as [->|He]; [done|by apply Hall'].
Qed.

Lemma on_resource_envelope_pending_ok cfg now env st :
  pending_ok cfg (_resource_expectations st) ->
  pending_ok cfg (_resource_expectations (on_resource_envelope cfg now env st)).
Proof.
  intros Hok. unfold on_resource_envelope.
  repeat case_match; try done. simpl. by eapply pending_ok_record.
Qed.
End ExpectationFacts.

Section PacketFacts.
Context `{Builtins} `{Cbor2}.
Import Client.

Lemma on_packet_resource_envelope cfg now data env st :
  Codec.decode data = Some env ->
  Envelope.validate_envelope env = Ok tt ->
  env_get K_T env ≫= as_int = Some T_RESOURCE_ENVELOPE ->
  _on_packet cfg now data st = (on_resource_envelope cfg now env st, []).
Proof.
  intros Hdec Hval Ht. unfold _on_packet, dispatch. by rewrite Hdec, Hval, Ht.
Qed.

Lemma dispatch_pending_ok cfg now env st :
  pending_ok cfg (_resource_expectations st) ->
  pending_ok cfg (_resource_expectations (dispatch cfg now env st).1).
Proof.
  intros Hok. unfold dispatch.
  repeat case_match; try done. simpl. by apply on_resource_envelope_pending_ok.
Qed.

Lemma on_packet_pending_ok cfg now data st :
  pending_ok cfg (_resource_expectations st) ->
  pending_ok cfg (_resource_expectations (_on_packet cfg now data st).1).
Proof.
  intros Hok. unfold _on_packet.
  repeat case_match; try done. by apply dispatch_pending_ok.
Qed.

Lemma resource_advertised_pending_ok cfg now resource st :
  pending_ok cfg (_resource_expectations st) ->
  pending_ok cfg (_resource_expectations (_resource_advertised cfg now resource st).2).
Proof.
  intros Hok. unfold _resource_advertised, _find_resource_expectation.
  assert (pending_ok cfg
            (_resource_expectations (_cleanup_expired_expectations now st))) as Hclean.
  { simpl. by apply pending_ok_fold_del. }
  repeat case_match; simplify_eq; simpl; try done; by apply pending_ok_del.
Qed.

Lemma step_pending_ok cfg st st' :
  step cfg st st' ->
  pending_ok cfg (_resource_expectations st) ->
  pending_ok cfg (_resource_expectations st').
Proof.
  assert (pending_ok cfg []) as Hnil.
  { split; [simpl; lia|]. split; constructor. }
  destruct 1; intros Hok; simpl; try done.
  - by apply on_packet_pending_ok.
  - by apply resource_advertised_pending_ok.
Qed.

Lemma reachable_pending_ok cfg st :
  reachable cfg st -> pending_ok cfg (_resource_expectations st).
Proof.
  unfold reachable. intros Hr. apply rtc_nsteps in Hr as [n Hr].
  revert st Hr. induction n as [|n IH]; intros st Hr.
  - inversion Hr; subst. split; [simpl; lia|]. split; constructor.
  - apply nsteps_inv_r in Hr as (mid & Hmid & Hstep).
    eapply step_pending_ok; [exact Hstep|]. by apply IH.
Qed.

(** What recording at capacity does to a table with one entry per id. *)
Lemma record_at_capacity cfg now data env st rid kind size sha256 encoding :
  Codec.decode data = Some env ->
  Envelope.validate_envelope env = Ok tt ->
  env_get K_T env ≫= as_int = Some T_RESOURCE_ENVELOPE ->
  resource_body cfg env rid kind size sha256 encoding ->
  NoDup (od_keys (_resource_expectations st)) ->
  (0 < length (_resource_expectations st))%nat ->
  (max_pending_resource_expectations cfg <= length (_resource_expectations st))%nat ->
  exists pre oldest_rid oldest post,
    _resource_expectations st = pre ++ (oldest_rid, oldest) :: post
    /\ Forall (fun e => (created_at oldest <= created_at e.2)%Q)
              (_resource_expectations st)
    /\ _resource_expectations (_on_packet cfg now data st).1
       = od_set rid (new_expectation cfg now env rid kind size sha256 encoding)
                (pre ++ post).
Proof.
  intros Hdec Hval Ht Hbody Hnd Hpos Hfull.
  rewrite (on_packet_resource_envelope _ _ _ env) by done. simpl.
  rewrite (on_resource_envelope_valid _ _ _ _ rid kind size sha256 encoding) by done.
  destruct (evict_oldest_full cfg _ Hpos Hfull) as (oldest_rid & oldest & Hin & Hall & ->).
  apply list_elem_of_split in Hin as (pre & post & Heq).
  exists pre, oldest_rid, oldest, post. split; [done|]. split; [done|]. simpl.
  rewrite Heq in Hnd |- *. rewrite od_keys_app in Hnd. simpl in Hnd.
  apply NoDup_app in Hnd as (_ & Hdisj & _).
  rewrite od_del_middle; [done|]. intros Hk. apply (Hdisj _ Hk). by left.
Qed.

(** What recording below capacity does. *)
Lemma record_below_capacity cfg now data env st rid kind size sha256 encoding :
  Codec.decode data = Some env ->
  Envelope.validate_envelope env = Ok tt ->
  env_get K_T env ≫= as_int = Some T_RESOURCE_ENVELOPE ->
  resource_body cfg env rid kind size sha256 encoding ->
  (length (_resource_expectations st) < max_pending_resource_expectations cfg)%nat ->
  _resource_expectations (_on_packet cfg now data st).1
  = od_set rid (new_expectation cfg now env rid kind size sha256 encoding)
           (_resource_expectations st).
Proof.
  intros Hdec Hval Ht Hbody Hroom.
  rewrite (on_packet_resource_envelope _ _ _ env) by done. simpl.
  rewrite (on_resource_envelope_valid _ _ _ _ rid kind size sha256 encoding) by done.
  by rewrite evict_oldest_room.
Qed.
End PacketFacts.

(** C3: when a valid RESOURCE_ENVELOPE is processed while the pending table
    holds 8 entries, the entry with the smallest [created_at] is removed
    first and the new expectation is recorded in what is left; in every
    state the client can reach the table holds at most 8 entries, each with
    [expires_at = created_at + 30]. *)
Theorem pending_expectations_capped `{Builtins} `{Cbor2} :
  (forall now data env st rid kind size sha256 encoding,
     Codec.decode data = Some env ->
     Envelope.validate_envelope env = Ok tt ->
     Client.env_get K_T env ≫= as_int = Some T_RESOURCE_ENVELOPE ->
     resource_body Client.default_config env rid kind size sha256 encoding ->
     NoDup (od_keys (Client._resource_expectations st)) ->
     length (Client._resource_expectations st) = 8%nat ->
     exists pre oldest_rid oldest post,
       Client._resource_expectations st = pre ++ (oldest_rid, oldest) :: post
       /\ Forall (fun e => (Client.created_at oldest <= Client.created_at e.2)%Q)
                 (Client._resource_expectations st)
       /\ Client._resource_expectations
            (Client._on_packet Client.default_config now data st).1
          = od_set rid
              (Client.new_expectation Client.default_config now env rid kind size
                 sha256 encoding)
              (pre ++ post))
  /\ (forall st,
        Client.reachable Client.default_config st ->
        (length (Client._resource_expectations st) <= 8)%nat
        /\ Forall (fun e => Client.expires_at e.2 = (Client.created_at e.2 + 30)%Q)
                  (Client._resource_expectations st)).
Proof.
  split.
  - intros now data env st rid kind size sha256 encoding Hdec Hval Ht Hbody Hnd Hlen.
    eapply record_at_capacity; try done; rewrite Hlen; simpl; lia.
  - intros st Hr. apply reachable_pending_ok in Hr as (Hlen & _ & Hall). done.
Qed.

Lemma pending_expectations_capped_witness :
  exists pre oldest_rid oldest post,
    Client._resource_expectations Samples.eight_pending
    = pre ++ (oldest_rid, oldest) :: post
    /\ Forall (fun e => (Client.created_at oldest <= Client.created_at e.2)%Q)
              (Client._resource_expectations Samples.eight_pending)
    /\ Client._resource_expectations
         (Client._on_packet (H := Samples.builtins) Client.default_config 10%Q
            (Samples.packet (Samples.resource_envelope [9]))
            Samples.eight_pending).1
       = od_set [9]
           (Client.new_expectation Client.default_config 10%Q
              (Samples.resource_envelope [9]) [9] (str_lit "notice") 200 None None)
           (pre ++ post).
Proof.
  apply (proj1 (pending_expectations_capped (H := Samples.builtins))).
  - by vm_compute.
  - by vm_compute.
  - by vm_compute.
  - eexists. repeat split; by vm_compute.
  - apply (bool_decide_unpack _). by vm_compute.
  - done.
Defined.

(** C1, the claim as stated, fails: the expectation consumed is not the one
    recorded first.  The id 01 is announced at 0 s, the id 02 with 200
    bytes at 1 s, and the id 01 again at 2 s, now with 200 bytes too; the
    second announcement of 01 takes the place of the first at the head of
    the table.  The resource of 200 bytes advertised at 3 s consumes that
    expectation, made at 2 s, and the one made at 1 s stays pending. *)
Lemma later_expectation_consumed_first :
  Client.reachable (H := Samples.builtins) Client.default_config Examples.reannounced
  /\ map (fun e => (e.1, Client.exp_size e.2, Client.created_at e.2))
         (Client._resource_expectations Examples.reannounced)
     = [([1], 200, 2%Q); ([2], 200, 1%Q)]
  /\ let '(accepted, st') :=
       Client._resource_advertised Client.default_config 3 Samples.resource_200
         Examples.reannounced in
     accepted = true
     /\ map (fun e => (e.1, Client.exp_size e.2, Client.created_at e.2))
            (Client._resource_expectations st')
        = [([2], 200, 1%Q)]
     /\ Client.created_at
        <$> Client._resource_to_expectation st' !! Client.handle Samples.resource_200
        = Some 2%Q.
Proof.
  split; [|by vm_compute].
  unfold Client.reachable, Examples.reannounced, Examples.received, Examples.online.
  eapply rtc_r; [eapply rtc_r; [eapply rtc_r; [apply rtc_once, Client.step_connect|]|]|];
    apply Client.step_packet.
Qed.

(** C10: the pending table is keyed by resource id.  A valid
    RESOURCE_ENVELOPE whose id is already pending, arriving below capacity,
    puts the new expectation (created at [now], expiring 30 seconds later)
    where the old one stood and adds no entry.  Arriving when the table
    holds 8 entries, it still evicts the entry with the smallest
    [created_at] before it is recorded: the table shrinks to 7 entries when
    another id was the oldest, and the new expectation goes to the end when
    its own id was. *)
Theorem duplicate_id_replaces_in_place `{Builtins} `{Cbor2}
    (now : Q) (data : bytes) (env : pyval) (st : Client.state)
    (rid : bytes) (kind : pystr) (size : Z) (sha256 : option bytes)
    (encoding : option pystr) :
  Codec.decode data = Some env ->
  Envelope.validate_envelope env = Ok tt ->
  Client.env_get K_T env ≫= as_int = Some T_RESOURCE_ENVELOPE ->
  resource_body Client.default_config env rid kind size sha256 encoding ->
  NoDup (od_keys (Client._resource_expectations st)) ->
  rid ∈ od_keys (Client._resource_expectations st) ->
  let table := Client._resource_expectations st in
  let table' :=
    Client._resource_expectations
      (Client._on_packet Client.default_config now data st).1 in
  let new :=
    Client.new_expectation Client.default_config now env rid kind size sha256
      encoding in
  (Client.created_at new = now /\ Client.expires_at new = (now + 30)%Q)
  /\ ((length table < 8)%nat ->
      exists pre old post,
        table = pre ++ (rid, old) :: post
        /\ table' = pre ++ (rid, new) :: post)
  /\ (length table = 8%nat ->
      exists pre oldest_rid oldest post,
        table = pre ++ (oldest_rid, oldest) :: post
        /\ Forall (fun e => (Client.created_at oldest <= Client.created_at e.2)%Q) table
        /\ table' = od_set rid new (pre ++ post)
        /\ (oldest_rid <> rid -> length table' = 7%nat)
        /\ (oldest_rid = rid -> table' = pre ++ post ++ [(rid, new)])).
Proof.
  intros Hdec Hval Ht Hbody Hnd Hin table table' new. subst table table' new.
  split; [done|]. split.
  - intros Hroom.
    rewrite (record_below_capacity _ _ _ env _ rid kind size sha256 encoding) by done.
    apply list_elem_of_fmap in Hin as ([rid' old] & Heq & Hin).
    simpl in Heq. subst rid'.
    apply list_elem_of_split in Hin as (pre & post & Hsplit).
    exists pre, old, post. split; [done|].
    rewrite Hsplit in Hnd |- *. rewrite od_keys_app in Hnd. simpl in Hnd.
    apply NoDup_app in Hnd as (_ & Hdisj & _).
    apply od_set_middle. intros Hk. apply (Hdisj _ Hk). by left.
  - intros Hfull.
    destruct (record_at_capacity Client.default_config now data env st rid kind size
                sha256 encoding)
      as (pre & oldest_rid & oldest & post & Hsplit & Hmin & Htable); try done.
    { lia. }
    { simpl. lia. }
    exists pre, oldest_rid, oldest, post.
    split; [done|]. split; [done|]. split; [done|].
    assert (length (pre ++ post) = 7%nat) as Hlen.
    { rewrite Hsplit in Hfull. rewrite length_app in Hfull |- *. simpl in Hfull. lia. }
    rewrite Hsplit, od_keys_app in Hnd, Hin. simpl in Hnd, Hin.
    split.
    + intros Hne. rewrite Htable, od_set_length.
      rewrite decide_True; [done|].
      rewrite od_keys_app. apply elem_of_app.
      apply elem_of_app in Hin as [Hin|Hin]; [by left|right].
      apply elem_of_cons in Hin as [Hin|Hin]; [congruence|done].
    + intros ->. rewrite Htable, od_set_notin; [by rewrite <- app_assoc|].
      rewrite od_keys_app. apply NoDup_app in Hnd as (_ & Hdisj & Hpost).
      apply NoDup_cons in Hpost as [Hpost _].
      intros Hk. apply elem_of_app in Hk as [Hk|Hk]; [|done].
      apply (Hdisj _ Hk). by left.
Qed.

Lemma duplicate_id_replaces_in_place_witness :
  exists pre oldest_rid oldest post,
    Client._resource_expectations Samples.eight_pending
    = pre ++ (oldest_rid, oldest) :: post
    /\ Forall (fun e => (Client.created_at oldest <= Client.created_at e.2)%Q)
              (Client._resource_expectations Samples.eight_pending)
    /\ Client._resource_expectations
         (Client._on_packet (H := Samples.builtins) Client.default_config 10%Q
            (Samples.packet (Samples.resource_envelope [2])) Samples.eight_pending).1
       = od_set [2]
           (Client.new_expectation Client.default_config 10%Q
              (Samples.resource_envelope [2]) [2] (str_lit "notice") 200 None None)
           (pre ++ post)
    /\ (oldest_rid <> [2] ->
        length (Client._resource_expectations
                  (Client._on_packet (H := Samples.builtins) Client.default_config 10%Q
                     (Samples.packet (Samples.resource_envelope [2]))
                     Samples.eight_pending).1) = 7%nat)
    /\ (oldest_rid = [2] ->
        Client._resource_expectations
          (Client._on_packet (H := Samples.builtins) Client.default_config 10%Q
             (Samples.packet (Samples.resource_envelope [2])) Samples.eight_pending).1
        = pre ++ post
          ++ [([2], Client.new_expectation Client.default_config 10%Q
                      (Samples.resource_envelope [2]) [2] (str_lit "notice") 200
                      None None)]).
Proof.
  refine (proj2 (proj2 (duplicate_id_replaces_in_place (H := Samples.builtins) 10%Q
                          (Samples.packet (Samples.resource_envelope [2]))
                          (Samples.resource_envelope [2]) Samples.eight_pending
                          [2] (str_lit "notice") 200 None None _ _ _ _ _ _)) _).
  - by vm_compute.
  - by vm_compute.
  - by vm_compute.
  - eexists. repeat split; by vm_compute.
  - apply (bool_decide_unpack _). by vm_compute.
  - apply (bool_decide_unpack _). by vm_compute.
  - reflexivity.
Defined.

(** ** The backend: stale hubs *)
Section StaleHubFacts.
Import Backend.

Lemma stale_true now e :
  stale now e = true <-> (3600 < now - last_seen e.2)%Q.
Proof.
  unfold stale, STALE_HUB_THRESHOLD_SECONDS.
  destruct (Qlt_le_dec 3600 (now - last_seen e.2)) as [Hlt|Hle].
  - done.
  - split; [done|]. intros Hlt. exfalso. by apply (Qlt_not_le _ _ Hlt).
Qed.

Lemma filter_nil_Forall {A} (P : A -> bool) (l : list A) :
  List.filter P l = [] -> Forall (fun x => P x = false) l.
Proof.
  induction l as [|x l IH]; simpl; [constructor|].
  destruct (P x) eqn:HP; [done|]. intros Hf. constructor; auto.
Qed.

Lemma filter_all {A} (P : A -> bool) (l : list A) :
  Forall (fun x => P x = true) l -> List.filter P l = l.
Proof.
  induction 1 as [|x l Hx Hl IH]; simpl; [done|]. by rewrite Hx, IH.
Qed.
End StaleHubFacts.

(** C9: [get_discovered_hubs] removes from the catalog exactly the entries
    with [now - last_seen > 3600] and keeps the others in order; it saves the
    catalog to the cache file, once and after the removal, if and only if an
    entry was removed; with no stale entry the backend state is unchanged and
    nothing is written.  The reply lists the remaining hubs. *)
Theorem stale_hub_gc (now : Q) (st : Backend.state) :
  NoDup (od_keys (Backend.discovered_hubs st)) ->
  let '(st', effects, reply) := Backend._handle_get_discovered_hubs now st in
  (forall e, e ∈ Backend.discovered_hubs st' <->
             e ∈ Backend.discovered_hubs st
             /\ ~ (3600 < now - Backend.last_seen e.2)%Q)
  /\ Backend.discovered_hubs st'
     = List.filter (fun e => negb (Backend.stale now e)) (Backend.discovered_hubs st)
  /\ ((exists e, e ∈ Backend.discovered_hubs st
                 /\ (3600 < now - Backend.last_seen e.2)%Q)
      <-> effects = [Backend.SaveDiscoveredHubs (Backend.discovered_hubs st')])
  /\ ((forall e, e ∈ Backend.discovered_hubs st ->
                 ~ (3600 < now - Backend.last_seen e.2)%Q)
      -> st' = st /\ effects = [])
  /\ reply = Backend.Discovered_hubs (map snd (Backend.discovered_hubs st')).
Proof.
  intros Hnd. unfold Backend._handle_get_discovered_hubs, Backend.cleanup_stale_hubs.
  rewrite fold_del_filter by done.
  set (kept := List.filter (fun e => negb (Backend.stale now e)) (Backend.discovered_hubs st)).
  assert (forall e, e ∈ kept <->
                    e ∈ Backend.discovered_hubs st
                    /\ ~ (3600 < now - Backend.last_seen e.2)%Q) as Hkept.
  { intros e. unfold kept.
    rewrite !list_elem_of_In, filter_In, negb_true_iff, <- stale_true.
    destruct (Backend.stale now e); intuition congruence. }
  destruct (List.filter (Backend.stale now) (Backend.discovered_hubs st))
    as [|s stale_hubs] eqn:Hstale; simpl.
  - apply filter_nil_Forall in Hstale. rewrite Forall_forall in Hstale.
    assert (kept = Backend.discovered_hubs st) as Hsame.
    { unfold kept. apply filter_all, Forall_forall. intros e He.
      by rewrite (Hstale e He). }
    split; [done|]. split; [done|]. split; [|split; [|done]].
    + split; [|done]. intros (e & He & Hlt). apply stale_true in Hlt.
      by rewrite (Hstale e He) in Hlt.
    + intros _. split; [|done]. rewrite Hsame. by destruct st.
  - assert (s ∈ Backend.discovered_hubs st /\ Backend.stale now s = true) as [Hs Hst].
    { rewrite list_elem_of_In, <- filter_In, Hstale. by left. }
    split; [done|]. split; [done|]. split; [|split; [|done]].
    + split; [done|]. intros _. exists s. split; [done|]. by apply stale_true.
    + intros Hnone. exfalso. apply (Hnone s Hs). by apply stale_true.
Qed.

Lemma stale_hub_gc_witness :
  NoDup (od_keys (Backend.discovered_hubs Samples.two_hubs))
  /\ (Backend._handle_get_discovered_hubs 10000 Samples.two_hubs).1.2
     = [Backend.SaveDiscoveredHubs
          [Samples.hub "ffeeddccbbaa99887766554433221100" "Demo Hub" 9990]].
Proof.
  assert (NoDup (od_keys (Backend.discovered_hubs Samples.two_hubs))) as Hnd.
  { apply (bool_decide_unpack _). by vm_compute. }
  split; [exact Hnd|].
  pose proof (stale_hub_gc 10000 Samples.two_hubs Hnd) as Hspec.
  destruct (Backend._handle_get_discovered_hubs 10000 Samples.two_hubs)
    as [[st' effects] reply].
  destruct Hspec as (_ & Hkept & Hsave & _). simpl.
  rewrite Hkept in Hsave. apply Hsave.
  exists (Samples.hub "00112233445566778899aabbccddeeff" "Old Hub" 6399).
  split; [by left|by vm_compute].
Defined.

(** ** The backend: rate limit of room operations *)
Section RateLimitFacts.
Context `{Builtins}.
Import Backend.

(** The admissions on record for an operation key. *)
Definition recorded (key : pystr) (st : state) : list Q :=
  default [] (room_operation_times st !! key).

(** The [join_room] commands for [room] issued at the times [ts], in turn. *)
Fixpoint join_commands (room : option pyval) (ts : list Q) (st : state)
  : state * list outcome :=
  match ts with
  | [] => (st, [])
  | t :: ts =>
      let '(st, o) := _handle_join_room t room st in
      let '(st, os) := join_commands room ts st in
      (st, o :: os)
  end.

Lemma in_window_true now t : in_window now t = true <-> (now - t < 5)%Q.
Proof.
  unfold in_window, room_op_rate_window.
  destruct (Qlt_le_dec (now - t) 5) as [Hlt|Hle].
  - done.
  - split; [done|]. intros Hlt. exfalso. by apply (Qlt_not_le _ _ Hlt).
Qed.

Lemma check_blocked now key st :
  (room_op_rate_limit <= length (List.filter (in_window now) (recorded key st)))%nat ->
  (_check_room_operation_rate_limit now key st).1 = false.
Proof.
  intros Hfull. unfold _check_room_operation_rate_limit. fold (recorded key st).
  by destruct (Nat.leb_spec room_op_rate_limit
                 (length (List.filter (in_window now) (recorded key st)))); [|lia].
Qed.

(** An admitted operation is put on record, after the earlier ones that are
    still within the window. *)
Lemma check_admitted now key st st' :
  _check_room_operation_rate_limit now key st = (true, st') ->
  recorded key st' = List.filter (in_window now) (recorded key st) ++ [now]
  /\ client st' = client st.
Proof.
  unfold _check_room_operation_rate_limit. fold (recorded key st).
  destruct (room_op_rate_limit <=? _)%nat; [done|]. intros [= <-].
  unfold recorded at 1. simpl. by rewrite lookup_insert_eq.
Qed.

Lemma join_blocked now room r st :
  str_within (Some room) 64 = true ->
  is_Some (client st) ->
  Utils.normalize_room_name room = Some r ->
  (room_op_rate_limit
   <= length (List.filter (in_window now) (recorded (str_lit "join:" ++ r) st)))%nat ->
  (_handle_join_room now (Some room) st).2
  = Reply (Error "Too many join requests. Please wait a moment.").
Proof.
  intros Hroom [c Hc] Hnorm Hfull. unfold _handle_join_room.
  rewrite Hroom, Hc. cbn [negb].
  change (default VNone (Some room)) with room. rewrite Hnorm.
  pose proof (check_blocked now _ st Hfull) as Hblocked.
  by destruct (_check_room_operation_rate_limit now _ st) as [[] st'].
Qed.

Lemma join_admitted now room r st st' r' :
  str_within (Some room) 64 = true ->
  Utils.normalize_room_name room = Some r ->
  _handle_join_room now (Some room) st = (st', Client_join r') ->
  recorded (str_lit "join:" ++ r) st'
  = List.filter (in_window now) (recorded (str_lit "join:" ++ r) st) ++ [now]
  /\ client st' = client st.
Proof.
  intros Hroom Hnorm. unfold _handle_join_room.
  rewrite Hroom. cbn [negb]. destruct (client st) eqn:Hc; [|done]. rewrite <- Hc.
  change (default VNone (Some room)) with room. rewrite Hnorm.
  destruct (_check_room_operation_rate_limit now _ st) as [[] st1] eqn:Hcheck; [|done].
  intros [= <- _]. exact (check_admitted _ _ _ _ Hcheck).
Qed.

(** After a run of admitted joins, none of them later than [now] and all
    within the window at [now], each is still on record. *)
Lemma join_commands_recorded now room r ts st :
  str_within (Some room) 64 = true ->
  Utils.normalize_room_name room = Some r ->
  Forall (fun t => (t <= now)%Q /\ (now - t < 5)%Q) ts ->
  Forall (fun o => exists r', o = Client_join r') (join_commands (Some room) ts st).2 ->
  client (join_commands (Some room) ts st).1 = client st
  /\ exists earlier,
       recorded (str_lit "join:" ++ r) (join_commands (Some room) ts st).1
       = earlier ++ ts.
Proof.
  intros Hroom Hnorm. revert st.
  induction ts as [|t ts IH] using rev_ind; intros st Hts Hadm.
  - split; [done|]. exists (recorded (str_lit "join:" ++ r) st). by rewrite app_nil_r.
  - assert (forall l st0,
              join_commands (Some room) (l ++ [t]) st0
              = let '(st1, os) := join_commands (Some room) l st0 in
                let '(st2, o) := _handle_join_room t (Some room) st1 in
                (st2, os ++ [o])) as Hsnoc.
    { induction l as [|x l IHl]; intros st0; simpl.
      - by destruct (_handle_join_room t (Some room) st0).
      - destruct (_handle_join_room x (Some room) st0) as [st1 o1].
        rewrite IHl. destruct (join_commands (Some room) l st1) as [st2 os].
        by destruct (_handle_join_room t (Some room) st2). }
    rewrite Hsnoc in Hadm |- *.
    apply Forall_app in Hts as [Hts Ht]. apply Forall_singleton in Ht as [Hle Hwin].
    specialize (IH st Hts).
    destruct (join_commands (Some room) ts st) as [st1 os].
    destruct (_handle_join_room t (Some room) st1) as [st2 o] eqn:Hjoin.
    cbn [fst snd] in Hadm |- *. apply Forall_app in Hadm as [Hos Ho].
    apply Forall_singleton in Ho as [r' ->].
    destruct (IH Hos) as (Hclient & earlier & Hrec). cbn [fst snd] in Hclient, Hrec.
    destruct (join_admitted _ _ _ _ _ _ Hroom Hnorm Hjoin) as [Hrec2 Hclient2].
    split; [congruence|].
    exists (List.filter (in_window t) earlier).
    rewrite Hrec2, Hrec, List.filter_app, <- app_assoc. f_equal. f_equal.
    apply filter_all. eapply Forall_impl; [exact Hts|]. simpl.
    intros t' [Hle' Hwin']. apply in_window_true. lra.
Qed.
End RateLimitFacts.

(** With the window full for [join:r], no [join_room] command for the room
    runs [Client.join], whatever else is wrong with it. *)
Lemma join_never_runs_when_full `{Builtins} now (room : pyval) (r : pystr)
    (st : Backend.state) :
  Utils.normalize_room_name room = Some r ->
  (Backend.room_op_rate_limit
   <= length (List.filter (Backend.in_window now)
                (recorded (str_lit "join:" ++ r) st)))%nat ->
  exists error,
    (Backend._handle_join_room now (Some room) st).2
    = Backend.Reply (Backend.Error error).
Proof.
  intros Hnorm Hfull. unfold Backend._handle_join_room.
  destruct (Backend.str_within (Some room) 64); cbn [negb]; [|by eexists].
  destruct (Backend.client st); [|by eexists].
  change (default VNone (Some room)) with room. rewrite Hnorm.
  pose proof (check_blocked now _ st Hfull) as Hblocked.
  destruct (Backend._check_room_operation_rate_limit now _ st) as [[] st']; [done|].
  by eexists.
Qed.

(** C6: for a room whose name normalizes to [r]: when 10 admissions within
    the last 5 seconds are on record for [join:r], the next [join_room]
    command for the room is answered with an error and [Client.join] is not
    run; the error is the rate-limit error when the command gets as far as
    the limiter, that is when the room is sent as a string of at most 64
    characters and a client exists.  The record is full in this way after
    any 10 [join_room] commands for the room that were admitted at times not
    later than [now] and less than 5 seconds before it. *)
Theorem eleventh_join_rate_limited `{Builtins}
    (room : pyval) (r : pystr) (st : Backend.state) :
  Utils.normalize_room_name room = Some r ->
  (forall now,
     (10 <= length (List.filter (Backend.in_window now)
                      (recorded (str_lit "join:" ++ r) st)))%nat ->
     (exists error,
        (Backend._handle_join_room now (Some room) st).2
        = Backend.Reply (Backend.Error error))
     /\ (Backend.str_within (Some room) 64 = true ->
         is_Some (Backend.client st) ->
         (Backend._handle_join_room now (Some room) st).2
         = Backend.Reply
             (Backend.Error "Too many join requests. Please wait a moment.")))
  /\ (forall ts now,
        Backend.str_within (Some room) 64 = true ->
        is_Some (Backend.client st) ->
        length ts = 10%nat ->
        Forall (fun t => (t <= now)%Q /\ (now - t < 5)%Q) ts ->
        Forall (fun o => o = Backend.Client_join r) (join_commands (Some room) ts st).2 ->
        (Backend._handle_join_room now (Some room)
           (join_commands (Some room) ts st).1).2
        = Backend.Reply (Backend.Error "Too many join requests. Please wait a moment.")).
Proof.
  intros Hnorm. split.
  - intros now Hfull. split.
    + by apply (join_never_runs_when_full now room r).
    + intros Hroom Hclient. by apply (join_blocked now room r).
  - intros ts now Hroom Hclient Hlen Hts Hadm.
    destruct (join_commands_recorded now room r ts st Hroom Hnorm Hts)
      as (Hc & earlier & Hrec).
    { eapply Forall_impl; [exact Hadm|]. simpl. intros o ->. by exists r. }
    apply (join_blocked now room r); try done.
    { by rewrite Hc. }
    rewrite Hrec, List.filter_app, length_app.
    rewrite (filter_all (Backend.in_window now) ts).
    + unfold Backend.room_op_rate_limit. lia.
    + eapply Forall_impl; [exact Hts|]. simpl. intros t [_ Hwin].
      by apply in_window_true.
Qed.

Lemma eleventh_join_rate_limited_witness :
  let room := VStr (str_lit " General ") in
  let ts := [0; 1; 1; 2; 2; 3; 3; 4; 4; 4]%Q in
  (join_commands (H := Samples.builtins) (Some room) ts Samples.two_hubs).2
  = repeat (Backend.Client_join (str_lit "general")) 10
  /\ (Backend._handle_join_room (H := Samples.builtins) (9 # 2) (Some room)
        (join_commands (H := Samples.builtins) (Some room) ts Samples.two_hubs).1).2
     = Backend.Reply (Backend.Error "Too many join requests. Please wait a moment.").
Proof.
  intros room ts.
  assert ((join_commands (H := Samples.builtins) (Some room) ts Samples.two_hubs).2
          = repeat (Backend.Client_join (str_lit "general")) 10) as Hadm.
  { by vm_compute. }
  split; [exact Hadm|].
  apply (proj2 (eleventh_join_rate_limited (H := Samples.builtins) room
                  (str_lit "general") Samples.two_hubs eq_refl)).
  - done.
  - by eexists.
  - done.
  - repeat constructor; by vm_compute.
  - rewrite Hadm. repeat constructor.
Defined.

(** ** Envelope validation *)
Section EnvelopeFacts.
Import Envelope.

Lemma key_eqb_int_inj (k : pyval) (a b : Z) :
  key_eqb k (VInt a) = true -> key_eqb k (VInt b) = true -> a = b.
Proof.
  unfold key_eqb.
  destruct (num_value k) as [[q|s|]|] eqn:Hk;
    destruct k as [| |c|z|[|s'|bits]|s'|b'|l|d]; simpl in *; try done.
  all: injection Hk as <-; intros Ha Hb;
    apply Qeq_bool_iff in Ha, Hb; rewrite Ha in Hb;
    unfold Qeq in Hb; simpl in Hb; lia.
Qed.

Lemma key_eqb_int_refl (a : Z) : key_eqb (VInt a) (VInt a) = true.
Proof. unfold key_eqb. simpl. apply Qeq_bool_iff. reflexivity. Qed.

Lemma dict_get_set_eq (k : Z) (v : pyval) d :
  dict_get (VInt k) (dict_set (VInt k) v d) = Some v.
Proof.
  induction d as [|[k' v'] d IH]; simpl.
  - by rewrite key_eqb_int_refl.
  - destruct (key_eqb k' (VInt k)) eqn:Hk; simpl; by rewrite Hk.
Qed.

Lemma dict_get_set_ne (k j : Z) (v : pyval) d :
  j <> k -> dict_get (VInt j) (dict_set (VInt k) v d) = dict_get (VInt j) d.
Proof.
  intros Hne. induction d as [|[k' v'] d IH]; simpl.
  - destruct (key_eqb (VInt k) (VInt j)) eqn:Hkj; [|done].
    exfalso. apply Hne. symmetry.
    by apply (key_eqb_int_inj (VInt k)); [apply key_eqb_int_refl|].
  - destruct (key_eqb k' (VInt k)) eqn:Hk; simpl.
    + destruct (key_eqb k' (VInt j)) eqn:Hj; [|done].
      exfalso. apply Hne. by apply (key_eqb_int_inj k').
    + by rewrite IH.
Qed.

Lemma check_keys_set (k : Z) (v : pyval) d :
  0 <= k ->
  check_keys (map fst d) = Ok tt ->
  check_keys (map fst (dict_set (VInt k) v d)) = Ok tt.
Proof.
  intros Hk. induction d as [|[k' v'] d IH]; simpl.
  - intros _. by destruct (Z.ltb_spec k 0); [lia|].
  - destruct (as_int k') as [n|] eqn:Hn; [|done].
    destruct (n <? 0) eqn:Hneg; [done|]. simpl. intros Hrest.
    destruct (key_eqb k' (VInt k)); simpl; rewrite Hn, Hneg; simpl; auto.
Qed.

Lemma check_required_set (k : Z) (v : pyval) ks d :
  k ∉ ks ->
  check_required ks (dict_set (VInt k) v d) = check_required ks d.
Proof.
  induction ks as [|j ks IH]; simpl; intros Hk; [done|].
  rewrite not_elem_of_cons in Hk. destruct Hk as [Hne Hk].
  rewrite dict_get_set_ne by done. by rewrite IH.
Qed.
End EnvelopeFacts.

(** The kinds of body that [validate_envelope] lets through. *)
Lemma body_type_ok_kinds (body : pyval) :
  Envelope.body_type_ok body = true <->
  (exists s, body = VStr s) \/ (exists z, body = VInt z) \/ (exists f, body = VFloat f)
  \/ (exists b, body = VBool b) \/ (exists d, body = VDict d)
  \/ (exists l, body = VList l) \/ (exists b, body = VBytes b).
Proof.
  split.
  - destruct body; simpl; try done; eauto 10.
  - intros [[? ->]|[[? ->]|[[? ->]|[[? ->]|[[? ->]|[[? ->]|[? ->]]]]]]]; done.
Qed.

(** C4 as the code has it: validation fails for every envelope whose body is
    present and is neither [None] nor a string, int, float, bool, map, list
    or blob; a float is among the kinds let through, so a valid envelope
    stays valid when a float is made its body. *)
Theorem body_kind_validation (d : list (pyval * pyval)) :
  (forall body,
     dict_get (VInt K_BODY) d = Some body ->
     is_none body = false ->
     Envelope.body_type_ok body = false ->
     exists e, Envelope.validate_envelope (VDict d) = Raise e)
  /\ (forall f,
        Envelope.validate_envelope (VDict d) = Ok tt ->
        Envelope.validate_envelope (VDict (dict_set (VInt K_BODY) (VFloat f) d)) = Ok tt).
Proof.
  split.
  - intros body Hbody Hnone Hkind. unfold Envelope.validate_envelope.
    assert (Envelope.check_body d = Raise (TypeError "body has unsupported type")) as Hcb.
    { unfold Envelope.check_body. by rewrite Hbody, Hnone, Hkind. }
    rewrite Hcb.
    repeat match goal with
           | |- exists e, (?m ≫= _) = Raise e =>
               destruct m as [?|?]; simpl; [|by eexists]
           | |- exists e, Raise _ = Raise e => by eexists
           end.
  - intros f. unfold Envelope.validate_envelope, Envelope.item.
    unfold Envelope.check_room, Envelope.check_nick, Envelope.check_body.
    rewrite dict_get_set_eq.
    rewrite !(dict_get_set_ne K_BODY) by done.
    rewrite check_required_set by (apply (bool_decide_unpack _); by vm_compute).
    destruct (Envelope.check_keys (map fst d)) as [[]|] eqn:Hkeys; [|done].
    rewrite (check_keys_set K_BODY _ d) by done. simpl.
    intros Hvalid.
    repeat match type of Hvalid with
           | (?m ≫= _) = Ok tt =>
               destruct m as [?|?]; simpl in Hvalid |- *; [|done]
           end.
    done.
Qed.

Lemma body_kind_validation_witness :
  Envelope.validate_envelope
    (VDict (dict_set (VInt K_BODY) (VFloat FNan)
              (match Samples.resource_envelope [9] with VDict d => d | _ => [] end)))
  = Ok tt.
Proof.
  apply (proj2 (body_kind_validation _)). by vm_compute.
Defined.

(** C4, the claim as stated, fails: this envelope has a float for its body,
    its other fields are valid, and validation accepts it. *)
Lemma float_body_is_accepted :
  Client.env_get K_BODY Samples.float_envelope
  = Some (VFloat (FFinite 4609434218613702656))
  /\ Envelope.validate_envelope Samples.float_envelope = Ok tt.
Proof. split; by vm_compute. Qed.

(** ** The backend: sending a message *)
Lemma lstrip_Forall (P : Z -> Prop) (s : pystr) : Forall P s -> Forall P (lstrip s).
Proof.
  induction 1 as [|c s Hc Hs IH]; simpl; [constructor|].
  destruct (is_space c); [done|by constructor].
Qed.

Lemma strip_Forall (P : Z -> Prop) (s : pystr) : Forall P s -> Forall P (strip s).
Proof.
  intros Hs. unfold strip, rstrip.
  apply Forall_rev, lstrip_Forall, Forall_rev. by apply lstrip_Forall.
Qed.

(** A character that [sanitize_text_input] lets through. *)
Definition text_char_ok (c : Z) : Prop :=
  (32 <= c \/ c = 9 \/ c = 10 \/ c = 13) /\ c <> 0 /\ c <> 65534 /\ c <> 65535.

Lemma text_char_ok_not_bad (c : Z) : text_char_ok c -> Utils.text_char_bad c = false.
Proof. unfold text_char_ok, Utils.text_char_bad. lia. Qed.

(** C2 as the code has it: a [send_message] command is forwarded to
    [Client.msg], with the normalized room and the stripped text, when a
    client exists, the room as sent is a string of at most 64 characters that
    normalizes to a non-empty name, and the text is a string of at most 10000
    characters whose stripped form is non-empty, at most 1024 characters
    long, does not start with a slash, and holds no control character other
    than tab, LF and CR and none of NUL, U+FFFE, U+FFFF (what the text has
    of these in the white space that is stripped does not count). *)
Theorem send_message_forwarded `{Builtins}
    (now : Q) (room text r : pystr) (st : Backend.state) :
  Z.of_nat (length room) <= 64 ->
  Utils.normalize_room_name (VStr room) = Some r ->
  is_Some (Backend.client st) ->
  Z.of_nat (length text) <= 10000 ->
  strip text <> [] ->
  Z.of_nat (length (strip text)) <= 1024 ->
  Forall text_char_ok (strip text) ->
  startswith (strip text) (str_lit "/") = false ->
  Backend._handle_send_message now (Some (VStr room)) (Some (VStr text)) st
  = (st, Backend.Client_msg r (strip text)).
Proof.
  intros Hroom Hnorm [c Hc] Htext Hne Hlen Hchars Hslash.
  unfold Backend._handle_send_message, Backend.str_within.
  destruct (Z.leb_spec (Z.of_nat (length room)) 64); [|lia].
  destruct (Z.leb_spec (Z.of_nat (length text)) 10000); [|lia].
  cbn [negb]. rewrite Hc.
  change (default VNone (Some (VStr room))) with (VStr room).
  change (default VNone (Some (VStr text))) with (VStr text).
  rewrite Hnorm. unfold Utils.sanitize_text_input, Utils.sanitize_text_input_max.
  destruct (strip text) as [|c0 s] eqn:Hstrip; [done|].
  destruct (Z.ltb_spec 1024 (Z.of_nat (length (c0 :: s)))); [lia|].
  assert (existsb Utils.text_char_bad (c0 :: s) = false) as ->.
  { apply not_true_is_false. intros Hex. apply existsb_exists in Hex as (x & Hx & Hbad).
    rewrite Forall_forall in Hchars.
    apply list_elem_of_In in Hx. by rewrite (text_char_ok_not_bad x (Hchars x Hx)) in Hbad. }
  by rewrite Hslash.
Qed.

Lemma send_message_forwarded_witness :
  Backend._handle_send_message (H := Samples.builtins) 0
    (Some (VStr (str_lit " General "))) (Some (VStr (11 :: str_lit "hello there" ++ [31])))
    Samples.two_hubs
  = (Samples.two_hubs,
     Backend.Client_msg (str_lit "general") (strip (11 :: str_lit "hello there" ++ [31]))).
Proof.
  apply (send_message_forwarded (H := Samples.builtins)).
  - simpl. lia.
  - by vm_compute.
  - by eexists.
  - simpl. lia.
  - by vm_compute.
  - by vm_compute.
  - change (strip (11 :: str_lit "hello there" ++ [31])) with (str_lit "hello there").
    repeat constructor; vm_compute; intuition congruence.
  - by vm_compute.
Defined.

(** C2, the claim as stated, fails: this text of 1025 letters meets every
    condition of the claim, and the command is answered with a validation
    error ([sanitize_text_input] is called with its default bound of 1024
    characters). *)
Lemma long_message_is_rejected :
  let room := str_lit "general" in
  let text := repeat 97 1025 in
  Utils.normalize_room_name (H := Samples.builtins) (VStr room) = Some room
  /\ Z.of_nat (length room) <= 64
  /\ Z.of_nat (length text) <= 10000
  /\ strip text = text
  /\ Forall text_char_ok text
  /\ startswith (strip text) (str_lit "/") = false
  /\ Backend._handle_send_message (H := Samples.builtins) 0
       (Some (VStr room)) (Some (VStr text)) Samples.two_hubs
     = (Samples.two_hubs, Backend.Reply (Backend.Error "Invalid message text")).
Proof.
  intros room text.
  split; [by vm_compute|]. split; [by vm_compute|]. split; [by vm_compute|].
  split; [by vm_compute|]. split; [|split; by vm_compute].
  apply Forall_forall. intros c Hc. apply list_elem_of_In, repeat_spec in Hc.
  subst c. unfold text_char_ok. lia.
Qed.

(** ** The announce handler: the name of a hub *)
Section HubNameFacts.
Import Backend.

(** The first of the fields [ks] of the map whose value is a string. *)
Definition first_string (ks : list string) (d : list (pyval * pyval)) : option pystr :=
  head (omap (fun k => only_str (str_item k d)) ks).

(** A character that is not white space and that [sanitize_display_name]
    keeps. *)
Definition printable (c : Z) : Prop := 33 <= c <= 126.

Lemma printable_kept c :
  printable c -> is_space c = false /\ Utils.display_char_dropped c = false.
Proof. unfold printable, is_space, Utils.display_char_dropped. lia. Qed.

Lemma hex_printable (b : bytes) :
  Forall (fun x => 0 <= x < 256) b -> Forall printable (hex b).
Proof.
  induction 1 as [|x b Hx Hb IH]; simpl; [constructor|].
  assert (forall n, 0 <= n < 16 -> printable (hex_digit n)) as Hdigit.
  { intros n Hn. unfold hex_digit, printable. destruct (n <? 10) eqn:Hlt; lia. }
  constructor; [|constructor; [|done]]; apply Hdigit.
  - split; [apply Z.div_pos; lia|apply Z.div_lt_upper_bound; lia].
  - apply Z.mod_pos_bound. lia.
Qed.

Lemma lstrip_id c s : is_space c = false -> lstrip (c :: s) = c :: s.
Proof. intros Hc. simpl. by rewrite Hc. Qed.

Lemma strip_id c s x :
  is_space c = false -> is_space x = false -> strip (c :: s ++ [x]) = c :: s ++ [x].
Proof.
  intros Hc Hx. unfold strip, rstrip. rewrite lstrip_id by done.
  change (c :: s ++ [x]) with ((c :: s) ++ [x]).
  rewrite rev_unit, lstrip_id by done.
  change (rev (x :: rev (c :: s))) with (rev (rev (c :: s)) ++ [x]).
  by rewrite rev_involutive.
Qed.

(** The synthesized name goes through [sanitize_display_name] as it is. *)
Lemma default_hub_name_kept (destination_hash : bytes) :
  destination_hash <> [] ->
  Forall (fun x => 0 <= x < 256) destination_hash ->
  Utils.sanitize_display_name (VStr (default_hub_name (hex destination_hash))) 200
  = Some (default_hub_name (hex destination_hash)).
Proof.
  intros Hne Hbytes. pose proof (hex_printable _ Hbytes) as Hhex.
  assert (exists digits x, take 8 (hex destination_hash) = digits ++ [x]
                           /\ length digits < 8 /\ Forall printable (digits ++ [x]))%nat
    as (digits & x & Htake & Hlen & Hprint).
  { assert (Forall printable (take 8 (hex destination_hash))) as Hp by by apply Forall_take.
    assert (length (take 8 (hex destination_hash)) <= 8)%nat as Hl
      by (rewrite length_take; lia).
    destruct destination_hash as [|b0 bs]; [done|].
    destruct (take 8 (hex (b0 :: bs))) as [|c l] eqn:Ht using rev_ind; [done|].
    clear IHl. exists l, c. rewrite length_app in Hl. simpl in Hl.
    split; [done|]. split; [lia|done]. }
  unfold default_hub_name. rewrite Htake.
  apply Forall_app in Hprint as [Hdigits Hx]. rewrite Forall_singleton in Hx.
  change (str_lit "Hub " ++ digits ++ [x])
    with (72 :: (str_lit "ub " ++ digits) ++ [x]).
  set (name := 72 :: (str_lit "ub " ++ digits) ++ [x]).
  assert (Forall (fun c => negb (Utils.display_char_dropped c) = true) name) as Hkept.
  { subst name. constructor; [done|].
    apply Forall_app. split; [apply Forall_app; split|].
    - repeat constructor.
    - eapply Forall_impl; [exact Hdigits|]. intros c Hc. simpl.
      by rewrite (proj2 (printable_kept c Hc)).
    - constructor; [|constructor]. by rewrite (proj2 (printable_kept x Hx)). }
  assert (length name <= 200)%nat as Hshort.
  { subst name. cbn [length]. rewrite !length_app. cbn [length str_lit]. lia. }
  assert (strip name = name) as Hstrip.
  { subst name. apply strip_id; [reflexivity|apply (proj1 (printable_kept x Hx))]. }
  unfold Utils.sanitize_display_name. cbv zeta. rewrite Hstrip.
  destruct (Nat.ltb_spec 200 (length name)); [lia|].
  rewrite (filter_all _ name Hkept). by subst name.
Qed.
End HubNameFacts.

(** C5 as the code has it, for an announce whose application data decodes
    to an acceptable map.  When [proto] is ["rrc"] and the map has a [hub]
    key, the name found is the value of that key if it is a string and none
    otherwise ([name] and [n] are not looked at).  When [proto] is not
    ["rrc"] or there is no [hub] key, it is the first of [name], [n], [hub]
    whose value is a string.  The hub is stored under the synthesized name
    when no name or the empty string was found; a non-empty name found is
    stored as [sanitize_display_name] leaves it, or replaced by the
    synthesized name when nothing is left. *)
Theorem hub_name_selection `{Builtins} `{Cbor2}
    (d : list (pyval * pyval)) (found : option pystr) :
  Backend.parse_decoded (VDict d) = Backend.Named found ->
  (Backend.proto_is_rrc d = true -> is_Some (Backend.str_item "hub" d) ->
   found = Backend.only_str (Backend.str_item "hub" d))
  /\ (Backend.proto_is_rrc d = false \/ Backend.str_item "hub" d = None ->
      found = first_string ["name"; "n"; "hub"]%string d)
  /\ (forall destination_hash,
        destination_hash <> [] ->
        Forall (fun x => 0 <= x < 256) destination_hash ->
        let hash_hex := hex destination_hash in
        (found = None \/ found = Some [] ->
         Backend.stored_hub_name hash_hex found = Backend.default_hub_name hash_hex)
        /\ (forall s, found = Some s -> s <> [] ->
            Backend.stored_hub_name hash_hex found
            = default (Backend.default_hub_name hash_hex)
                      (Utils.sanitize_display_name (VStr s) 200))
        /\ (forall now app_data st,
              app_data <> [] ->
              Z.of_nat (length app_data) <= Backend.MAX_ANNOUNCE_DATA_SIZE ->
              loads app_data = Some (VDict d) ->
              Backend.hub_name
              <$> od_get hash_hex
                    (Backend.discovered_hubs
                       (Backend.received_announce now destination_hash app_data st).1)
              = Some (Backend.stored_hub_name hash_hex found))).
Proof.
  intros Hparsed.
  assert (found = Backend.hub_name_of_dict d) as Hfound.
  { unfold Backend.parse_decoded in Hparsed.
    destruct (20 <? length d)%nat; [done|].
    destruct (existsb _ d); [done|]. by injection Hparsed. }
  split; [|split].
  - intros Hproto Hhub. rewrite Hfound. unfold Backend.hub_name_of_dict.
    by rewrite Hproto, bool_decide_eq_true_2.
  - intros Hno. rewrite Hfound. unfold Backend.hub_name_of_dict, first_string.
    assert (Backend.proto_is_rrc d
            && bool_decide (is_Some (Backend.str_item "hub" d)) = false) as ->.
    { destruct Hno as [->|Hhub]; [done|].
      rewrite Hhub, bool_decide_eq_false_2; [apply andb_false_r|].
      by intros [? ?]. }
    simpl.
    destruct (Backend.only_str (Backend.str_item "name" d)); [done|].
    destruct (Backend.only_str (Backend.str_item "n" d)); [done|].
    by destruct (Backend.only_str (Backend.str_item "hub" d)).
  - intros destination_hash Hne Hbytes hash_hex.
    pose proof (default_hub_name_kept destination_hash Hne Hbytes) as Hkept.
    fold hash_hex in Hkept. split; [|split].
    + intros [->| ->]; unfold Backend.stored_hub_name; cbv beta iota zeta;
        by rewrite Hkept.
    + intros s -> Hs. unfold Backend.stored_hub_name.
      destruct s as [|c s]; [by destruct Hs|reflexivity].
    + intros now app_data st Hdata Hsize Hloads.
      unfold Backend.received_announce, Backend.parse_app_data.
      destruct app_data as [|b0 bs]; [done|].
      destruct (Z.ltb_spec Backend.MAX_ANNOUNCE_DATA_SIZE (Z.of_nat (length (b0 :: bs))));
        [lia|].
      rewrite Hloads, Hparsed. cbn [fst Backend.discovered_hubs Backend.set_discovered_hubs].
      fold hash_hex. by rewrite od_get_set.
Qed.

Lemma hub_name_selection_witness :
  Backend.hub_name
  <$> od_get (hex Samples.destination)
        (Backend.discovered_hubs
           (Backend.received_announce (H := Samples.builtins) 0 Samples.destination
              (Samples.packet
                 (VDict [(VStr (str_lit "proto"), VStr (str_lit "rrc"));
                         (VStr (str_lit "hub"), VStr (str_lit "Demo Hub"))]))
              Samples.two_hubs).1)
  = Some (str_lit "Demo Hub").
Proof.
  pose proof (hub_name_selection (H := Samples.builtins)
                [(VStr (str_lit "proto"), VStr (str_lit "rrc"));
                 (VStr (str_lit "hub"), VStr (str_lit "Demo Hub"))]
                (Some (str_lit "Demo Hub")) eq_refl) as (_ & _ & Hstored).
  destruct (Hstored Samples.destination) as (_ & _ & Hannounce).
  - done.
  - repeat constructor; by vm_compute.
  - rewrite Hannounce; by vm_compute.
Defined.

(** C5, the claim as stated, fails: in this acceptable map [proto] is
    ["rrc"] and [hub] does not hold a string, the first of [name], [n],
    [hub] with a string value is [name] with ["Foo"], and the hub is stored
    under the synthesized name all the same. *)
Lemma rrc_hub_without_string_ignores_name :
  let d := Samples.unnamed_rrc_hub in
  Backend.parse_decoded (H := Samples.builtins) (VDict d) = Backend.Named None
  /\ Backend.proto_is_rrc d = true
  /\ Backend.only_str (Backend.str_item "hub" d) = None
  /\ first_string ["name"; "n"; "hub"]%string d = Some (str_lit "Foo")
  /\ Backend.hub_name
     <$> od_get (hex Samples.destination)
           (Backend.discovered_hubs
              (Backend.received_announce (H := Samples.builtins) 0 Samples.destination
                 (Samples.packet (VDict d)) Samples.two_hubs).1)
     = Some (str_lit "Hub 00112233").
Proof. repeat split; by vm_compute. Qed.

(** ** The CBOR model: decoding what was encoded *)
Section CborFacts.
Import Cbor.

Lemma be_bytes_length k n : length (be_bytes k n) = k.
Proof.
  revert n. induction k as [|k IH]; intros n; simpl; [done|].
  rewrite length_app, IH. simpl. lia.
Qed.

Lemma be_value_snoc (l : bytes) (x : Z) : be_value (l ++ [x]) = be_value l * 256 + x.
Proof. unfold be_value. by rewrite fold_left_app. Qed.

Lemma be_value_bytes k n : be_value (be_bytes k n) = n mod 256 ^ Z.of_nat k.
Proof.
  revert n. induction k as [|k IH]; intros n.
  - simpl. by rewrite Z.mod_1_r.
  - cbn [be_bytes]. rewrite be_value_snoc, IH.
    rewrite Nat2Z.inj_succ, Z.pow_succ_r by lia.
    rewrite (Z.rem_mul_r n 256 (256 ^ Z.of_nat k)) by lia. lia.
Qed.

Lemma read_be_bytes k n (tail : bytes) :
  read_be k (be_bytes k n ++ tail) = Some (n mod 256 ^ Z.of_nat k, tail).
Proof.
  unfold read_be.
  destruct (Nat.ltb_spec (length (be_bytes k n ++ tail)) k) as [Hlt|_].
  { rewrite length_app, be_bytes_length in Hlt. lia. }
  pose proof (be_bytes_length k n) as Hlen.
  rewrite <- Hlen at 1 3. by rewrite take_app_length, drop_app_length, be_value_bytes.
Qed.

(** The head that [encode_length] writes is read back as its major type and
    argument. *)
Lemma decode_head major n (h tail : bytes) :
  0 <= major < 8 -> 0 <= n ->
  encode_length major n = Some h ->
  exists b0 r,
    h = b0 :: r /\ b0 / 32 = major
    /\ decode_length (b0 mod 32) (r ++ tail) = Some (n, tail).
Proof.
  intros Hmajor Hn. unfold encode_length.
  assert (forall x, 0 <= x < 32 ->
            (major * 32 + x) / 32 = major /\ (major * 32 + x) mod 32 = x) as Hsplit.
  { intros x Hx. split.
    - symmetry. apply (Z.div_unique _ 32 major x); lia.
    - symmetry. apply (Z.mod_unique _ 32 major x); lia. }
  destruct (Z.ltb_spec n 24).
  { intros [= <-]. destruct (Hsplit n) as [Hd Hm]; [lia|].
    exists (major * 32 + n), []. rewrite Hd, Hm. unfold decode_length.
    destruct (Z.ltb_spec n 24); [done|lia]. }
  destruct (Z.ltb_spec n 256).
  { intros [= <-]. destruct (Hsplit 24) as [Hd Hm]; [lia|].
    exists (major * 32 + 24), [n]. rewrite Hd, Hm. by repeat split. }
  destruct (Z.ltb_spec n 65536).
  { intros [= <-]. destruct (Hsplit 25) as [Hd Hm]; [lia|].
    exists (major * 32 + 25), (be_bytes 2 n). rewrite Hd, Hm. repeat split; try done.
    unfold decode_length. cbn [Z.ltb Z.eqb Z.compare Pos.compare Pos.compare_cont Pos.eqb].
    rewrite read_be_bytes. by rewrite Z.mod_small by (simpl; lia). }
  destruct (Z.ltb_spec n 4294967296).
  { intros [= <-]. destruct (Hsplit 26) as [Hd Hm]; [lia|].
    exists (major * 32 + 26), (be_bytes 4 n). rewrite Hd, Hm. repeat split; try done.
    unfold decode_length. cbn [Z.ltb Z.eqb Z.compare Pos.compare Pos.compare_cont Pos.eqb].
    rewrite read_be_bytes. by rewrite Z.mod_small by (simpl; lia). }
  destruct (Z.ltb_spec n 18446744073709551616); [|done].
  intros [= <-]. destruct (Hsplit 27) as [Hd Hm]; [lia|].
  exists (major * 32 + 27), (be_bytes 8 n). rewrite Hd, Hm. repeat split; try done.
  unfold decode_length. cbn [Z.ltb Z.eqb Z.compare Pos.compare Pos.compare_cont Pos.eqb].
  rewrite read_be_bytes. by rewrite Z.mod_small by (simpl; lia).
Qed.
End CborFacts.

Section Utf8Facts.
Import Cbor.

(** Settles the comparisons of a goal whose operands [lia] can order. *)
Ltac decide_tests :=
  repeat match goal with
         | |- context [?a <? ?b] => destruct (Z.ltb_spec a b); try lia
         | |- context [?a <=? ?b] => destruct (Z.leb_spec a b); try lia
         | |- context [?a =? ?b] => destruct (Z.eqb_spec a b); try lia
         end.

Lemma utf8_decode_char c (a rest : bytes) (s : pystr) :
  utf8_char c = Some a ->
  utf8_decode rest = Some s ->
  utf8_decode (a ++ rest) = Some (c :: s).
Proof.
  intros Hchar Hrest. unfold utf8_char in Hchar.
  pose proof (Z.div_mod c 64 ltac:(lia)) as Hc1.
  pose proof (Z.mod_pos_bound c 64 ltac:(lia)) as Hm1.
  pose proof (Z.div_mod (c / 64) 64 ltac:(lia)) as Hc2.
  pose proof (Z.mod_pos_bound (c / 64) 64 ltac:(lia)) as Hm2.
  pose proof (Z.div_mod (c / 64 / 64) 64 ltac:(lia)) as Hc3.
  pose proof (Z.mod_pos_bound (c / 64 / 64) 64 ltac:(lia)) as Hm3.
  replace (c / 4096) with (c / 64 / 64) in Hchar by (rewrite Z.div_div by lia; reflexivity).
  replace (c / 262144) with (c / 64 / 64 / 64) in Hchar by (rewrite !Z.div_div by lia; reflexivity).
  set (q1 := c / 64) in *. set (m1 := c mod 64) in *.
  set (q2 := q1 / 64) in *. set (m2 := q1 mod 64) in *.
  set (q3 := q2 / 64) in *. set (m3 := q2 mod 64) in *.
  clearbody q1 m1 q2 m2 q3 m3.
  destruct (Z.ltb_spec c 0); [done|].
  destruct (Z.ltb_spec c 128).
  { injection Hchar as <-. cbn [app utf8_decode]. decide_tests.
    by rewrite Hrest. }
  destruct (Z.ltb_spec c 2048).
  { injection Hchar as <-. cbn [app utf8_decode]. unfold continuation.
    decide_tests. rewrite Hrest. simpl. do 2 f_equal. lia. }
  destruct (Z.ltb_spec c 65536).
  { destruct (Z.leb_spec 55296 c); destruct (Z.leb_spec c 57343);
      simpl in Hchar; try done;
      injection Hchar as <-; cbn [app utf8_decode]; unfold continuation;
      decide_tests; rewrite Hrest; simpl; do 2 f_equal; lia. }
  destruct (Z.ltb_spec c 1114112); [|done].
  injection Hchar as <-. cbn [app utf8_decode]. unfold continuation.
  decide_tests. rewrite Hrest. simpl. do 2 f_equal. lia.
Qed.

Lemma utf8_decode_encode (s : pystr) (bs : bytes) :
  utf8_encode s = Some bs -> utf8_decode bs = Some s.
Proof.
  revert bs. induction s as [|c s IH]; intros bs; simpl.
  - by intros [= <-].
  - destruct (utf8_char c) as [a|] eqn:Hc; [|done]. simpl.
    destruct (utf8_encode s) as [b|]; [|done]. simpl. intros [= <-].
    apply utf8_decode_char; [done|by apply IH].
Qed.
End Utf8Facts.

(** Induction on a value and, with it, on the values inside. *)
Section PyvalInduction.
Variable P : pyval -> Prop.
Hypothesis HNone : P VNone.
Hypothesis HUndefined : P VUndefined.
Hypothesis HBool : forall b, P (VBool b).
Hypothesis HInt : forall z, P (VInt z).
Hypothesis HFloat : forall f, P (VFloat f).
Hypothesis HStr : forall s, P (VStr s).
Hypothesis HBytes : forall b, P (VBytes b).
Hypothesis HList : forall l, Forall P l -> P (VList l).
Hypothesis HDict : forall d, Forall (fun kv => P kv.1 /\ P kv.2) d -> P (VDict d).

Fixpoint pyval_nested_ind (v : pyval) : P v :=
  match v with
  | VNone => HNone
  | VUndefined => HUndefined
  | VBool b => HBool b
  | VInt z => HInt z
  | VFloat f => HFloat f
  | VStr s => HStr s
  | VBytes b => HBytes b
  | VList l =>
      HList l
        ((fix items (l : list pyval) : Forall P l :=
            match l with
            | [] => List.Forall_nil P
            | x :: r => List.Forall_cons P x r (pyval_nested_ind x) (items r)
            end) l)
  | VDict d =>
      HDict d
        ((fix pairs (d : list (pyval * pyval))
            : Forall (fun kv => P kv.1 /\ P kv.2) d :=
            match d with
            | [] => List.Forall_nil _
            | kv :: r =>
                List.Forall_cons _ kv r
                  (conj (pyval_nested_ind kv.1) (pyval_nested_ind kv.2)) (pairs r)
            end) d)
  end.
End PyvalInduction.

Section ItemFacts.
Import Cbor.

Lemma decode_item_headed fuel major n (h rest : bytes) :
  encode_length major n = Some h ->
  0 <= major < 6 -> 0 <= n ->
  decode_item (S fuel) (h ++ rest) = decode_headed (decode_item fuel) major n rest.
Proof.
  intros Hh Hmajor Hn.
  destruct (decode_head major n h rest) as (b0 & r & -> & Hb0 & Hlen); [lia|done|done|].
  cbn [app decode_item]. rewrite Hb0, Hlen.
  destruct (Z.eqb_spec major 7); [lia|]. cbn [mbind option_bind].
  by destruct (Z.eqb_spec major 6); [lia|].
Qed.

(** The equations of [decode_headed], one for each major type. *)
Lemma decode_headed_uint dec n bs : decode_headed dec 0 n bs = Some (VInt n, bs).
Proof. reflexivity. Qed.

Lemma decode_headed_nint dec n bs : decode_headed dec 1 n bs = Some (VInt (- 1 - n), bs).
Proof. reflexivity. Qed.

Lemma decode_headed_bytes dec n bs :
  decode_headed dec 2 n bs = '(payload, r) ← read_payload n bs ; Some (VBytes payload, r).
Proof. reflexivity. Qed.

Lemma decode_headed_text dec n bs :
  decode_headed dec 3 n bs
  = '(payload, r) ← read_payload n bs ; s ← utf8_decode payload ; Some (VStr s, r).
Proof. reflexivity. Qed.

Lemma decode_headed_array dec n bs :
  decode_headed dec 4 n bs
  = '(l, r) ← decode_items dec (Z.to_nat n) bs ; Some (VList l, r).
Proof. reflexivity. Qed.

Lemma decode_headed_map dec n bs :
  decode_headed dec 5 n bs
  = '(d, r) ← decode_pairs dec (Z.to_nat n) bs [] ; Some (VDict d, r).
Proof. reflexivity. Qed.

Lemma read_payload_app (b tail : bytes) :
  read_payload (Z.of_nat (length b)) (b ++ tail) = Some (b, tail).
Proof.
  unfold read_payload.
  destruct (Z.ltb_spec (Z.of_nat (length (b ++ tail))) (Z.of_nat (length b))) as [Hlt|_].
  { rewrite length_app in Hlt. lia. }
  by rewrite Nat2Z.id, take_app_length, drop_app_length.
Qed.

Lemma byte_length_bound n : 0 < n -> n < 256 ^ Z.of_nat (byte_length n).
Proof.
  intros Hn. unfold byte_length.
  pose proof (Z.log2_nonneg n) as Hlog.
  pose proof (Z.log2_spec n Hn) as [_ Hlt].
  pose proof (Z.div_mod (Z.log2 n + 8) 8 ltac:(lia)) as Hdm.
  pose proof (Z.mod_pos_bound (Z.log2 n + 8) 8 ltac:(lia)) as Hmod.
  set (q := (Z.log2 n + 8) / 8) in *.
  rewrite Z2Nat.id by lia.
  change 256 with (2 ^ 8). rewrite <- Z.pow_mul_r by lia.
  eapply Z.lt_le_trans; [exact Hlt|]. apply Z.pow_le_mono_r; lia.
Qed.

Lemma dict_set_new (k v : pyval) (acc : list (pyval * pyval)) :
  forallb (fun k' => negb (key_eqb k' k)) (map fst acc) = true ->
  dict_set k v acc = acc ++ [(k, v)].
Proof.
  induction acc as [|[k' v'] acc IH]; simpl; [done|].
  intros Hall. apply andb_true_iff in Hall as [Hk Hall].
  apply negb_true_iff in Hk. by rewrite Hk, IH.
Qed.

(** Decoding with [fuel] gives back the value and leaves what follows. *)
Definition decodes (v : pyval) : Prop :=
  well_formed v = true ->
  forall bs, encode_item v = Some bs ->
  forall fuel tail, (length bs <= fuel)%nat ->
  decode_item fuel (bs ++ tail) = Some (v, tail).

Lemma concat_encoded_cons (x : option bytes) xs (items : bytes) :
  concat_encoded (x :: xs) = Some items ->
  exists a b, x = Some a /\ concat_encoded xs = Some b /\ items = a ++ b.
Proof.
  simpl. destruct x as [a|]; [|done]. simpl.
  destruct (concat_encoded xs) as [b|]; [|done]. simpl.
  intros [= <-]. by exists a, b.
Qed.

Lemma decode_items_encoded fuel (l : list pyval) (items tail : bytes) :
  Forall decodes l ->
  forallb well_formed l = true ->
  concat_encoded (map encode_item l) = Some items ->
  (length items <= fuel)%nat ->
  decode_items (decode_item fuel) (length l) (items ++ tail) = Some (l, tail).
Proof.
  intros Hdec. revert items. induction Hdec as [|x l Hx Hl IH]; intros items Hwf Henc Hfuel.
  - simpl in Henc. injection Henc as <-. done.
  - simpl in Hwf. apply andb_true_iff in Hwf as [Hwx Hwl].
    cbn [map] in Henc.
    apply concat_encoded_cons in Henc as (a & b & Ha & Hb & ->).
    rewrite length_app in Hfuel.
    cbn [length decode_items]. rewrite <- app_assoc.
    rewrite (Hx Hwx a Ha fuel (b ++ tail)) by lia. cbn [mbind option_bind].
    rewrite (IH b Hwl Hb) by lia. done.
Qed.

Lemma decode_pairs_encoded fuel (d : list (pyval * pyval)) (items tail : bytes)
    (acc : list (pyval * pyval)) :
  Forall (fun kv => decodes kv.1 /\ decodes kv.2) d ->
  forallb (fun kv : pyval * pyval =>
             hashable kv.1 && well_formed kv.1 && well_formed kv.2) d = true ->
  distinct_keys (map fst acc) (map fst d) = true ->
  concat_encoded
    (map (fun kv : pyval * pyval =>
            k ← encode_item kv.1 ; v ← encode_item kv.2 ; Some (k ++ v)) d)
  = Some items ->
  (length items <= fuel)%nat ->
  decode_pairs (decode_item fuel) (length d) (items ++ tail) acc
  = Some (acc ++ d, tail).
Proof.
  intros Hdec. revert items acc.
  induction Hdec as [|[k v] d [Hk Hv] Hd IH]; intros items acc Hwf Hdist Henc Hfuel.
  - simpl in Henc. injection Henc as <-. simpl. by rewrite app_nil_r.
  - simpl in Hwf. apply andb_true_iff in Hwf as [Hwkv Hwd].
    apply andb_true_iff in Hwkv as [Hwk Hwv]. apply andb_true_iff in Hwk as [Hhash Hwk].
    simpl in Hdist. apply andb_true_iff in Hdist as [Hnew Hdist].
    cbn [map] in Henc.
    apply concat_encoded_cons in Henc as (kvb & b & Hkv & Hb & ->).
    cbn [fst snd] in Hkv, Hk, Hv.
    destruct (encode_item k) as [kb|] eqn:Hkb; [|done]. cbn [mbind option_bind] in Hkv.
    destruct (encode_item v) as [vb|] eqn:Hvb; [|done]. cbn [mbind option_bind] in Hkv.
    injection Hkv as <-. rewrite !length_app in Hfuel.
    cbn [length decode_pairs]. rewrite <- !app_assoc.
    rewrite (Hk Hwk kb Hkb fuel) by lia. cbn [mbind option_bind]. rewrite Hhash.
    rewrite (Hv Hwv vb Hvb fuel) by lia. cbn [mbind option_bind].
    rewrite (dict_set_new k v acc Hnew).
    rewrite (IH b (acc ++ [(k, v)])); try done; try lia.
    + by rewrite <- app_assoc.
    + by rewrite map_app.
Qed.
End ItemFacts.

Section RoundTrip.
Import Cbor.

Lemma encode_length_nonempty major n h :
  encode_length major n = Some h -> (1 <= length h)%nat.
Proof.
  unfold encode_length. repeat case_match; try done; intros [= <-]; simpl; lia.
Qed.

Lemma decodes_int z : decodes (VInt z).
Proof.
  intros _ bs Henc fuel tail Hfuel. cbn [encode_item] in Henc. unfold encode_int in Henc.
  destruct ((18446744073709551616 <=? z) || (z <? -18446744073709551616)) eqn:Hbig.
  - set (value := if 0 <=? z then z else - z - 1) in Henc.
    set (tag := if 0 <=? z then 2 else 3) in Henc.
    assert (18446744073709551616 <= value) as Hvalue.
    { subst value. apply orb_true_iff in Hbig.
      destruct (Z.leb_spec 0 z); destruct Hbig as [Hb|Hb]; lia. }
    destruct (encode_length 2 _) as [h|] eqn:Hh; [|done].
    cbn [mbind option_bind] in Henc. injection Henc as <-.
    pose proof (encode_length_nonempty _ _ _ Hh) as Hhlen.
    cbn [length] in Hfuel. rewrite length_app in Hfuel.
    destruct fuel as [|[|fuel]]; [lia|lia|].
    assert (tag = 2 \/ tag = 3) as Htag by (subst tag; destruct (0 <=? z); auto).
    assert (decode_item (S (S fuel))
              ((6 * 32 + tag :: h ++ be_bytes (byte_length value) value) ++ tail)
            = decode_tagged (decode_item (S fuel)) tag
                (h ++ be_bytes (byte_length value) value ++ tail)) as ->.
    { rewrite <- app_comm_cons, <- app_assoc.
      destruct Htag as [-> | ->]; reflexivity. }
    unfold decode_tagged.
    rewrite (decode_item_headed fuel 2 _ h _ Hh) by lia.
    rewrite decode_headed_bytes, read_payload_app. cbn [mbind option_bind].
    rewrite be_value_bytes, Z.mod_small
      by (split; [lia|apply byte_length_bound; lia]).
    subst value tag. destruct (Z.leb_spec 0 z); simpl; [done|].
    do 3 f_equal. lia.
  - apply orb_false_iff in Hbig as [Hhi Hlo].
    apply Z.leb_gt in Hhi. apply Z.ltb_ge in Hlo.
    assert (1 <= length bs)%nat as Hbs.
    { destruct (0 <=? z); by eapply encode_length_nonempty. }
    destruct fuel as [|fuel]; [lia|].
    destruct (Z.leb_spec 0 z).
    + by rewrite (decode_item_headed fuel 0 z bs _ Henc) by lia.
    + rewrite (decode_item_headed fuel 1 _ bs _ Henc) by lia.
      rewrite decode_headed_nint. do 3 f_equal. lia.
Qed.

Lemma decodes_float f : decodes (VFloat f).
Proof.
  intros Hwf bs Henc fuel tail Hfuel. cbn [encode_item] in Henc. injection Henc as <-.
  destruct fuel as [|fuel]; [destruct f as [|[]|]; simpl in Hfuel; lia|].
  destruct f as [|[|]|bits]; try reflexivity.
  cbn [well_formed] in Hwf. apply andb_true_iff in Hwf as [Hrange Hexp].
  apply andb_true_iff in Hrange as [Hlo Hhi].
  apply Z.leb_le in Hlo. apply Z.ltb_lt in Hhi. apply negb_true_iff in Hexp.
  cbn [encode_float app decode_item].
  change (251 / 32 =? 7) with true. change (251 mod 32) with 27. cbv iota.
  unfold decode_special. cbn [Z.eqb Pos.eqb].
  rewrite read_be_bytes, Z.mod_small by (simpl; lia). cbn [mbind option_bind].
  unfold double_float. by rewrite Hexp.
Qed.

(** Every value that exists as a Python object and that [dumps] can write is
    read back, with whatever follows it left over. *)
Lemma decode_encode_item (v : pyval) : decodes v.
Proof.
  induction v as [| |b|z|f|s|b|l IH|d IH] using pyval_nested_ind.
  - intros _ bs [= <-] [|fuel] tail Hfuel; [simpl in Hfuel; lia|reflexivity].
  - intros _ bs [= <-] [|fuel] tail Hfuel; [simpl in Hfuel; lia|reflexivity].
  - intros _ bs [= <-] [|fuel] tail Hfuel; [simpl in Hfuel; lia|].
    by destruct b.
  - apply decodes_int.
  - apply decodes_float.
  - intros _ bs Henc fuel tail Hfuel. cbn [encode_item] in Henc.
    destruct (utf8_encode s) as [encoded|] eqn:Hs; [|done].
    cbn [mbind option_bind] in Henc.
    destruct (encode_length 3 _) as [h|] eqn:Hh; [|done].
    cbn [mbind option_bind] in Henc. injection Henc as <-.
    pose proof (encode_length_nonempty _ _ _ Hh).
    destruct fuel as [|fuel]; [rewrite length_app in Hfuel; lia|].
    rewrite <- app_assoc, (decode_item_headed fuel 3 _ h _ Hh) by lia.
    rewrite decode_headed_text, read_payload_app. cbn [mbind option_bind].
    by rewrite (utf8_decode_encode s encoded Hs).
  - intros _ bs Henc fuel tail Hfuel. cbn [encode_item] in Henc.
    destruct (encode_length 2 _) as [h|] eqn:Hh; [|done].
    cbn [mbind option_bind] in Henc. injection Henc as <-.
    pose proof (encode_length_nonempty _ _ _ Hh).
    destruct fuel as [|fuel]; [rewrite length_app in Hfuel; lia|].
    rewrite <- app_assoc, (decode_item_headed fuel 2 _ h _ Hh) by lia.
    by rewrite decode_headed_bytes, read_payload_app.
  - intros Hwf bs Henc fuel tail Hfuel. cbn [encode_item well_formed] in Henc, Hwf.
    destruct (encode_length 4 _) as [h|] eqn:Hh; [|done].
    cbn [mbind option_bind] in Henc.
    destruct (concat_encoded (map encode_item l)) as [items|] eqn:Hitems; [|done].
    cbn [mbind option_bind] in Henc. injection Henc as <-.
    pose proof (encode_length_nonempty _ _ _ Hh). rewrite length_app in Hfuel.
    destruct fuel as [|fuel]; [lia|].
    rewrite <- app_assoc, (decode_item_headed fuel 4 _ h _ Hh) by lia.
    rewrite decode_headed_array, Nat2Z.id.
    by rewrite (decode_items_encoded fuel l items tail IH Hwf Hitems) by lia.
  - intros Hwf bs Henc fuel tail Hfuel. cbn [encode_item well_formed] in Henc, Hwf.
    apply andb_true_iff in Hwf as [Hwf Hdist].
    destruct (encode_length 5 _) as [h|] eqn:Hh; [|done].
    cbn [mbind option_bind] in Henc.
    destruct (concat_encoded _) as [items|] eqn:Hitems; [|done].
    cbn [mbind option_bind] in Henc. injection Henc as <-.
    pose proof (encode_length_nonempty _ _ _ Hh). rewrite length_app in Hfuel.
    destruct fuel as [|fuel]; [lia|].
    rewrite <- app_assoc, (decode_item_headed fuel 5 _ h _ Hh) by lia.
    rewrite decode_headed_map, Nat2Z.id.
    by rewrite (decode_pairs_encoded fuel d items tail [] IH Hwf Hdist Hitems) by lia.
Qed.

Lemma loads_dumps (v : pyval) (data : bytes) :
  well_formed v = true ->
  dumps v = Some data ->
  loads data = Some v.
Proof.
  intros Hwf Henc. cbn [loads dumps cbor2_model] in *. unfold decode_first.
  rewrite <- (app_nil_r data) at 2.
  by rewrite (decode_encode_item v Hwf data Henc (length data) []).
Qed.
End RoundTrip.








(** * Further properties *)

(** ** utils.py *)
Section StripFacts.

Lemma lstrip_clean (s : pystr) :
  Forall (fun c => is_space c = false) s -> lstrip s = s.
Proof. destruct 1 as [|c s Hc Hs]; [done|]. by apply lstrip_id. Qed.

Lemma lstrip_head (s : pystr) :
  lstrip s = [] \/ exists c r, lstrip s = c :: r /\ is_space c = false.
Proof.
  induction s as [|c s IH]; simpl; [by left|].
  destruct (is_space c) eqn:Hc; [done|]. right. by exists c, s.
Qed.

Lemma lstrip_lstrip (s : pystr) : lstrip (lstrip s) = lstrip s.
Proof.
  destruct (lstrip_head s) as [->|(c & r & -> & Hc)]; [done|]. by apply lstrip_id.
Qed.

Lemma lstrip_snoc (l : pystr) (c : Z) :
  is_space c = false -> exists l', lstrip (l ++ [c]) = l' ++ [c].
Proof.
  intros Hc. induction l as [|x l IH]; simpl.
  - rewrite Hc. by exists [].
  - destruct (is_space x); [done|]. by exists (x :: l).
Qed.

Lemma rstrip_rstrip (s : pystr) : rstrip (rstrip s) = rstrip s.
Proof. unfold rstrip. by rewrite rev_involutive, lstrip_lstrip. Qed.

(** Stripping on the right leaves a first character that is not white
    space where it is. *)
Lemma rstrip_head (c : Z) (r : pystr) :
  is_space c = false -> exists r', rstrip (c :: r) = c :: r'.
Proof.
  intros Hc. unfold rstrip. simpl rev.
  destruct (lstrip_snoc (rev r) c Hc) as [l' ->].
  rewrite rev_unit. by exists (rev l').
Qed.

Lemma strip_strip (s : pystr) : strip (strip s) = strip s.
Proof.
  unfold strip.
  destruct (lstrip_head s) as [->|(c & r & -> & Hc)]; [done|].
  destruct (rstrip_head c r Hc) as [r' Hr]. rewrite Hr.
  rewrite lstrip_id by done. by rewrite <- Hr, rstrip_rstrip.
Qed.

Lemma strip_clean (s : pystr) :
  Forall (fun c => is_space c = false) s -> strip s = s.
Proof.
  intros Hs. unfold strip, rstrip. rewrite (lstrip_clean s) by done.
  rewrite lstrip_clean by (by apply Forall_rev). apply rev_involutive.
Qed.
End StripFacts.

Lemma lstrip_suffix (s : pystr) :
  exists pre, s = pre ++ lstrip s /\ Forall (fun c => is_space c = true) pre.
Proof.
  induction s as [|c s (pre & Hs & Hpre)]; simpl; [by exists []|].
  destruct (is_space c) eqn:Hc; [|by exists []].
  exists (c :: pre). split; [by rewrite <- app_comm_cons, <- Hs|by constructor].
Qed.

(** [strip] removes white space at the two ends and nothing else. *)
Lemma strip_middle (s : pystr) :
  exists pre post, s = pre ++ strip s ++ post
    /\ Forall (fun c => is_space c = true) pre
    /\ Forall (fun c => is_space c = true) post.
Proof.
  destruct (lstrip_suffix s) as (pre & Hs & Hpre).
  destruct (lstrip_suffix (rev (lstrip s))) as (post & Hr & Hpost).
  exists pre, (rev post). split; [|split; [done|by apply Forall_rev]].
  unfold strip, rstrip. rewrite <- rev_app_distr, <- Hr, rev_involutive. exact Hs.
Qed.

Lemma existsb_false_Forall {A} (f : A -> bool) (l : list A) :
  existsb f l = false -> Forall (fun x => f x = false) l.
Proof.
  induction l as [|x l IH]; simpl; [constructor|].
  intros [Hx Hl]%orb_false_iff. constructor; auto.
Qed.

Lemma Forall_existsb_false {A} (f : A -> bool) (l : list A) :
  Forall (fun x => f x = false) l -> existsb f l = false.
Proof. induction 1 as [|x l Hx Hl IH]; simpl; [done|]. by rewrite Hx, IH. Qed.

Lemma filter_sublist {A} (f : A -> bool) (l : list A) : sublist (List.filter f l) l.
Proof.
  induction l as [|x l IH]; simpl; [constructor|].
  destruct (f x); by constructor.
Qed.

Lemma filter_Forall_true {A} (f : A -> bool) (l : list A) :
  Forall (fun x => f x = true) (List.filter f l).
Proof.
  induction l as [|x l IH]; simpl; [constructor|].
  destruct (f x) eqn:Hx; [by constructor|done].
Qed.

Lemma sanitize_text_input_fixed (text s : pystr) (max_length : Z) :
  Utils.sanitize_text_input_max (VStr text) max_length = Some s ->
  s <> [] /\ Z.of_nat (length s) <= max_length
  /\ Forall (fun c => Utils.text_char_bad c = false) s
  /\ strip s = s
  /\ Utils.sanitize_text_input_max (VStr s) max_length = Some s.
Proof.
  unfold Utils.sanitize_text_input_max. cbv zeta.
  destruct (strip text) as [|c r] eqn:Hstrip; [done|].
  destruct (Z.ltb_spec max_length (Z.of_nat (length (c :: r)))) as [|Hlen]; [done|].
  destruct (existsb Utils.text_char_bad (c :: r)) eqn:Hbad; [done|].
  intros [= <-]. assert (strip (c :: r) = c :: r) as Hid.
  { rewrite <- Hstrip. apply strip_strip. }
  split; [done|]. split; [done|]. split; [by apply existsb_false_Forall|].
  split; [done|]. rewrite Hid, Hbad.
  by destruct (Z.ltb_spec max_length (Z.of_nat (length (c :: r)))); [lia|].
Qed.

(** X1.  What [sanitize_text_input] returns is a non-empty string of at most
    [max_length] characters, none of which the loop rejects, with no white
    space at either end; sanitizing it again returns it unchanged. *)
Theorem sanitize_text_input_idempotent (text s : pystr) (max_length : Z) :
  Utils.sanitize_text_input_max (VStr text) max_length = Some s ->
  s <> [] /\ Z.of_nat (length s) <= max_length
  /\ Forall (fun c => Utils.text_char_bad c = false) s
  /\ strip s = s
  /\ Utils.sanitize_text_input_max (VStr s) max_length = Some s.
Proof. apply sanitize_text_input_fixed. Qed.

Lemma sanitize_text_input_idempotent_witness :
  str_lit "hi there" <> []
  /\ Z.of_nat (length (str_lit "hi there")) <= 1024
  /\ Forall (fun c => Utils.text_char_bad c = false) (str_lit "hi there")
  /\ strip (str_lit "hi there") = str_lit "hi there"
  /\ Utils.sanitize_text_input_max (VStr (str_lit "hi there")) 1024
     = Some (str_lit "hi there").
Proof.
  apply (sanitize_text_input_idempotent (str_lit "  hi there ") (str_lit "hi there") 1024).
  reflexivity.
Defined.

Lemma sanitize_display_name_spec (name s : pystr) (max_length : nat) :
  Utils.sanitize_display_name (VStr name) max_length = Some s ->
  s <> [] /\ (length s <= max_length)%nat
  /\ Forall (fun c => Utils.display_char_dropped c = false) s
  /\ sublist s name.
Proof.
  unfold Utils.sanitize_display_name. cbv zeta.
  destruct (strip_middle name) as (pre & post & Hname & _ & _).
  destruct (strip name) as [|c r] eqn:Hstrip; [done|].
  set (cut := if (max_length <? length (c :: r))%nat then take max_length (c :: r)
              else c :: r).
  assert ((length cut <= max_length)%nat /\ sublist cut (c :: r)) as [Hlen Hsub].
  { subst cut. destruct (Nat.ltb_spec max_length (length (c :: r))).
    - split; [rewrite length_take; lia|apply sublist_take].
    - split; [lia|done]. }
  destruct (List.filter _ cut) as [|c' r'] eqn:Hfilter; [done|].
  intros [= <-]. rewrite <- Hfilter. split; [by rewrite Hfilter|].
  split; [|split].
  - etrans; [apply List.filter_length_le|done].
  - eapply Forall_impl; [apply filter_Forall_true|].
    intros x Hx. by apply negb_true_iff.
  - etrans; [apply filter_sublist|]. etrans; [exact Hsub|].
    rewrite Hname. apply sublist_inserts_l, sublist_inserts_r. done.
Qed.

(** X2.  What [sanitize_display_name] returns is non-empty, at most
    [max_length] characters long, free of the characters the loop drops, and
    made of characters of the name in their order. *)
Theorem sanitize_display_name_output (name s : pystr) (max_length : nat) :
  Utils.sanitize_display_name (VStr name) max_length = Some s ->
  s <> [] /\ (length s <= max_length)%nat
  /\ Forall (fun c => Utils.display_char_dropped c = false) s
  /\ sublist s name.
Proof. apply sanitize_display_name_spec. Qed.

Lemma sanitize_display_name_output_witness :
  str_lit "Alice" <> [] /\ (length (str_lit "Alice") <= 32)%nat
  /\ Forall (fun c => Utils.display_char_dropped c = false) (str_lit "Alice")
  /\ sublist (str_lit "Alice") (str_lit " Alice ").
Proof.
  apply (sanitize_display_name_output (str_lit " Alice ") (str_lit "Alice") 32).
  reflexivity.
Defined.

Section HashFacts.
Import Hashes.

Lemma hex_digit_value (n : Z) :
  0 <= n < 16 ->
  ascii_space (hex_digit n) = false /\ hex_value (hex_digit n) = Some n
  /\ is_space (hex_digit n) = false
  /\ hex_digit n <> 58 /\ hex_digit n <> 32.
Proof.
  intros Hn. unfold ascii_space, hex_value, is_space, hex_digit.
  destruct (Z.ltb_spec n 10).
  - assert (48 + n - 48 = n) as Heq by lia. repeat split; try lia.
    destruct (Z.leb_spec 48 (48 + n)), (Z.leb_spec (48 + n) 57); try lia.
    simpl. by rewrite Heq.
  - assert (87 + n - 87 = n) as Heq by lia. repeat split; try lia.
    destruct (Z.leb_spec 48 (87 + n)), (Z.leb_spec (87 + n) 57),
      (Z.leb_spec 97 (87 + n)), (Z.leb_spec (87 + n) 102); try lia.
    simpl. by rewrite Heq.
Qed.

Lemma hex_value_range (c v : Z) : hex_value c = Some v -> 0 <= v < 16.
Proof.
  unfold hex_value.
  destruct (Z.leb_spec 48 c), (Z.leb_spec c 57), (Z.leb_spec 97 c), (Z.leb_spec c 102),
    (Z.leb_spec 65 c), (Z.leb_spec c 70); simpl; intros [= <-]; lia.
Qed.

Lemma fromhex_hex (b : bytes) :
  Forall (fun x => 0 <= x < 256) b -> fromhex (hex b) = Some b.
Proof.
  induction 1 as [|x b Hx Hb IH]; [done|].
  assert (0 <= x / 16 < 16) as Htop
    by (split; [apply Z.div_pos; lia|apply Z.div_lt_upper_bound; lia]).
  assert (0 <= x mod 16 < 16) as Hbot by (apply Z.mod_pos_bound; lia).
  destruct (hex_digit_value _ Htop) as (Hsp & Hv & _).
  destruct (hex_digit_value _ Hbot) as (_ & Hv' & _).
  change (hex (x :: b)) with (hex_digit (x / 16) :: hex_digit (x mod 16) :: hex b).
  cbn [fromhex]. rewrite Hsp, Hv, Hv', IH. cbn [fmap option_fmap option_map].
  do 2 f_equal. rewrite (Z.div_mod x 16) at 3 by lia. lia.
Qed.

Lemma hex_clean (b : bytes) :
  Forall (fun x => 0 <= x < 256) b ->
  Forall (fun c => is_space c = false /\ c <> 58 /\ c <> 32) (hex b).
Proof.
  induction 1 as [|x b Hx Hb IH]; [constructor|].
  assert (0 <= x / 16 < 16) as Htop
    by (split; [apply Z.div_pos; lia|apply Z.div_lt_upper_bound; lia]).
  assert (0 <= x mod 16 < 16) as Hbot by (apply Z.mod_pos_bound; lia).
  change (hex (x :: b)) with (hex_digit (x / 16) :: hex_digit (x mod 16) :: hex b).
  destruct (hex_digit_value _ Htop) as (_ & _ & ? & ? & ?).
  destruct (hex_digit_value _ Hbot) as (_ & _ & ? & ? & ?).
  by repeat constructor.
Qed.

Lemma fromhex_bytes (n : nat) (s : pystr) (b : bytes) :
  (length s <= n)%nat -> fromhex s = Some b ->
  Forall (fun x => 0 <= x < 256) b /\ (2 * length b <= length s)%nat.
Proof.
  revert s b. induction n as [|n IH]; intros s b Hn.
  - destruct s; [|simpl in Hn; lia]. intros [= <-]. by split; [constructor|].
  - destruct s as [|c r]; [intros [= <-]; by split; [constructor|]|].
    simpl in Hn. cbn [fromhex]. destruct (ascii_space c).
    { intros Hr. destruct (IH r b) as [? ?]; [lia|done|]. split; [done|simpl; lia]. }
    destruct (hex_value c) as [top|] eqn:Htop; [|done].
    destruct r as [|d r']; [done|].
    destruct (hex_value d) as [bot|] eqn:Hbot; [|done].
    destruct (fromhex r') as [b'|] eqn:Hr'; [|done]. intros [= <-].
    simpl in Hn. destruct (IH r' b') as [? ?]; [lia|done|].
    apply hex_value_range in Htop, Hbot.
    split; [constructor; [lia|done]|simpl; lia].
Qed.
End HashFacts.

(** X3.  [parse_hash] reads back what [bytes.hex()] writes: for every byte
    string [b], [parse_hash(b.hex()) == b]. *)
Theorem parse_hash_hex (b : bytes) :
  Forall (fun x => 0 <= x < 256) b -> Hashes.parse_hash (hex b) = Some b.
Proof.
  intros Hb. pose proof (hex_clean b Hb) as Hclean. unfold Hashes.parse_hash.
  rewrite strip_clean by (eapply Forall_impl; [exact Hclean|]; by intros c (? & _)).
  unfold Hashes.remove_char.
  rewrite (filter_all _ (hex b)).
  - rewrite (filter_all _ (hex b)); [by apply fromhex_hex|].
    eapply Forall_impl; [exact Hclean|]. intros c (_ & _ & ?). simpl. lia.
  - eapply Forall_impl; [exact Hclean|]. intros c (_ & ? & _). simpl. lia.
Qed.

Lemma parse_hash_hex_witness :
  Hashes.parse_hash (hex [0; 171; 255; 16]) = Some [0; 171; 255; 16].
Proof. apply (parse_hash_hex [0; 171; 255; 16]). repeat constructor; lia. Defined.

(** X4.  Whatever [parse_hash] returns is a string of bytes, and each byte
    of it took two characters of the text: a text with fewer than [2 n]
    characters never parses to [n] bytes. *)
Theorem parse_hash_bytes (text : pystr) (b : bytes) :
  Hashes.parse_hash text = Some b ->
  Forall (fun x => 0 <= x < 256) b /\ (2 * length b <= length text)%nat.
Proof.
  unfold Hashes.parse_hash, Hashes.remove_char. intros Hb.
  apply (fromhex_bytes _ _ _ (le_n _)) in Hb as [Hbytes Hlen]. split; [done|].
  etrans; [exact Hlen|]. etrans; [apply List.filter_length_le|].
  etrans; [apply List.filter_length_le|].
  destruct (strip_middle text) as (pre & post & Htext & _ & _).
  rewrite Htext at 2. rewrite !length_app. lia.
Qed.

Lemma parse_hash_bytes_witness :
  Forall (fun x => 0 <= x < 256) [222; 173; 190; 239]
  /\ (2 * length [222; 173; 190; 239] <= length (str_lit " de:ad:BE:ef "))%nat.
Proof. apply (parse_hash_bytes (str_lit " de:ad:BE:ef ")). reflexivity. Defined.

(** ** envelope.py *)
Section MoreEnvelopeFacts.
Import Envelope.

Lemma key_eqb_int (a b : Z) : key_eqb (VInt a) (VInt b) = (a =? b).
Proof.
  unfold key_eqb. simpl. destruct (Z.eqb_spec a b) as [->|Hne].
  - apply Qeq_bool_iff. reflexivity.
  - apply not_true_is_false. intros Heq%Qeq_bool_iff.
    unfold Qeq in Heq. simpl in Heq. lia.
Qed.

Lemma res_bind_ok {A B} (m : res A) (f : A -> res B) (b : B) :
  m ≫= f = Ok b -> exists a, m = Ok a /\ f a = Ok b.
Proof. destruct m as [a|e]; [|done]. intros Hf. by exists a. Qed.

Lemma raise_if_ok (c : bool) (e : exn) (u : unit) : raise_if c e = Ok u -> c = false.
Proof. by destruct c. Qed.

Lemma check_keys_ok (ks : list pyval) :
  check_keys ks = Ok tt -> Forall (fun k => exists n, as_int k = Some n /\ 0 <= n) ks.
Proof.
  induction ks as [|k ks IH]; simpl; [constructor|].
  destruct (as_int k) as [n|] eqn:Hn; [|done].
  intros (u & Hneg%raise_if_ok & Hks)%res_bind_ok.
  constructor; [|by apply IH]. exists n. split; [done|lia].
Qed.

Lemma check_required_ok (ks : list Z) d :
  check_required ks d = Ok tt -> Forall (fun k => is_Some (dict_get (VInt k) d)) ks.
Proof.
  induction ks as [|k ks IH]; simpl; [constructor|].
  destruct (dict_get (VInt k) d) as [v|] eqn:Hv; [|done].
  intros Hks. constructor; [by rewrite Hv|by apply IH].
Qed.

Lemma expect_int_ok v msg n : expect_int v msg = Ok n -> as_int v = Some n.
Proof. unfold expect_int. destruct (as_int v); [|done]. by intros [= ->]. Qed.

Lemma expect_bytes_ok v msg b : expect_bytes v msg = Ok b -> v = VBytes b.
Proof. destruct v; try done. by intros [= ->]. Qed.

Lemma expect_str_ok v msg s : expect_str v msg = Ok s -> v = VStr s.
Proof. destruct v; try done. by intros [= ->]. Qed.

Lemma item_required k d ks :
  Forall (fun k => is_Some (dict_get (VInt k) d)) ks -> k ∈ ks ->
  dict_get (VInt k) d = Some (item k d).
Proof.
  intros Hks Hk. rewrite Forall_forall in Hks. destruct (Hks k Hk) as [v Hv].
  unfold item. by rewrite Hv.
Qed.

Lemma check_keys_set_eq (k : Z) (v : pyval) d :
  0 <= k -> check_keys (map fst (dict_set (VInt k) v d)) = check_keys (map fst d).
Proof.
  intros Hk. induction d as [|[k' v'] d IH]; simpl.
  - by destruct (Z.ltb_spec k 0); [lia|].
  - destruct (key_eqb k' (VInt k)); simpl; [done|].
    destruct (as_int k'); [|done]. by rewrite IH.
Qed.
End MoreEnvelopeFacts.

(** X5.  An envelope built by [make_envelope] passes [validate_envelope]
    when the type is not negative, the source hash is 16 or 32 bytes long,
    a room has 1 to 64 and a nickname 1 to 32 characters, a message id that
    is given is empty or 8 bytes long, a timestamp that is given is not
    negative, and the 8 random bytes and the clock stand in for what is not
    given. *)
Theorem make_envelope_valid (random : bytes) (clock msg_type : Z) (src : bytes)
    (room : option pystr) (body : pyval) (nick : option pystr)
    (mid : option bytes) (ts : option Z) :
  length random = 8%nat -> 0 <= clock -> 0 <= msg_type ->
  length src = 16%nat \/ length src = 32%nat ->
  (forall r, room = Some r -> (1 <= length r <= 64)%nat) ->
  (forall n, nick = Some n -> (1 <= length n <= 32)%nat) ->
  body <> VUndefined ->
  (forall m, mid = Some m -> m = [] \/ length m = 8%nat) ->
  (forall t, ts = Some t -> 0 <= t) ->
  Envelope.validate_envelope
    (Make.make_envelope random clock msg_type src room body nick mid ts) = Ok tt.
Proof.
  intros Hrandom Hclock Htype Hsrc Hroom Hnick Hbody Hmid Hts.
  unfold Make.make_envelope.
  set (id := Make.or_msg_id mid random). set (stamp := Make.or_now_ms ts clock).
  assert (length id = 8%nat) as Hid.
  { subst id. destruct mid as [[|x m]|]; try done.
    by destruct (Hmid (x :: m) eq_refl). }
  assert (0 <= stamp) as Hstamp.
  { subst stamp. destruct ts as [t|]; [|done]. simpl.
    destruct (Z.eqb_spec t 0); [done|by apply Hts]. }
  clearbody id stamp.
  unfold Envelope.validate_envelope, Envelope.check_room, Envelope.check_nick,
    Envelope.check_body, Envelope.item.
  destruct room as [r|], (is_none body) eqn:Hnone, nick as [n|];
    repeat (progress (cbn; rewrite ?key_eqb_int)).
  all: try specialize (Hroom _ eq_refl); try specialize (Hnick _ eq_refl).
  all: assert (negb (is_none body) && negb (Envelope.body_type_ok body) = false) as Hb
         by (by destruct body).
  all: rewrite ?Hb.
  all: repeat match goal with
       | |- context [?a <? ?b] => destruct (Z.ltb_spec a b); [lia|]
       | |- context [?a =? ?b] => destruct (Z.eqb_spec a b); try lia
       end; reflexivity.
Qed.

Lemma make_envelope_valid_witness :
  Envelope.validate_envelope
    (Make.make_envelope Examples.random Examples.clock T_MSG (repeat 170 16)
       (Some (str_lit "general")) (VStr (str_lit "hello")) (Some (str_lit "alice"))
       None (Some 0)) = Ok tt.
Proof.
  apply make_envelope_valid; try done.
  - by left.
  - intros r [= <-]. simpl; lia.
  - intros n [= <-]. simpl; lia.
  - intros t [= <-]. lia.
Defined.

(** X6.  What [validate_envelope] guarantees of an envelope it accepts: it
    is a map whose keys are non-negative integers, with version 1, a
    non-negative type, an id of 8 bytes, a non-negative timestamp and a
    source hash of 16 or 32 bytes; a room, when present, is a string of 1 to
    64 characters and a nickname one of 1 to 32. *)
Theorem validated_envelope_fields (env : pyval) :
  Envelope.validate_envelope env = Ok tt ->
  exists d t mid ts src,
    env = VDict d
    /\ Forall (fun k => exists n, as_int k = Some n /\ 0 <= n) (map fst d)
    /\ dict_get (VInt K_V) d ≫= as_int = Some RRC_VERSION
    /\ dict_get (VInt K_T) d ≫= as_int = Some t /\ 0 <= t
    /\ dict_get (VInt K_ID) d = Some (VBytes mid) /\ length mid = 8%nat
    /\ dict_get (VInt K_TS) d ≫= as_int = Some ts /\ 0 <= ts
    /\ dict_get (VInt K_SRC) d = Some (VBytes src)
    /\ (length src = 16%nat \/ length src = 32%nat)
    /\ (forall v, dict_get (VInt K_ROOM) d = Some v ->
          exists room, v = VStr room /\ (1 <= length room <= 64)%nat)
    /\ (forall v, dict_get (VInt K_NICK) d = Some v ->
          exists nick, v = VStr nick /\ (1 <= length nick <= 32)%nat)
    /\ (forall v, dict_get (VInt K_BODY) d = Some v -> v <> VUndefined).
Proof.
  destruct env as [| | | | | | | |d]; try done. unfold Envelope.validate_envelope.
  intros ([] & Hkeys%check_keys_ok & H)%res_bind_ok.
  apply res_bind_ok in H as ([] & Hreq%check_required_ok & H).
  apply res_bind_ok in H as (v & Hv%expect_int_ok & H).
  apply res_bind_ok in H as ([] & Hver%raise_if_ok & H).
  apply res_bind_ok in H as (t & Ht%expect_int_ok & H).
  apply res_bind_ok in H as ([] & Htpos%raise_if_ok & H).
  apply res_bind_ok in H as (mid & Hmid%expect_bytes_ok & H).
  apply res_bind_ok in H as ([] & Hmidlen%raise_if_ok & H).
  apply res_bind_ok in H as (ts & Hts%expect_int_ok & H).
  apply res_bind_ok in H as ([] & Htspos%raise_if_ok & H).
  apply res_bind_ok in H as (src & Hsrc%expect_bytes_ok & H).
  apply res_bind_ok in H as ([] & Hsrclen%raise_if_ok & H).
  apply res_bind_ok in H as ([] & Hroom & H).
  apply res_bind_ok in H as ([] & Hnick & Hbody).
  exists d, t, mid, ts, src.
  pose proof (fun k => item_required k d _ Hreq) as Hitem.
  rewrite (Hitem K_V), (Hitem K_T), (Hitem K_ID), (Hitem K_TS), (Hitem K_SRC)
    by (apply (bool_decide_unpack _); by vm_compute).
  rewrite Hmid, Hsrc. cbn [mbind option_bind]. rewrite Hv, Ht, Hts.
  split; [done|]. split; [done|].
  split; [f_equal; apply negb_false_iff in Hver; lia|].
  split; [done|]. split; [lia|]. split; [done|].
  split; [apply negb_false_iff in Hmidlen; lia|].
  split; [done|]. split; [lia|]. split; [done|].
  split; [apply negb_false_iff in Hsrclen; lia|].
  split; [|split].
  - intros w Hw. unfold Envelope.check_room in Hroom. rewrite Hw in Hroom.
    apply res_bind_ok in Hroom as (room & -> %expect_str_ok & Hroom).
    apply res_bind_ok in Hroom as ([] & He%raise_if_ok & Hl%raise_if_ok).
    exists room. split; [done|lia].
  - intros w Hw. unfold Envelope.check_nick in Hnick. rewrite Hw in Hnick.
    apply res_bind_ok in Hnick as (nick & -> %expect_str_ok & Hnick).
    apply res_bind_ok in Hnick as ([] & He%raise_if_ok & Hl%raise_if_ok).
    exists nick. split; [done|lia].
  - intros w Hw ->. unfold Envelope.check_body in Hbody. by rewrite Hw in Hbody.
Qed.

Lemma validated_envelope_fields_witness :
  exists d t mid ts src,
    VDict Examples.fields = VDict d
    /\ Forall (fun k => exists n, as_int k = Some n /\ 0 <= n) (map fst d)
    /\ dict_get (VInt K_V) d ≫= as_int = Some RRC_VERSION
    /\ dict_get (VInt K_T) d ≫= as_int = Some t /\ 0 <= t
    /\ dict_get (VInt K_ID) d = Some (VBytes mid) /\ length mid = 8%nat
    /\ dict_get (VInt K_TS) d ≫= as_int = Some ts /\ 0 <= ts
    /\ dict_get (VInt K_SRC) d = Some (VBytes src)
    /\ (length src = 16%nat \/ length src = 32%nat)
    /\ (forall v, dict_get (VInt K_ROOM) d = Some v ->
          exists room, v = VStr room /\ (1 <= length room <= 64)%nat)
    /\ (forall v, dict_get (VInt K_NICK) d = Some v ->
          exists nick, v = VStr nick /\ (1 <= length nick <= 32)%nat)
    /\ (forall v, dict_get (VInt K_BODY) d = Some v -> v <> VUndefined).
Proof. apply (validated_envelope_fields (VDict Examples.fields)). reflexivity. Defined.

(** X7.  A field under a key from 8 on, which the protocol does not define,
    is ignored by [validate_envelope]: the envelope with the field set is
    accepted, or rejected with the same exception, as the envelope without
    it. *)
Theorem unknown_key_ignored (k : Z) (v : pyval) (d : list (pyval * pyval)) :
  8 <= k ->
  Envelope.validate_envelope (VDict (dict_set (VInt k) v d))
  = Envelope.validate_envelope (VDict d).
Proof.
  intros Hk. unfold Envelope.validate_envelope, Envelope.check_room, Envelope.check_nick,
    Envelope.check_body, Envelope.item.
  rewrite check_keys_set_eq by lia.
  rewrite check_required_set
    by (intros Hin; repeat (apply elem_of_cons in Hin as [->|Hin]; [vm_compute in Hk; done|]);
        by apply elem_of_nil in Hin).
  rewrite !dict_get_set_ne by (unfold K_V, K_T, K_ID, K_TS, K_SRC, K_ROOM, K_NICK, K_BODY; lia).
  done.
Qed.

Lemma unknown_key_ignored_witness :
  Envelope.validate_envelope (VDict (dict_set (VInt 64) (VStr (str_lit "x")) Examples.fields))
  = Envelope.validate_envelope (VDict Examples.fields).
Proof. apply unknown_key_ignored. lia. Defined.

(** ** client.py: resources *)
Section ActiveFacts.
Context `{Builtins} `{Cbor2}.
Import Client.

(** The active set and the map from resources to expectations go together,
    and the set stays within its limit. *)
Definition active_ok (cfg : ClientConfig) (st : state) : Prop :=
  dom (_resource_to_expectation st) = _active_resources st
  /\ (base.size (_active_resources st) <= max_active_resources cfg)%nat.

Lemma on_resource_envelope_frame cfg now env st :
  let st' := on_resource_envelope cfg now env st in
  link st' = link st /\ rooms st' = rooms st
  /\ _active_resources st' = _active_resources st
  /\ _resource_to_expectation st' = _resource_to_expectation st.
Proof. unfold on_resource_envelope. by repeat case_match. Qed.

Lemma on_packet_frame cfg now data st :
  let st' := (_on_packet cfg now data st).1 in
  link st' = link st
  /\ _active_resources st' = _active_resources st
  /\ _resource_to_expectation st' = _resource_to_expectation st.
Proof.
  unfold _on_packet. destruct (Codec.decode data) as [env|]; [|done].
  destruct (Envelope.validate_envelope env); [|done]. unfold dispatch.
  repeat case_match; simpl; try done.
  by destruct (on_resource_envelope_frame cfg now env st) as (? & _ & ? & ?).
Qed.

Lemma find_resource_expectation_frame now sz st :
  let st' := (_find_resource_expectation now sz st).2 in
  _active_resources st' = _active_resources st
  /\ _resource_to_expectation st' = _resource_to_expectation st.
Proof. unfold _find_resource_expectation. by repeat case_match. Qed.

Lemma difference_size_le (A B : gset nat) : (base.size (A ∖ B) <= base.size A)%nat.
Proof.
  apply subseteq_size. intros x Hx. by apply elem_of_difference in Hx as [? _].
Qed.

Lemma step_active_ok cfg st st' :
  step cfg st st' -> active_ok cfg st -> active_ok cfg st'.
Proof.
  unfold active_ok. destruct 1; intros [Hdom Hsize].
  - done.
  - destruct (on_packet_frame cfg now data st) as (_ & -> & ->). done.
  - unfold _resource_advertised.
    destruct (max_resource_bytes cfg <? total_size resource); [done|].
    destruct (Nat.leb_spec (max_active_resources cfg) (base.size (_active_resources st)));
      [done|].
    pose proof (find_resource_expectation_frame now (total_size resource) st) as Hframe.
    destruct (_find_resource_expectation now (total_size resource) st) as [[exp|] st1];
      cbn [fst snd _active_resources _resource_to_expectation] in Hframe |- *;
      destruct Hframe as [Hact Hmap].
    + rewrite Hact, Hmap, dom_insert_L, Hdom. split; [done|].
      rewrite size_union_alt, size_singleton.
      pose proof (difference_size_le (_active_resources st) {[handle resource]}). lia.
    + by rewrite Hact, Hmap.
  - cbn [_resource_concluded _active_resources _resource_to_expectation].
    rewrite dom_delete_L, Hdom. split; [done|].
    etrans; [apply difference_size_le|exact Hsize].
  - done.
  - cbn [_on_link_closed fst _active_resources _resource_to_expectation].
    rewrite dom_empty_L, size_empty. split; [done|lia].
  - cbn [close fst _active_resources _resource_to_expectation].
    rewrite dom_empty_L, size_empty. split; [done|lia].
Qed.
End ActiveFacts.

Lemma reachable_active_inv `{Builtins} `{Cbor2} (cfg : Client.ClientConfig)
    (st : Client.state) :
  Client.reachable cfg st -> active_ok cfg st.
Proof.
  unfold Client.reachable. intros Hr. apply rtc_nsteps in Hr as [n Hr].
  revert st Hr. induction n as [|n IH]; intros st Hr.
  - inversion Hr; subst. unfold active_ok.
    cbn [Client.init Client._active_resources Client._resource_to_expectation].
    rewrite dom_empty_L, size_empty. split; [done|lia].
  - apply nsteps_inv_r in Hr as (mid & Hmid & Hstep).
    eapply step_active_ok; [exact Hstep|]. by apply IH.
Qed.

(** X8.  In every state the client can reach, the resources that have an
    expectation attached are exactly the active ones, and there are at most
    [max_active_resources] of them. *)
Theorem reachable_active_ok `{Builtins} `{Cbor2} (cfg : Client.ClientConfig)
    (st : Client.state) :
  Client.reachable cfg st ->
  dom (Client._resource_to_expectation st) = Client._active_resources st
  /\ (base.size (Client._active_resources st) <= Client.max_active_resources cfg)%nat.
Proof. apply reachable_active_inv. Qed.

Lemma reachable_active_ok_witness :
  dom (Client._resource_to_expectation Examples.receiving)
  = Client._active_resources Examples.receiving
  /\ (base.size (Client._active_resources Examples.receiving)
      <= Client.max_active_resources Client.default_config)%nat.
Proof.
  apply (reachable_active_ok (H := Samples.builtins) Client.default_config).
  unfold Client.reachable, Examples.receiving, Examples.announced, Examples.online.
  eapply rtc_r; [eapply rtc_r; [apply rtc_once, Client.step_connect|]|].
  - apply Client.step_packet.
  - apply Client.step_advertised.
Defined.

Section AnnouncedFacts.
Context `{Builtins} `{Cbor2}.
Import Client.

Lemma recorded_in_table cfg t0 env st rid kind size sha256 encoding :
  (0 < max_pending_resource_expectations cfg)%nat ->
  resource_body cfg env rid kind size sha256 encoding ->
  let new := new_expectation cfg t0 env rid kind size sha256 encoding in
  (rid, new) ∈ _resource_expectations (on_resource_envelope cfg t0 env st)
  /\ forall e, e ∈ _resource_expectations (on_resource_envelope cfg t0 env st) ->
       e = (rid, new) \/ e ∈ _resource_expectations st.
Proof.
  intros Hmax Hbody new. rewrite (on_resource_envelope_valid _ _ _ _ _ _ _ _ _ Hbody).
  fold new. unfold evict_oldest.
  destruct (Nat.leb_spec (max_pending_resource_expectations cfg)
              (length (_resource_expectations st))) as [Hfull|Hroom].
  - destruct (_resource_expectations st) as [|e0 d] eqn:Hd; [simpl in Hfull; lia|].
    cbn [py_min]. destruct (min_from _ e0 d) as [oldest_rid oldest].
    cbn [set_expectations _resource_expectations]. split.
    + apply list_elem_of_lookup. 
      assert (od_get rid (od_set rid new (od_del oldest_rid (e0 :: d))) = Some new) as Hget
        by apply od_get_set.
      clear -Hget. induction (od_set rid new (od_del oldest_rid (e0 :: d))) as [|[k v] l IH];
        [done|]. simpl in Hget. destruct (decide (k = rid)) as [->|Hne].
      * injection Hget as ->. by exists 0%nat.
      * destruct (IH Hget) as [i Hi]. by exists (S i).
    + intros e [->|He]%od_set_elem; [by left|]. right. by apply od_del_elem in He.
  - cbn [set_expectations _resource_expectations]. split.
    + assert (od_get rid (od_set rid new (_resource_expectations st)) = Some new) as Hget
        by apply od_get_set.
      clear -Hget. apply list_elem_of_lookup.
      induction (od_set rid new (_resource_expectations st)) as [|[k v] l IH]; [done|].
      simpl in Hget. destruct (decide (k = rid)) as [->|Hne].
      * injection Hget as ->. by exists 0%nat.
      * destruct (IH Hget) as [i Hi]. by exists (S i).
    + intros e [->|He]%od_set_elem; [by left|by right].
Qed.
End AnnouncedFacts.

(** The relative error of a sum of two floats, rounded to the nearest:
    2^-53. *)
Definition half_ulp : Q := 1 # 9007199254740992.

(** X9.  When the next thing that happens to the client after a valid
    RESOURCE_ENVELOPE is that a resource of the announced size is
    advertised, the resource is accepted and becomes active, provided
    there is room for another active resource and the expectation has not
    expired.  The expiry time is the sum of the time of the envelope and
    [resource_expectation_ttl_s]; the code keeps it as a float, rounded,
    so the time of the advertisement is asked to be below the exact sum by
    more than the rounding can take away. *)
Theorem announced_resource_accepted `{Builtins} `{Cbor2}
    (cfg : Client.ClientConfig) (t0 now : Q) (env : pyval) (st : Client.state)
    (rid : bytes) (kind : pystr) (size : Z) (sha256 : option bytes)
    (encoding : option pystr) (resource : Client.Resource) :
  Client.reachable cfg st ->
  (0 < Client.max_pending_resource_expectations cfg)%nat ->
  resource_body cfg env rid kind size sha256 encoding ->
  Client.total_size resource = size ->
  (base.size (Client._active_resources st) < Client.max_active_resources cfg)%nat ->
  (0 <= t0 + Client.resource_expectation_ttl_s cfg)%Q ->
  (now < (t0 + Client.resource_expectation_ttl_s cfg) * (1 - half_ulp))%Q ->
  let st' := Client._resource_advertised cfg now resource
               (Client.on_resource_envelope cfg t0 env st) in
  st'.1 = true /\ Client.handle resource ∈ Client._active_resources st'.2.
Proof.
  intros Hr Hmax Hbody Hsize Hactive Hpos Hmargin.
  assert (now < t0 + Client.resource_expectation_ttl_s cfg)%Q as Hnow.
  { unfold half_ulp in Hmargin. nra. }
  destruct (recorded_in_table cfg t0 env st rid kind size sha256 encoding Hmax Hbody)
    as [Hin _].
  pose proof (on_resource_envelope_pending_ok cfg t0 env st (reachable_pending_ok cfg st Hr))
    as (_ & Hnd & _).
  destruct (on_resource_envelope_frame cfg t0 env st) as (_ & _ & Hact & _).
  set (st1 := Client.on_resource_envelope cfg t0 env st) in *.
  pose proof Hbody as (_ & _ & _ & _ & _ & Hrange & _).
  unfold Client._resource_advertised. rewrite Hsize, Hact.
  destruct (Z.ltb_spec (Client.max_resource_bytes cfg) size); [lia|].
  destruct (Nat.leb_spec (Client.max_active_resources cfg)
              (base.size (Client._active_resources st))); [lia|].
  pose proof (find_resource_expectation_spec now size st1 Hnd) as Hfind.
  destruct (Client._find_resource_expectation now size st1) as [[exp|] st2].
  - cbn [fst snd Client._active_resources]. split; [done|].
    apply elem_of_union_l. by apply elem_of_singleton.
  - exfalso. destruct Hfind as [Hall _]. rewrite Forall_forall in Hall.
    apply (Hall (rid, Client.new_expectation cfg t0 env rid kind size sha256 encoding));
      [|done].
    apply elem_of_live. split; [done|]. done.
Qed.

Lemma announced_resource_accepted_witness :
  let st' := Client._resource_advertised Client.default_config 12 Samples.resource_200
               (Client.on_resource_envelope Client.default_config 10
                  (Samples.resource_envelope [9]) Examples.online) in
  st'.1 = true /\ Client.handle Samples.resource_200 ∈ Client._active_resources st'.2.
Proof.
  apply (announced_resource_accepted (H := Samples.builtins) Client.default_config 10 12
           (Samples.resource_envelope [9]) Examples.online [9] (str_lit "notice") 200
           None None).
  - apply rtc_once, Client.step_connect.
  - simpl; lia.
  - eexists. repeat split; by vm_compute.
  - reflexivity.
  - vm_compute; lia.
  - by vm_compute.
  - reflexivity.
Defined.

(** X10.  Once [resource_expectation_ttl_s] has passed since the
    RESOURCE_ENVELOPE, the announced resource is rejected when it is
    advertised, and the active set stays as it was, unless another pending
    expectation of the same size is still alive. *)
Theorem announced_resource_expires `{Builtins} `{Cbor2}
    (cfg : Client.ClientConfig) (t0 now : Q) (env : pyval) (st : Client.state)
    (rid : bytes) (kind : pystr) (size : Z) (sha256 : option bytes)
    (encoding : option pystr) (resource : Client.Resource) :
  Client.reachable cfg st ->
  (0 < Client.max_pending_resource_expectations cfg)%nat ->
  resource_body cfg env rid kind size sha256 encoding ->
  Client.total_size resource = size ->
  Forall (fun e => Client.exp_size e.2 <> size \/ (Client.expires_at e.2 <= now)%Q)
         (Client._resource_expectations st) ->
  (t0 + Client.resource_expectation_ttl_s cfg <= now)%Q ->
  let st' := Client._resource_advertised cfg now resource
               (Client.on_resource_envelope cfg t0 env st) in
  st'.1 = false /\ Client._active_resources st'.2 = Client._active_resources st.
Proof.
  intros Hr Hmax Hbody Hsize Hothers Hnow.
  destruct (recorded_in_table cfg t0 env st rid kind size sha256 encoding Hmax Hbody)
    as [_ Hfrom].
  pose proof (on_resource_envelope_pending_ok cfg t0 env st (reachable_pending_ok cfg st Hr))
    as (_ & Hnd & _).
  destruct (on_resource_envelope_frame cfg t0 env st) as (_ & _ & Hact & _).
  set (st1 := Client.on_resource_envelope cfg t0 env st) in *.
  unfold Client._resource_advertised. rewrite Hsize.
  destruct (Client.max_resource_bytes cfg <? size); [done|].
  destruct (_ <=? _)%nat; [done|].
  pose proof (find_resource_expectation_spec now size st1 Hnd) as Hfind.
  destruct (Client._find_resource_expectation now size st1) as [[exp|] st2].
  - exfalso. destruct Hfind as (pre & rid' & post & Hlive & Hsz & _).
    assert ((rid', exp) ∈ live now (Client._resource_expectations st1)) as Hin.
    { rewrite Hlive. apply elem_of_app. right. by left. }
    apply elem_of_live in Hin as [Hin Hexp]. simpl in Hexp.
    destruct (Hfrom _ Hin) as [[= _ ->]|Hold].
    + simpl in Hexp. by apply (Qlt_not_le _ _ Hexp).
    + rewrite Forall_forall in Hothers. destruct (Hothers _ Hold) as [Hne|Hle]; [done|].
      by apply (Qlt_not_le _ _ Hexp).
  - destruct Hfind as [_ ->]. done.
Qed.

Lemma announced_resource_expires_witness :
  let st' := Client._resource_advertised Client.default_config 40 Samples.resource_200
               (Client.on_resource_envelope Client.default_config 10
                  (Samples.resource_envelope [9]) Examples.online) in
  st'.1 = false
  /\ Client._active_resources st'.2 = Client._active_resources Examples.online.
Proof.
  apply (announced_resource_expires (H := Samples.builtins) Client.default_config 10 40
           (Samples.resource_envelope [9]) Examples.online [9] (str_lit "notice") 200
           None None).
  - apply rtc_once, Client.step_connect.
  - simpl; lia.
  - eexists. repeat split; by vm_compute.
  - reflexivity.
  - constructor.
  - by vm_compute.
Defined.

(** ** client.py: sending *)
Section MakeFacts.
Import Client Make.

Ltac make_cases room body nick :=
  unfold make_envelope, env_get;
  let Hnone := fresh "Hnone" in
  destruct room, (is_none body) eqn:Hnone, nick;
  repeat (progress (cbn; rewrite ?key_eqb_int)).

Lemma make_envelope_get random clock msg_type src room body nick mid ts :
  let env := make_envelope random clock msg_type src room body nick mid ts in
  env_get K_V env = Some (VInt RRC_VERSION)
  /\ env_get K_T env = Some (VInt msg_type)
  /\ env_get K_ID env = Some (VBytes (or_msg_id mid random))
  /\ env_get K_TS env = Some (VInt (or_now_ms ts clock))
  /\ env_get K_SRC env = Some (VBytes src)
  /\ env_get K_ROOM env = VStr <$> room
  /\ env_get K_BODY env = (if is_none body then None else Some body)
  /\ env_get K_NICK env = VStr <$> nick.
Proof. make_cases room body nick; by rewrite ?Hnone. Qed.

Lemma make_envelope_well_formed random clock msg_type src room body nick mid ts :
  well_formed body = true ->
  well_formed (make_envelope random clock msg_type src room body nick mid ts) = true.
Proof.
  intros Hbody. make_cases room body nick; rewrite ?Hbody; try done.
  all: by destruct body.
Qed.
End MakeFacts.

Section OutboundFacts.
Import Client Outbound.
Context `{Builtins} `{Transport}.

Definition is_packet (e : event) : bool :=
  match e with
  | Packet_send _ _ => true
  | Resource_warning _ => false
  end.

Lemma send_done me env st events :
  _send me env st = (events, Done tt) ->
  exists l payload,
    link st = Some l /\ Codec.encode env = Some payload
    /\ packs l payload = true /\ events = [Packet_send l payload].
Proof.
  unfold _send, _packet_would_fit. destruct (link st) as [l|]; [|done].
  destruct (Codec.encode env) as [payload|]; [|done].
  destruct (packs l payload) eqn:Hfit; [|done]. intros [= <-]. by exists l, payload.
Qed.

Lemma send_failed me env st events e :
  _send me env st = (events, Failed e) -> existsb is_packet events = false.
Proof.
  unfold _send, _packet_would_fit. destruct (link st) as [l|]; [|by intros [= <- _]].
  destruct (Codec.encode env) as [payload|]; [|by intros [= <- _]].
  destruct (packs l payload); [done|]. intros [= <- _].
  by destruct (on_resource_warning me).
Qed.

Lemma send_no_link me env st :
  link st = None -> _send me env st = ([], Failed NotConnected).
Proof. unfold _send. by intros ->. Qed.

(** What is written is what is read, for an envelope of [make_envelope]
    that fits in [MAX_CBOR_SIZE] bytes. *)
Lemma made_round_trip random clock msg_type src room body nick mid ts payload :
  well_formed body = true ->
  Codec.encode (Make.make_envelope random clock msg_type src room body nick mid ts)
  = Some payload ->
  Z.of_nat (length payload) <= Codec.MAX_CBOR_SIZE ->
  Codec.decode payload
  = Some (Make.make_envelope random clock msg_type src room body nick mid ts).
Proof.
  intros Hbody Henc Hlen. unfold Codec.decode.
  destruct (Z.ltb_spec Codec.MAX_CBOR_SIZE (Z.of_nat (length payload))); [lia|].
  apply loads_dumps; [|done]. by apply make_envelope_well_formed.
Qed.
End OutboundFacts.

Section WarningFacts.
Import Client Outbound.
Context `{Builtins} `{Transport}.

Lemma type_is_made random clock msg_type src room body nick mid ts t :
  type_is (Make.make_envelope random clock msg_type src room body nick mid ts) t
  = (msg_type =? t).
Proof.
  unfold type_is.
  destruct (make_envelope_get random clock msg_type src room body nick mid ts)
    as (_ & -> & _).
  apply key_eqb_int.
Qed.

(** The one warning of a packet that does not fit. *)
Definition warning_for (me : Sender) (text : string) : list event :=
  if on_resource_warning me then [Resource_warning text] else [].

Lemma send_too_large me random clock msg_type src room body nick mid ts st events :
  _send me (Make.make_envelope random clock msg_type src room body nick mid ts) st
  = (events, Failed MessageTooLarge) ->
  events
  = warning_for me
      (if msg_type =? T_MSG then
         "Message is too large to send. Please shorten your message."
       else if msg_type =? T_NOTICE then
         "Notice is too large to send. Please shorten the notice."
       else "Message is too large to send over this link.").
Proof.
  unfold _send, warning_for. destruct (link st) as [l|]; [|done].
  destruct (Codec.encode _) as [payload|]; [|done].
  destruct (_packet_would_fit l payload); [done|]. cbn [negb].
  rewrite !type_is_made. by intros [= <-].
Qed.
End WarningFacts.

(** X11.  Without a link nothing is sent: [join], [part], [msg], [notice]
    and [ping] raise without handing a packet to the transport, [part]
    leaves the rooms as they are, and a PING is left unanswered. *)
Theorem nothing_sent_without_link `{Builtins} `{Outbound.Transport}
    (random : bytes) (clock : Z) (me : Outbound.Sender) (room key text : pyval)
    (body : option pyval) (st : Client.state) :
  Client.link st = None ->
  (exists e, Outbound.join random clock me room key st = ([], Outbound.Failed e))
  /\ (exists e, Outbound.part random clock me room st = (st, [], Outbound.Failed e))
  /\ (exists e, Outbound.msg random clock me room text st = ([], Outbound.Failed e))
  /\ (exists e, Outbound.notice random clock me room text st = ([], Outbound.Failed e))
  /\ Outbound.ping random clock me st = ([], Outbound.Failed Outbound.NotConnected)
  /\ Outbound.pong random clock me body st = [].
Proof.
  intros Hlink.
  unfold Outbound.join, Outbound.part, Outbound.msg, Outbound.notice, Outbound.ping,
    Outbound.pong.
  repeat split; repeat case_match; rewrite ?send_no_link in * by done;
    simplify_eq; eauto.
Qed.

Lemma nothing_sent_without_link_witness :
  (exists e, Outbound.join (H := Samples.builtins) (H1 := Examples.transport) Examples.random Examples.clock
               Examples.alice (VStr (str_lit "Lobby")) VNone Client.init
             = ([], Outbound.Failed e))
  /\ (exists e, Outbound.part (H := Samples.builtins) (H1 := Examples.transport) Examples.random Examples.clock
                  Examples.alice (VStr (str_lit "Lobby")) Client.init
                = (Client.init, [], Outbound.Failed e))
  /\ (exists e, Outbound.msg (H := Samples.builtins) (H1 := Examples.transport) Examples.random Examples.clock
                  Examples.alice (VStr (str_lit "Lobby")) (VStr (str_lit "hi")) Client.init
                = ([], Outbound.Failed e))
  /\ (exists e, Outbound.notice (H := Samples.builtins) (H1 := Examples.transport) Examples.random Examples.clock
                  Examples.alice (VStr (str_lit "Lobby")) (VStr (str_lit "hi")) Client.init
                = ([], Outbound.Failed e))
  /\ Outbound.ping (H1 := Examples.transport) Examples.random Examples.clock Examples.alice Client.init
     = ([], Outbound.Failed Outbound.NotConnected)
  /\ Outbound.pong (H1 := Examples.transport) Examples.random Examples.clock Examples.alice (Some (VInt 7)) Client.init
     = [].
Proof.
  apply (nothing_sent_without_link (H := Samples.builtins) (H0 := Examples.transport) Examples.random Examples.clock
           Examples.alice (VStr (str_lit "Lobby")) VNone (VStr (str_lit "hi"))
           (Some (VInt 7)) Client.init).
  reflexivity.
Defined.

(** X12.  [part] forgets the room only once the PART has gone out: when it
    returns, one packet was sent on the link and the normalized room is no
    longer among the rooms; when it raises, no packet was sent and the state
    is unchanged. *)
Theorem part_discards_after_send `{Builtins} `{Outbound.Transport}
    (random : bytes) (clock : Z) (me : Outbound.Sender) (room : pyval)
    (st st' : Client.state) (events : list Outbound.event) (r : Outbound.result unit) :
  Outbound.part random clock me room st = (st', events, r) ->
  match r with
  | Outbound.Done _ =>
      exists name l payload,
        room = VStr name /\ Client.link st = Some l
        /\ events = [Outbound.Packet_send l payload]
        /\ st' = Client.set_rooms st (Client.rooms st ∖ {[ lower (strip name) ]})
  | Outbound.Failed _ => st' = st /\ existsb is_packet events = false
  end.
Proof.
  unfold Outbound.part. destruct room as [| | | | |name| | |]; try by intros [= <- <- <-].
  destruct (lower (strip name)) as [|c r0] eqn:Hname; [by intros [= <- <- <-]|].
  destruct (Outbound._send _ _ st) as [evs [[]|e]] eqn:Hsend; intros [= <- <- <-].
  - apply send_done in Hsend as (l & payload & Hl & _ & _ & ->).
    exists name, l, payload. by rewrite Hname.
  - split; [done|]. by apply send_failed in Hsend.
Qed.

Lemma part_discards_after_send_witness :
  exists name l payload,
    VStr (str_lit " Lobby ") = VStr name /\ Client.link Examples.online = Some l
    /\ [Outbound.Packet_send 1%nat
          (Samples.packet
             (Make.make_envelope Examples.random Examples.clock T_PART (repeat 170 16)
                (Some (str_lit "lobby")) VNone None None None))]
       = [Outbound.Packet_send l payload]
    /\ Client.set_rooms Examples.online (Client.rooms Examples.online ∖ {[ str_lit "lobby" ]})
       = Client.set_rooms Examples.online
           (Client.rooms Examples.online
            ∖ {[ lower (Builtins := Samples.builtins) (strip name) ]}).
Proof.
  apply (part_discards_after_send (H := Samples.builtins) (H0 := Examples.transport) Examples.random Examples.clock
           Examples.alice (VStr (str_lit " Lobby ")) Examples.online _ _
           (Outbound.Done tt)).
  by vm_compute.
Defined.

(** X13.  When [msg] returns, exactly one packet went out on the link, the
    id returned is the fresh random one, and, if the packet is within the
    size [decode] accepts, it decodes to an envelope of type MSG with that
    id, the hash of the identity as source, the normalized room, the text as
    given (not stripped) as body, and the nickname of the client. *)
Theorem msg_delivers `{Builtins} `{Outbound.Transport}
    (random : bytes) (clock : Z) (me : Outbound.Sender) (room text : pyval)
    (st : Client.state) (events : list Outbound.event) (mid : bytes) :
  Outbound.msg random clock me room text st = (events, Outbound.Done mid) ->
  exists name body l payload,
    room = VStr name /\ text = VStr body /\ Client.link st = Some l
    /\ events = [Outbound.Packet_send l payload]
    /\ mid = random
    /\ (Z.of_nat (length payload) <= Codec.MAX_CBOR_SIZE ->
        exists env,
          Codec.decode payload = Some env
          /\ Client.env_get K_T env = Some (VInt T_MSG)
          /\ Client.env_get K_ID env = Some (VBytes mid)
          /\ Client.env_get K_SRC env = Some (VBytes (Outbound.identity_hash me))
          /\ Client.env_get K_ROOM env = Some (VStr (lower (strip name)))
          /\ Client.env_get K_BODY env = Some (VStr body)
          /\ Client.env_get K_NICK env = VStr <$> Outbound.nickname me).
Proof.
  unfold Outbound.msg.
  destruct room as [| | | | |name| | |]; try done;
    destruct text as [| | | | |body| | |]; try done.
  destruct (lower (strip name)) as [|c r] eqn:Hname; [done|].
  destruct (strip body) as [|c' r'] eqn:Hbody; [done|].
  cbv beta iota zeta. rewrite <- Hname.
  match goal with
  | |- context [Outbound._send me (Make.make_envelope ?a ?b ?c ?d ?r ?t ?n ?i ?s) st] =>
      destruct (make_envelope_get a b c d r t n i s)
        as (_ & Ht & Hid & _ & Hsrc & Hroom & Hb & Hnick);
      set (env := Make.make_envelope a b c d r t n i s) in *
  end.
  destruct (Outbound._send me env st) as [evs [[]|e]] eqn:Hsend; cbv beta iota; [|done].
  rewrite Hid. intros [= <- <-].
  apply send_done in Hsend as (l & payload & Hl & Henc & _ & ->).
  exists name, body, l, payload. repeat split; try done.
  intros Hlen. exists env. split; [|done].
  by apply made_round_trip.
Qed.

Lemma msg_delivers_witness :
  exists name body l payload,
    VStr (str_lit "Lobby") = VStr name /\ VStr (str_lit " hi ") = VStr body
    /\ Client.link Examples.online = Some l
    /\ [Outbound.Packet_send 1%nat
          (Samples.packet
             (Make.make_envelope Examples.random Examples.clock T_MSG (repeat 170 16)
                (Some (str_lit "lobby")) (VStr (str_lit " hi ")) (Some (str_lit "alice"))
                None None))]
       = [Outbound.Packet_send l payload]
    /\ Examples.random = Examples.random
    /\ (Z.of_nat (length payload) <= Codec.MAX_CBOR_SIZE ->
        exists env,
          Codec.decode payload = Some env
          /\ Client.env_get K_T env = Some (VInt T_MSG)
          /\ Client.env_get K_ID env = Some (VBytes Examples.random)
          /\ Client.env_get K_SRC env
             = Some (VBytes (Outbound.identity_hash Examples.alice))
          /\ Client.env_get K_ROOM env
             = Some (VStr (lower (Builtins := Samples.builtins) (strip name)))
          /\ Client.env_get K_BODY env = Some (VStr body)
          /\ Client.env_get K_NICK env = VStr <$> Outbound.nickname Examples.alice).
Proof.
  apply (msg_delivers (H := Samples.builtins) (H0 := Examples.transport) Examples.random Examples.clock
           Examples.alice (VStr (str_lit "Lobby")) (VStr (str_lit " hi "))
           Examples.online).
  by vm_compute.
Defined.

(** X14.  When a sending method raises [MessageTooLargeError], all it did
    was to warn, if [on_resource_warning] is set, once and with the text for
    the kind of envelope: the one for messages from [msg], the one for
    notices from [notice], the general one from [join] and [ping]. *)
Theorem oversize_send_warns `{Builtins} `{Outbound.Transport}
    (random : bytes) (clock : Z) (me : Outbound.Sender) (room text key : pyval)
    (st : Client.state) (events : list Outbound.event) :
  (Outbound.msg random clock me room text st
   = (events, Outbound.Failed Outbound.MessageTooLarge) ->
   events = warning_for me "Message is too large to send. Please shorten your message.")
  /\ (Outbound.notice random clock me room text st
      = (events, Outbound.Failed Outbound.MessageTooLarge) ->
      events = warning_for me "Notice is too large to send. Please shorten the notice.")
  /\ (Outbound.join random clock me room key st
      = (events, Outbound.Failed Outbound.MessageTooLarge) ->
      events = warning_for me "Message is too large to send over this link.")
  /\ (Outbound.ping random clock me st
      = (events, Outbound.Failed Outbound.MessageTooLarge) ->
      events = warning_for me "Message is too large to send over this link.").
Proof.
  unfold Outbound.msg, Outbound.notice, Outbound.join, Outbound.ping.
  repeat split.
  - destruct room as [| | | | |name| | |]; try done;
      destruct text as [| | | | |body| | |]; try done.
    destruct (lower (strip name)) as [|c r] eqn:Hname; [done|].
    destruct (strip body) as [|c' r'] eqn:Hbody; [done|]. cbv beta iota zeta.
    destruct (Outbound._send _ _ st) as [evs [[]|e]] eqn:Hsend.
    + destruct (Client.env_get _ _) as [[]|]; done.
    + intros [= <- ->]. by apply send_too_large in Hsend.
  - destruct room as [| | | | |name| | |]; try done;
      destruct text as [| | | | |body| | |]; try done.
    destruct (lower (strip name)) as [|c r] eqn:Hname; [done|].
    destruct (strip body) as [|c' r'] eqn:Hbody; [done|].
    intros Hsend. by apply send_too_large in Hsend.
  - destruct room as [| | | | |name| | |]; try done.
    destruct (lower (strip name)) as [|c r] eqn:Hname; [done|].
    intros Hsend. by apply send_too_large in Hsend.
  - intros Hsend. by apply send_too_large in Hsend.
Qed.

Lemma oversize_send_warns_witness :
  [Outbound.Resource_warning "Message is too large to send. Please shorten your message."]
  = warning_for Examples.alice "Message is too large to send. Please shorten your message.".
Proof.
  apply (proj1 (oversize_send_warns (H := Samples.builtins) (H0 := Examples.transport) Examples.random Examples.clock
                  Examples.alice (VStr (str_lit "Lobby"))
                  (VStr (str_lit "a text that, with the other fields, fills more than eighty bytes"))
                  VNone Examples.online _)).
  by vm_compute.
Defined.

(** X15.  A PING is answered with a PONG that echoes its body: for a valid
    PING packet [_on_packet] changes nothing and sends the reply, and the
    packet that goes out decodes to an envelope of type PONG, from this
    client, whose body is the body of the PING (none when the PING has none
    or has [None]). *)
Theorem ping_answered_with_pong `{Builtins} `{Outbound.Transport}
    (cfg : Client.ClientConfig) (now : Q) (data : bytes) (env : pyval)
    (random : bytes) (clock : Z) (me : Outbound.Sender) (st : Client.state)
    (l : nat) (payload : bytes) :
  Codec.decode data = Some env ->
  Envelope.validate_envelope env = Ok tt ->
  Client.env_get K_T env ≫= as_int = Some T_PING ->
  (forall body, Client.env_get K_BODY env = Some body -> well_formed body = true) ->
  Outbound.pong random clock me (Client.env_get K_BODY env) st
  = [Outbound.Packet_send l payload] ->
  Z.of_nat (length payload) <= Codec.MAX_CBOR_SIZE ->
  Client._on_packet cfg now data st
  = (st, [Client.SendPong (Client.env_get K_BODY env)])
  /\ exists reply,
       Codec.decode payload = Some reply
       /\ Client.env_get K_T reply = Some (VInt T_PONG)
       /\ Client.env_get K_SRC reply = Some (VBytes (Outbound.identity_hash me))
       /\ Client.env_get K_BODY reply
          = match Client.env_get K_BODY env with
            | Some VNone => None
            | body => body
            end.
Proof.
  intros Hdec Hval Ht Hwf Hpong Hlen. split.
  { unfold Client._on_packet, Client.dispatch. by rewrite Hdec, Hval, Ht. }
  unfold Outbound.pong in Hpong.
  set (body := default VNone (Client.env_get K_BODY env)) in *.
  assert (well_formed body = true) as Hbody.
  { subst body. destruct (Client.env_get K_BODY env) as [b|]; [by apply Hwf|done]. }
  match type of Hpong with
  | context [Outbound._send me (Make.make_envelope ?a ?b ?c ?d ?r ?t ?n ?i ?s) st] =>
      destruct (make_envelope_get a b c d r t n i s)
        as (_ & Htype & _ & _ & Hsrc & _ & Hb & _);
      set (reply := Make.make_envelope a b c d r t n i s) in *
  end.
  destruct (Outbound._send me reply st) as [evs [[]|e]] eqn:Hsend.
  - apply send_done in Hsend as (l' & payload' & _ & Henc & _ & ->).
    simpl in Hpong. injection Hpong as -> ->.
    exists reply. split; [by apply made_round_trip|]. split; [done|]. split; [done|].
    rewrite Hb. subst body. by destruct (Client.env_get K_BODY env) as [[]|].
  - apply send_failed in Hsend. simpl in Hpong. subst evs. done.
Qed.

Lemma ping_answered_with_pong_witness :
  Client._on_packet (H := Samples.builtins) Client.default_config 5
    (Samples.packet Examples.ping_envelope) Examples.online
  = (Examples.online, [Client.SendPong (Client.env_get K_BODY Examples.ping_envelope)])
  /\ exists reply,
       Codec.decode
         (Samples.packet
            (Make.make_envelope Examples.random Examples.clock T_PONG (repeat 170 16)
               None (VInt 7) None None None)) = Some reply
       /\ Client.env_get K_T reply = Some (VInt T_PONG)
       /\ Client.env_get K_SRC reply
          = Some (VBytes (Outbound.identity_hash Examples.alice))
       /\ Client.env_get K_BODY reply
          = match Client.env_get K_BODY Examples.ping_envelope with
            | Some VNone => None
            | body => body
            end.
Proof.
  apply (ping_answered_with_pong (H := Samples.builtins) (H0 := Examples.transport) Client.default_config 5
           (Samples.packet Examples.ping_envelope) Examples.ping_envelope
           Examples.random Examples.clock Examples.alice Examples.online 1%nat).
  - by vm_compute.
  - by vm_compute.
  - by vm_compute.
  - intros body [= <-]. reflexivity.
  - by vm_compute.
  - by vm_compute.
Defined.

(** X16.  [on_notice] is called for a concluded resource only if the
    resource was accepted before (it is active and has its expectation),
    the transfer is complete, the data could be read, its digest is the
    announced one when a non-empty digest was announced, the kind is
    "notice" or "motd", and the data decodes as text in the announced
    encoding; the notice carries that text, with the room of the
    announcement for a notice and no room for a message of the day. *)
Theorem resource_notice_sound `{Builtins} `{Concluded.Hashlib}
    (cfg : Client.ClientConfig) (t : Concluded.Transfer) (st : Client.state)
    (a : Client.action) :
  Client.reachable cfg st ->
  a ∈ (Concluded._resource_concluded t st).2 ->
  Client.handle (Concluded.resource t) ∈ Client._active_resources st
  /\ Concluded.complete t = true
  /\ exists exp data text,
       Client._resource_to_expectation st !! Client.handle (Concluded.resource t)
       = Some exp
       /\ Concluded.data t = Some data
       /\ (forall digest, Client.exp_sha256 exp = Some digest -> digest <> [] ->
             Concluded.sha256 data = digest)
       /\ Concluded.decode_text (Concluded.encoding_of exp) data = Some text
       /\ (Client.exp_kind exp = Concluded.RES_KIND_NOTICE
           /\ a = Client.OnNotice
                    (Concluded.notice_env text
                       (from_option VStr VNone (Client.exp_room exp)))
           \/ Client.exp_kind exp = Concluded.RES_KIND_MOTD
              /\ a = Client.OnNotice (Concluded.notice_env text VNone)).
Proof.
  intros Hr. destruct (reachable_active_inv cfg st Hr) as [Hdom _].
  unfold Concluded._resource_concluded. cbv zeta.
  destruct (Client._resource_to_expectation st !! _) as [exp|] eqn:Hexp;
    [|by intros ?%elem_of_nil].
  destruct (Concluded.complete t); [|by intros ?%elem_of_nil]. cbn [negb].
  destruct (Concluded.data t) as [data|]; [|by intros ?%elem_of_nil].
  destruct (Concluded.digest_mismatch exp data) eqn:Hdigest; [by intros ?%elem_of_nil|].
  assert (forall digest, Client.exp_sha256 exp = Some digest -> digest <> [] ->
            Concluded.sha256 data = digest) as Hsha.
  { intros digest Hd Hne. unfold Concluded.digest_mismatch in Hdigest.
    rewrite Hd in Hdigest. destruct digest as [|x digest]; [done|].
    apply negb_false_iff in Hdigest. by apply bool_decide_eq_true in Hdigest. }
  assert (Client.handle (Concluded.resource t) ∈ Client._active_resources st) as Hin.
  { rewrite <- Hdom. apply elem_of_dom. by exists exp. }
  case_bool_decide as Hnotice; [|case_bool_decide as Hmotd].
  - destruct (Concluded.decode_text _ data) as [text|] eqn:Htext;
      [|by intros ?%elem_of_nil].
    cbn [snd]. intros ->%list_elem_of_singleton. split; [done|]. split; [done|].
    exists exp, data, text. repeat split; try done. left. split; [done|].
    by destruct (Client.exp_room exp).
  - destruct (Concluded.decode_text _ data) as [text|] eqn:Htext;
      [|by intros ?%elem_of_nil].
    cbn [snd]. intros ->%list_elem_of_singleton. split; [done|]. split; [done|].
    exists exp, data, text. repeat split; try done. by right.
  - by intros ?%elem_of_nil.
Qed.

Lemma resource_notice_sound_witness :
  Client.handle (Concluded.resource Examples.transfer)
  ∈ Client._active_resources Examples.receiving
  /\ Concluded.complete Examples.transfer = true
  /\ exists exp data text,
       Client._resource_to_expectation Examples.receiving
       !! Client.handle (Concluded.resource Examples.transfer) = Some exp
       /\ Concluded.data Examples.transfer = Some data
       /\ (forall digest, Client.exp_sha256 exp = Some digest -> digest <> [] ->
             Concluded.sha256 (Hashlib := Examples.hashlib) data = digest)
       /\ Concluded.decode_text (Hashlib := Examples.hashlib) (Concluded.encoding_of exp) data
          = Some text
       /\ (Client.exp_kind exp = Concluded.RES_KIND_NOTICE
           /\ Client.OnNotice
                (Concluded.notice_env (str_lit "hi") (VStr (str_lit "general")))
              = Client.OnNotice
                  (Concluded.notice_env text
                     (from_option VStr VNone (Client.exp_room exp)))
           \/ Client.exp_kind exp = Concluded.RES_KIND_MOTD
              /\ Client.OnNotice
                   (Concluded.notice_env (str_lit "hi") (VStr (str_lit "general")))
                 = Client.OnNotice (Concluded.notice_env text VNone)).
Proof.
  apply (resource_notice_sound (H := Samples.builtins) (H0 := Examples.hashlib) Client.default_config
           Examples.transfer Examples.receiving).
  - unfold Client.reachable, Examples.receiving, Examples.announced, Examples.online.
    eapply rtc_r; [eapply rtc_r; [apply rtc_once, Client.step_connect|]|].
    + apply Client.step_packet.
    + apply Client.step_advertised.
  - vm_compute. constructor.
Defined.

(** ** backend.py: the rate limit *)
Lemma recorded_insert key (l : list Q) st :
  recorded key (Backend.set_room_operation_times st
                  (<[ key := l ]> (Backend.room_operation_times st))) = l.
Proof. unfold recorded. simpl. by rewrite lookup_insert_eq. Qed.

Lemma recorded_insert_ne key other (l : list Q) st :
  other <> key ->
  recorded other (Backend.set_room_operation_times st
                    (<[ key := l ]> (Backend.room_operation_times st)))
  = recorded other st.
Proof. intros Hne. unfold recorded. simpl. by rewrite lookup_insert_ne. Qed.

(** X17.  One check of the rate limit, on a record of at most ten
    admissions: the operation is admitted exactly when fewer than ten of the
    recorded admissions are less than 5 s old; the record of the key becomes
    those admissions, with the present one after them if it is admitted, so
    it never holds more than ten entries and none older than the window;
    the records of the other keys, the client and the catalog are left
    alone. *)
Theorem rate_limit_window (now : Q) (key : pystr) (st : Backend.state) :
  (length (recorded key st) <= 10)%nat ->
  let live := List.filter (Backend.in_window now) (recorded key st) in
  let '(admitted, st') := Backend._check_room_operation_rate_limit now key st in
  (admitted = true <-> (length live < 10)%nat)
  /\ recorded key st' = (if admitted then live ++ [now] else live)
  /\ (length (recorded key st') <= 10)%nat
  /\ Forall (fun t => (now - t < 5)%Q) (recorded key st')
  /\ (forall other, other <> key ->
        Backend.room_operation_times st' !! other
        = Backend.room_operation_times st !! other)
  /\ Backend.client st' = Backend.client st
  /\ Backend.discovered_hubs st' = Backend.discovered_hubs st.
Proof.
  intros Hbound live. unfold Backend._check_room_operation_rate_limit.
  fold (recorded key st). fold live.
  assert (Forall (fun t => (now - t < 5)%Q) live) as Hlive.
  { apply Forall_forall. intros t Ht. subst live.
    apply list_elem_of_In, filter_In in Ht as [_ Ht]. by apply in_window_true. }
  assert (length live <= 10)%nat as Hlen.
  { subst live. etrans; [apply List.filter_length_le|done]. }
  unfold Backend.room_op_rate_limit.
  destruct (Nat.leb_spec 10 (length live)) as [Hfull|Hroom].
  - split; [split; [done|lia]|]. rewrite recorded_insert.
    split; [done|]. split; [done|]. split; [done|].
    split; [|done]. intros other Hne. by apply lookup_insert_ne.
  - split; [split; [done|lia]|]. rewrite recorded_insert.
    split; [done|]. split; [rewrite length_app; cbn [length]; lia|].
    split.
    { apply Forall_app. split; [done|]. constructor; [|constructor].
      unfold Qminus. rewrite Qplus_opp_r. reflexivity. }
    split; [|done]. intros other Hne. by apply lookup_insert_ne.
Qed.

Lemma rate_limit_window_witness :
  let live := List.filter (Backend.in_window 6)
                (recorded (str_lit "part:lobby") Examples.busy) in
  let '(admitted, st') :=
    Backend._check_room_operation_rate_limit 6 (str_lit "part:lobby") Examples.busy in
  (admitted = true <-> (length live < 10)%nat)
  /\ recorded (str_lit "part:lobby") st' = (if admitted then live ++ [6%Q] else live)
  /\ (length (recorded (str_lit "part:lobby") st') <= 10)%nat
  /\ Forall (fun t => (6 - t < 5)%Q) (recorded (str_lit "part:lobby") st')
  /\ (forall other, other <> str_lit "part:lobby" ->
        Backend.room_operation_times st' !! other
        = Backend.room_operation_times Examples.busy !! other)
  /\ Backend.client st' = Backend.client Examples.busy
  /\ Backend.discovered_hubs st' = Backend.discovered_hubs Examples.busy.
Proof.
  apply (rate_limit_window 6 (str_lit "part:lobby") Examples.busy).
  vm_compute. lia.
Defined.

(** X18.  [part_room] has a limit of its own: a request that reaches the
    limiter is answered with the rate-limit error, and not recorded, when
    ten part requests for the room were admitted within the last 5 s, and
    is passed to [Client.part] and recorded otherwise; the record of the
    join requests for the room is not touched. *)
Theorem part_rate_limited `{Builtins} (now : Q) (room : pyval) (r : pystr)
    (st : Backend.state) :
  Backend.str_within (Some room) 64 = true ->
  is_Some (Backend.client st) ->
  Utils.normalize_room_name room = Some r ->
  let live := List.filter (Backend.in_window now) (recorded (str_lit "part:" ++ r) st) in
  let '(st', o) := Backend._handle_part_room now (Some room) st in
  (if (10 <=? length live)%nat
   then o = Backend.Reply (Backend.Error "Too many part requests. Please wait a moment.")
        /\ recorded (str_lit "part:" ++ r) st' = live
   else o = Backend.Client_part r
        /\ recorded (str_lit "part:" ++ r) st' = live ++ [now])
  /\ recorded (str_lit "join:" ++ r) st' = recorded (str_lit "join:" ++ r) st.
Proof.
  intros Hroom [c Hc] Hnorm live. unfold Backend._handle_part_room.
  rewrite Hroom, Hc. cbn [negb]. change (default VNone (Some room)) with room.
  rewrite Hnorm.
  unfold Backend._check_room_operation_rate_limit.
  fold (recorded (str_lit "part:" ++ r) st). fold live.
  assert (str_lit "join:" ++ r <> str_lit "part:" ++ r) as Hne by done.
  unfold Backend.room_op_rate_limit.
  destruct (10 <=? length live)%nat;
    by rewrite recorded_insert, recorded_insert_ne.
Qed.

Lemma part_rate_limited_witness :
  let live := List.filter (Backend.in_window 4.75)
                (recorded (str_lit "part:lobby") Examples.busy) in
  let '(st', o) :=
    Backend._handle_part_room (H := Samples.builtins) 4.75
      (Some (VStr (str_lit "Lobby"))) Examples.busy in
  (if (10 <=? length live)%nat
   then o = Backend.Reply (Backend.Error "Too many part requests. Please wait a moment.")
        /\ recorded (str_lit "part:lobby") st' = live
   else o = Backend.Client_part (str_lit "lobby")
        /\ recorded (str_lit "part:lobby") st' = live ++ [4.75%Q])
  /\ recorded (str_lit "join:lobby") st' = recorded (str_lit "join:lobby") Examples.busy.
Proof.
  apply (part_rate_limited (H := Samples.builtins) 4.75 (VStr (str_lit "Lobby"))
           (str_lit "lobby") Examples.busy).
  - reflexivity.
  - by eexists.
  - reflexivity.
Defined.

(** ** backend.py: what is forwarded to the hub *)
Section ForwardFacts.
Context `{Builtins}.

Lemma sanitized_is_string (v : pyval) (s : pystr) :
  Utils.sanitize_text_input v = Some s ->
  Utils.sanitize_text_input (VStr s) = Some s.
Proof.
  unfold Utils.sanitize_text_input. destruct v; try done.
  intros Hs. by apply sanitize_text_input_fixed in Hs as (_ & _ & _ & _ & ?).
Qed.

Lemma command_forwards now room text st st' r t :
  Backend._handle_command now room text st = (st', Backend.Client_msg r t) ->
  r = room /\ t = text.
Proof.
  unfold Backend._handle_command, Backend._handle_join_room, Backend._handle_part_room.
  repeat case_match; try done; by intros [= _ <- <-].
Qed.
End ForwardFacts.

(** X19.  Whatever [send_message] (a slash command included) or
    [send_command] hands to [Client.msg] has been sanitized: the room is the
    normalized name of the room sent, and the text is what
    [sanitize_text_input] made of the text sent, which it would return
    unchanged: non-empty, at most 1024 characters, without the characters
    it rejects and without white space at the ends. *)
Theorem forwarded_text_sanitized `{Builtins} (now : Q) (room text command : option pyval)
    (st st' : Backend.state) (r t : pystr) :
  (Backend._handle_send_message now room text st = (st', Backend.Client_msg r t) ->
   Utils.normalize_room_name (default VNone room) = Some r
   /\ Utils.sanitize_text_input (default VNone text) = Some t
   /\ Utils.sanitize_text_input (VStr t) = Some t)
  /\ (Service._handle_send_command command room st = Service.Command_msg r t ->
      Utils.normalize_room_name (default (VStr (str_lit "[Hub]")) room) = Some r
      /\ Utils.sanitize_text_input (default VNone command) = Some t
      /\ Utils.sanitize_text_input (VStr t) = Some t).
Proof.
  split.
  - unfold Backend._handle_send_message.
    destruct (negb (Backend.str_within room 64)); [done|].
    destruct (negb (Backend.str_within text 10000)); [done|].
    destruct (Backend.client st); [|done].
    destruct (Utils.normalize_room_name _) as [normalized_room|]; [|done].
    destruct (Utils.sanitize_text_input _) as [sanitized_text|] eqn:Hs; [|done].
    pose proof (sanitized_is_string _ _ Hs) as Hfixed.
    destruct (startswith sanitized_text (str_lit "/")).
    + intros [-> ->]%command_forwards. done.
    + by intros [= _ <- <-].
  - unfold Service._handle_send_command. cbv zeta.
    destruct (negb (Backend.str_within command 10000)); [done|].
    destruct (negb (Backend.str_within _ 64)); [done|].
    destruct (Backend.client st); [|done].
    destruct (Utils.normalize_room_name _) as [normalized_room|]; [|done].
    destruct (Utils.sanitize_text_input _) as [sanitized_command|] eqn:Hs; [|done].
    pose proof (sanitized_is_string _ _ Hs) as Hfixed. by intros [= <- <-].
Qed.

Lemma forwarded_text_sanitized_witness :
  Utils.normalize_room_name (H := Samples.builtins)
    (default VNone (Some (VStr (str_lit " Lobby ")))) = Some (str_lit "lobby")
  /\ Utils.sanitize_text_input (default VNone (Some (VStr (str_lit " /me waves "))))
     = Some (str_lit "/me waves")
  /\ Utils.sanitize_text_input (VStr (str_lit "/me waves")) = Some (str_lit "/me waves").
Proof.
  apply (proj1 (forwarded_text_sanitized (H := Samples.builtins) 6
                  (Some (VStr (str_lit " Lobby "))) (Some (VStr (str_lit " /me waves ")))
                  None Examples.busy Examples.busy (str_lit "lobby")
                  (str_lit "/me waves"))).
  by vm_compute.
Defined.

(** ** backend.py: announces *)
Section OdGetFacts.
Context {K V : Type} `{EqDecision K}.
Implicit Type d : list (K * V).


End OdGetFacts.

Section AnnounceFacts.
Context `{Builtins} `{Cbor2}.
Import Backend.


End AnnounceFacts.



(** ** backend.py: the hub hash of a connect request *)
Section HubHashFacts.
Import Hashes.

Lemma hex_value_not_space (c : Z) : is_Some (hex_value c) -> ascii_space c = false.
Proof.
  unfold hex_value, ascii_space. intros [v Hv].
  destruct (Z.leb_spec 48 c), (Z.leb_spec c 57), (Z.leb_spec 97 c), (Z.leb_spec c 102),
    (Z.leb_spec 65 c), (Z.leb_spec c 70); simpl in Hv; try done; lia.
Qed.

Lemma fromhex_digits (n : nat) (s : pystr) :
  length s = (2 * n)%nat -> Forall (fun c => is_Some (hex_value c)) s ->
  exists b, fromhex s = Some b /\ length b = n.
Proof.
  revert s. induction n as [|n IH]; intros s Hlen Hs.
  - destruct s; [|done]. by exists [].
  - destruct s as [|c [|d s]]; try (simpl in Hlen; lia).
    inversion Hs as [|? ? Hc Hs1]; subst. inversion Hs1 as [|? ? Hd Hs2]; subst.
    destruct (IH s) as (b & Hb & Hbn); [simpl in Hlen; lia|done|].
    cbn [fromhex]. rewrite (hex_value_not_space c Hc).
    destruct Hc as [top ->], Hd as [bot ->]. rewrite Hb.
    eexists. split; [reflexivity|]. simpl. by rewrite Hbn.
Qed.
End HubHashFacts.

(** [str.lower] on ASCII letters keeps the length, and turns nothing but a
    hexadecimal digit into one. *)
Lemma ascii_lower_hex (s : pystr) :
  Forall (fun c => c ∈ str_lit "0123456789abcdef") (lower (Builtins := Samples.builtins) s) ->
  length (lower (Builtins := Samples.builtins) s) = length s
  /\ Forall (fun c => is_Some (Hashes.hex_value c)) s.
Proof.
  cbn [lower Samples.builtins]. intros Hs. split; [apply length_map|].
  apply Forall_map in Hs. eapply Forall_impl; [exact Hs|].
  intros c Hc. cbn beta in Hc.
  assert (forall d, d ∈ str_lit "0123456789abcdef" -> 48 <= d <= 57 \/ 97 <= d <= 102)
    as Hdigit.
  { intros d Hd. cbn [str_lit] in Hd.
    repeat (apply elem_of_cons in Hd as [->|Hd]; [vm_compute; intuition congruence|]).
    by apply elem_of_nil in Hd. }
  apply Hdigit in Hc. unfold Hashes.hex_value.
  destruct (Z.leb_spec 65 c), (Z.leb_spec c 90); cbn [andb] in Hc;
    destruct (Z.leb_spec 48 c), (Z.leb_spec c 57), (Z.leb_spec 97 c), (Z.leb_spec c 102),
      (Z.leb_spec 65 c), (Z.leb_spec c 70); cbn [andb]; try (by eexists); lia.
Qed.

(** X21.  The checks of [_handle_connect] leave nothing for [parse_hash] to
    reject: a hub hash that passes them (a string whose stripped form,
    colons and blanks removed and put in lower case, is 32 hexadecimal
    digits) is parsed, to 16 bytes; every other is answered by one of the
    error replies of the checks.  [str.lower] is taken to keep the length
    of, and to find hexadecimal digits only in, a string that it turns into
    hexadecimal digits. *)
Theorem hub_hash_checked `{Builtins} (hub_hash : pyval) :
  (forall s, Forall (fun c => c ∈ str_lit "0123456789abcdef") (lower s) ->
     length (lower s) = length s /\ Forall (fun c => is_Some (Hashes.hex_value c)) s) ->
  match Service.check_hub_hash hub_hash with
  | Service.Hash_parsed hub_hash_bytes =>
      length hub_hash_bytes = 16%nat
      /\ Forall (fun x => 0 <= x < 256) hub_hash_bytes
      /\ exists text, hub_hash = VStr text /\ Hashes.parse_hash text = Some hub_hash_bytes
  | Service.Hash_error error => error <> "Invalid connection parameters"%string
  end.
Proof.
  intros Hlower. unfold Service.check_hub_hash.
  destruct hub_hash as [| | | | |text| | |]; try done.
  destruct (128 <? length text)%nat; [done|].
  destruct text as [|c0 text0] eqn:Htext; [done|]. rewrite <- Htext. clear Htext.
  cbv zeta.
  set (raw := Hashes.remove_char 32 (Hashes.remove_char 58 (strip text))).
  destruct (forallb _ (lower raw)) eqn:Hall; [|done]. cbn [negb].
  destruct (Nat.eqb_spec (length (lower raw)) Service.REQUIRED_HUB_HASH_LENGTH)
    as [Hlen|]; [|done]. cbn [negb].
  rewrite forallb_forall in Hall.
  destruct (Hlower raw) as [Hsame Hdigits].
  { apply Forall_forall. intros c Hc%list_elem_of_In. apply Hall in Hc.
    by apply bool_decide_eq_true in Hc. }
  destruct (fromhex_digits 16 raw) as (b & Hb & Hbn); [by rewrite <- Hsame|done|].
  unfold Hashes.parse_hash. fold raw. rewrite Hb.
  split; [done|]. split; [|by exists text].
  by apply (fromhex_bytes _ _ _ (le_n _)) in Hb as [? _].
Qed.

Lemma hub_hash_checked_witness :
  match Service.check_hub_hash (H := Samples.builtins)
          (VStr (str_lit " 00:11:22:33:44:55:66:77:88:99:AA:BB:CC:DD:EE:FF ")) with
  | Service.Hash_parsed hub_hash_bytes =>
      length hub_hash_bytes = 16%nat
      /\ Forall (fun x => 0 <= x < 256) hub_hash_bytes
      /\ exists text,
           VStr (str_lit " 00:11:22:33:44:55:66:77:88:99:AA:BB:CC:DD:EE:FF ") = VStr text
           /\ Hashes.parse_hash text = Some hub_hash_bytes
  | Service.Hash_error error => error <> "Invalid connection parameters"%string
  end.
Proof. apply (hub_hash_checked (H := Samples.builtins)). apply ascii_lower_hex. Defined.

(** ** backend.py: the rooms *)
Section RoomFacts.
Import Service.

Lemma has_room_keys room (r : list (pystr * RoomData)) :
  has_room room r = true <-> room ∈ od_keys r.
Proof.
  unfold has_room. rewrite bool_decide_eq_true.
  induction r as [|[k d] r IH]; simpl.
  - split; [by intros [? ?]|by intros ?%elem_of_nil].
  - destruct (decide (k = room)) as [->|Hne].
    + split; [intros _; by left|by eexists].
    + rewrite IH. split; [by right|]. by intros [?|?]%elem_of_cons.
Qed.

Lemma update_room_keys room f (r : list (pystr * RoomData)) :
  od_keys (update_room room f r) = od_keys r.
Proof.
  unfold update_room. destruct (od_get room r) as [d|] eqn:Hd; [|done].
  apply od_set_keys_in. apply has_room_keys. unfold has_room.
  apply bool_decide_eq_true. by rewrite Hd.
Qed.

Lemma update_room_length room f (r : list (pystr * RoomData)) :
  length (update_room room f r) = length r.
Proof.
  rewrite <- (length_map fst (update_room room f r)), <- (length_map fst r).
  f_equal. apply update_room_keys.
Qed.

Lemma add_users_keys room l (r : list (pystr * RoomData)) :
  od_keys (add_users room l r) = od_keys r.
Proof.
  unfold add_users. revert r. induction l as [|u l IH]; intros r; simpl; [done|].
  rewrite IH. destruct u; try done. apply update_room_keys.
Qed.

(** The room table: one entry per room, the hub's among them, at most
    [MAX_ROOMS] in all. *)
Definition rooms_ok (r : list (pystr * RoomData)) : Prop :=
  NoDup (od_keys r) /\ HUB ∈ od_keys r /\ (length r <= MAX_ROOMS)%nat.

Lemma rooms_ok_keys (r r' : list (pystr * RoomData)) :
  od_keys r' = od_keys r -> rooms_ok r -> rooms_ok r'.
Proof.
  unfold rooms_ok. intros Hk (Hnd & Hhub & Hlen). rewrite Hk.
  split; [done|]. split; [done|].
  unfold od_keys in Hk. by rewrite <- (length_map fst r'), Hk, length_map.
Qed.

(** The table after the room was made, if it was missing and there was
    room for it. *)
Lemma rooms_ok_made room (r : list (pystr * RoomData)) :
  rooms_ok r ->
  (negb (has_room room r) && (MAX_ROOMS <=? length r)%nat) = false ->
  rooms_ok (if has_room room r then r else od_set room new_room r)
  /\ has_room room (if has_room room r then r else od_set room new_room r) = true.
Proof.
  intros (Hnd & Hhub & Hlen) Hfree.
  destruct (has_room room r) eqn:Hin; [done|]. cbn [negb andb] in Hfree.
  apply Nat.leb_gt in Hfree.
  assert (room ∉ od_keys r) as Hnotin.
  { intros Hk%has_room_keys. by rewrite Hin in Hk. }
  rewrite od_set_notin by done. split.
  - split; [|split].
    + rewrite od_keys_app. simpl. apply NoDup_app. split; [done|].
      split; [|apply NoDup_singleton].
      intros k Hk ->%list_elem_of_singleton. done.
    + rewrite od_keys_app. apply elem_of_app. by left.
    + rewrite length_app. cbn [length]. lia.
  - apply has_room_keys. rewrite od_keys_app. apply elem_of_app. right. by left.
Qed.

Lemma on_message_rooms_ok timestamp env st st' :
  _on_message timestamp env st = Some st' -> rooms_ok (rooms st) -> rooms_ok (rooms st').
Proof.
  unfold _on_message. destruct (room_key _ _) as [room|]; [|done].
  cbn [mbind option_bind]. cbv zeta.
  set (st1 := match default (VBytes []) (Client.env_get K_SRC env) with
              | VBytes b => _ | _ => st end).
  assert (rooms st1 = rooms st) as Hst1.
  { subst st1. repeat case_match; done. }
  rewrite Hst1. intros Hstep Hok.
  destruct (negb (has_room room (rooms st)) && _) eqn:Hfree.
  - injection Hstep as <-. by rewrite Hst1.
  - injection Hstep as <-. cbn [rooms set_rooms].
    destruct (rooms_ok_made room _ Hok Hfree) as [Hmade _].
    eapply rooms_ok_keys; [|exact Hmade].
    rewrite update_room_keys. destruct (default _ _); try done. apply update_room_keys.
Qed.

Lemma on_notice_rooms_ok timestamp env st st' :
  _on_notice timestamp env st = Some st' -> rooms_ok (rooms st) -> rooms_ok (rooms st').
Proof.
  unfold _on_notice. cbv zeta. destruct (truthy _ && _); [by intros [= <-]|].
  destruct (room_or_hub _) as [room|]; [|done]. cbn [mbind option_bind].
  intros Hstep Hok. destruct (negb (has_room room (rooms st)) && _) eqn:Hfree.
  - by injection Hstep as <-.
  - injection Hstep as <-. cbn [rooms set_rooms].
    destruct (rooms_ok_made room _ Hok Hfree) as [Hmade _].
    eapply rooms_ok_keys; [|exact Hmade]. apply update_room_keys.
Qed.

Lemma on_welcome_rooms_ok timestamp env st :
  rooms_ok (rooms st) -> rooms_ok (rooms (_on_welcome timestamp env st)).
Proof.
  intros Hok. unfold _on_welcome. cbv zeta. cbn [rooms].
  pose proof Hok as (_ & Hhub%has_room_keys & _). rewrite Hhub.
  eapply rooms_ok_keys; [|exact Hok]. apply update_room_keys.
Qed.

Lemma on_joined_rooms_ok timestamp room env st :
  rooms_ok (rooms st) -> rooms_ok (rooms (_on_joined timestamp room env st)).
Proof.
  intros Hok. unfold _on_joined.
  assert (forall l,
    rooms_ok (rooms
      (if negb (has_room room (rooms st)) && (MAX_ROOMS <=? length (rooms st))%nat
       then st
       else set_rooms st
              (update_room room
                 (append (VDict [entry "type" (VStr (str_lit "system"));
                                 entry "room" (VStr room);
                                 entry "text" (VStr (str_lit "Joined room: " ++ room));
                                 entry "timestamp" (VStr timestamp)]))
                 (add_users room l
                    (if has_room room (rooms st) then rooms st
                     else od_set room new_room (rooms st))))))) as Hself.
  { intros l. destruct (negb (has_room room (rooms st)) && _) eqn:Hfree; [done|].
    cbn [rooms set_rooms]. destruct (rooms_ok_made room _ Hok Hfree) as [Hmade _].
    eapply rooms_ok_keys; [|exact Hmade]. by rewrite update_room_keys, add_users_keys. }
  destruct (user_list env) as [|u [|u' l]]; [apply Hself| |apply Hself].
  destruct (negb (has_room room (rooms st))); [done|].
  destruct u; try done. cbn [rooms set_rooms].
  eapply rooms_ok_keys; [|exact Hok]. by rewrite !update_room_keys.
Qed.

Lemma on_parted_rooms_ok timestamp room env st :
  rooms_ok (rooms st) -> rooms_ok (rooms (_on_parted timestamp room env st)).
Proof.
  intros Hok. unfold _on_parted.
  destruct (user_list env) as [|u [|u' l]]; cbn [rooms set_rooms].
  - eapply rooms_ok_keys; [|exact Hok]. apply update_room_keys.
  - destruct (negb (has_room room (rooms st))); [done|].
    destruct u; try done. cbn [rooms set_rooms].
    eapply rooms_ok_keys; [|exact Hok]. by rewrite !update_room_keys.
  - eapply rooms_ok_keys; [|exact Hok]. apply update_room_keys.
Qed.

Lemma rooms_ok_init : rooms_ok [(HUB, new_room)].
Proof.
  split; [apply NoDup_singleton|]. split; [by left|]. cbn [length]. unfold MAX_ROOMS. lia.
Qed.

Lemma step_rooms_ok st st' : step st st' -> rooms_ok (rooms st) -> rooms_ok (rooms st').
Proof.
  destruct 1; intros Hok.
  - by eapply on_message_rooms_ok.
  - by eapply on_notice_rooms_ok.
  - by apply on_welcome_rooms_ok.
  - by apply on_joined_rooms_ok.
  - by apply on_parted_rooms_ok.
  - apply rooms_ok_init.
  - unfold _handle_set_active_room. by repeat case_match.
Qed.

Lemma reachable_rooms_inv st : reachable st -> rooms_ok (rooms st).
Proof.
  unfold reachable. intros Hr. apply rtc_nsteps in Hr as [n Hr].
  revert st Hr. induction n as [|n IH]; intros st Hr.
  - inversion Hr; subst. apply rooms_ok_init.
  - apply nsteps_inv_r in Hr as (mid & Hmid & Hstep).
    eapply step_rooms_ok; [exact Hstep|]. by apply IH.
Qed.
End RoomFacts.

(** X22.  Whatever envelopes arrive and whatever the browser asks, the
    room table keeps one entry per room, the hub's room among them, and
    never more than [MAX_ROOMS] (100) entries. *)
Theorem rooms_bounded (st : Service.state) :
  Service.reachable st ->
  NoDup (od_keys (Service.rooms st))
  /\ Service.HUB ∈ od_keys (Service.rooms st)
  /\ (length (Service.rooms st) <= Service.MAX_ROOMS)%nat.
Proof. apply reachable_rooms_inv. Qed.

Lemma rooms_bounded_witness :
  NoDup (od_keys (Service.rooms (Service._on_welcome (str_lit "12:00:00") Examples.chat
                                   Service.init)))
  /\ Service.HUB ∈ od_keys (Service.rooms (Service._on_welcome (str_lit "12:00:00")
                                             Examples.chat Service.init))
  /\ (length (Service.rooms (Service._on_welcome (str_lit "12:00:00") Examples.chat
                               Service.init)) <= Service.MAX_ROOMS)%nat.
Proof.
  apply (rooms_bounded (Service._on_welcome (str_lit "12:00:00") Examples.chat Service.init)).
  apply rtc_once, Service.step_welcome.
Defined.

Section HistoryFacts.
Import Service.





End HistoryFacts.
Section MadeRoomFacts.
Import Service.


End MadeRoomFacts.




